(** * JRA odds scraper: a shallow embedding of [scraping.py]

    The development follows the source file top-down:

    - [PyText]: the Python text primitives the scraper relies on
      ([int], slicing, [in], [str.replace], [str.zfill], [re.search] and
      [re.match] for the two fixed patterns of the source);
    - [PyDict]: insertion-ordered dictionaries ([dict] keeps the position
      of a key that is assigned again, and [min] walks the keys in that
      order);
    - [Dom]: what Playwright locators return on a loaded page;
    - [Scraper]: [JRAOddsScraper] itself, i.e. [_extract_tanpuku_odds],
      [_extract_umaren_odds], [_extract_odds_from_page], [get_race_odds],
      [get_daily_odds] and the single-race branch of [main];
    - [RaceIds] and [Json]: [_get_race_ids_for_date] over the files it
      reads, and what [json.dump] accepts of a record and of a report;
    - [Tables]: [create_place_summary_table] and
      [create_csv_data_for_place] of [app.py].

    Conventions.  Text is a [string]; the Japanese literals of the source
    appear UTF-8 encoded, and the text primitives are modelled on ASCII
    input (decimal digits and blanks outside ASCII are not recognised).
    Odds are IEEE 754 binary64 numbers, the [float] of Python, here
    [double]: [float()] is a parameter of the development returning any
    of them, NaN and the infinities included, and the arithmetic and the
    comparisons on odds are those of the format; [sum()] over odds is a
    parameter too.  A Python exception is the [Raise] outcome of the
    [exc] type, carrying [str(e)].  [print] and [time.sleep] do not
    appear: they are taken to return. *)

From Stdlib Require Import List String Ascii ZArith Bool Lia.
From Stdlib Require Import DecimalString DecimalZ DecimalPos.
From Stdlib Require Import Floats.
From Stdlib Require Uint63.
Import ListNotations.

(** The literals of the source and of the examples stand for the nearest
    binary64 number, as they do in Python. *)
Set Warnings "-inexact-float".

(** Python's [float]. *)
Abbreviation double := PrimFloat.float (only parsing).

Open Scope list_scope.
Open Scope string_scope.

Set Implicit Arguments.

(* ================================================================== *)
(** ** Exceptions *)

Inductive exc (A : Type) : Type :=
| Ret (a : A)
| Raise (msg : string).

Arguments Ret {A} a.
Arguments Raise {A} msg.

Definition of_option {A} (msg : string) (o : option A) : exc A :=
  match o with
  | Some a => Ret a
  | None => Raise msg
  end.

Definition and_then {A B} (r : exc A) (k : A -> exc B) : exc B :=
  match r with
  | Ret a => k a
  | Raise e => Raise e
  end.

(* ================================================================== *)
(** ** The order of the floats *)

Module FloatRank.

(** The place of a float in the order of the IEEE 754 comparisons: its
    class (negative infinity, negative, zero, positive, positive
    infinity), then exponent and significand, both negated for a negative
    number.  NaN has no place. *)
Definition rank (f : spec_float) : option (Z * Z * Z) :=
  match f with
  | S754_nan => None
  | S754_zero _ => Some (0, 0, 0)%Z
  | S754_infinity true => Some (-2, 0, 0)%Z
  | S754_infinity false => Some (2, 0, 0)%Z
  | S754_finite true m e => Some (-1, - e, Zneg m)%Z
  | S754_finite false m e => Some (1, e, Zpos m)%Z
  end.

(** The comparison of two places, and the orders it decides. *)
Definition cmp3 (a b : Z * Z * Z) : comparison :=
  let '(a1, a2, a3) := a in
  let '(b1, b2, b3) := b in
  match (a1 ?= b1)%Z with
  | Eq => match (a2 ?= b2)%Z with
          | Eq => (a3 ?= b3)%Z
          | c => c
          end
  | c => c
  end.

Definition lt3 (a b : Z * Z * Z) : Prop :=
  let '(a1, a2, a3) := a in
  let '(b1, b2, b3) := b in
  (a1 < b1 \/ (a1 = b1 /\ (a2 < b2 \/ (a2 = b2 /\ a3 < b3))))%Z.

Definition le3 (a b : Z * Z * Z) : Prop :=
  let '(a1, a2, a3) := a in
  let '(b1, b2, b3) := b in
  (a1 < b1 \/ (a1 = b1 /\ (a2 < b2 \/ (a2 = b2 /\ a3 <= b3))))%Z.

End FloatRank.

(* ================================================================== *)
(** ** Python text primitives *)

Module PyText.

Definition is_digit (c : ascii) : bool :=
  let n := nat_of_ascii c in (48 <=? n)%nat && (n <=? 57)%nat.

Definition digit_val (c : ascii) : Z := Z.of_nat (nat_of_ascii c - 48).

(** The blanks [int()] skips around a literal: tab, line feed, vertical
    tab, form feed, carriage return and space. *)
Definition is_space (c : ascii) : bool :=
  let n := nat_of_ascii c in
  ((9 <=? n)%nat && (n <=? 13)%nat) || (n =? 32)%nat.

(** The blanks of [str.strip()]: those, and the four separators
    [\x1c]..[\x1f]. *)
Definition is_whitespace (c : ascii) : bool :=
  let n := nat_of_ascii c in
  is_space c || ((28 <=? n)%nat && (n <=? 31)%nat).

Fixpoint lstrip (blank : ascii -> bool) (s : string) : string :=
  match s with
  | String c s' => if blank c then lstrip blank s' else s
  | EmptyString => EmptyString
  end.

Fixpoint rstrip (blank : ascii -> bool) (s : string) : string :=
  match s with
  | EmptyString => EmptyString
  | String c s' =>
      let r := rstrip blank s' in
      if blank c && (r =? "") then EmptyString else String c r
  end.

(** [s.strip()] *)
Definition strip (s : string) : string :=
  rstrip is_whitespace (lstrip is_whitespace s).

(** The digit part of an integer literal: digits, with single
    underscores allowed between two digits. *)
Fixpoint int_digits (acc : Z) (after_digit : bool) (s : string)
  : option Z :=
  match s with
  | EmptyString => if after_digit then Some acc else None
  | String c s' =>
      if is_digit c then int_digits (10 * acc + digit_val c) true s'
      else if (c =? "_")%char && after_digit then int_digits acc false s'
      else None
  end.

(** [int(s)]; [None] stands for [ValueError]. *)
Definition py_int (s : string) : option Z :=
  match rstrip is_space (lstrip is_space s) with
  | String "-" t => option_map Z.opp (int_digits 0 false t)
  | String "+" t => int_digits 0 false t
  | t => int_digits 0 false t
  end.

(** [f"{n}"] for an integer [n]. *)
Definition str_of_int (n : Z) : string :=
  NilZero.string_of_int (Z.to_int n).

(** The digits of a literal. *)
Fixpoint digit_count (s : string) : nat :=
  match s with
  | EmptyString => 0
  | String c s' => if is_digit c then S (digit_count s') else digit_count s'
  end.

(** [sys.get_int_max_str_digits()], at its default. *)
Definition max_str_digits : nat := 4300.

(** [int(s)]: a literal of more digits than the limit is refused like a
    text that is no literal, with a [ValueError]. *)
Definition int (s : string) : exc Z :=
  match py_int s with
  | None => Raise ("invalid literal for int() with base 10: '" ++ s ++ "'")
  | Some n =>
      if (max_str_digits <? digit_count s)%nat then
        Raise ("Exceeds the limit (4300 digits) for integer string "
               ++ "conversion: value has "
               ++ str_of_int (Z.of_nat (digit_count s))
               ++ " digits; use sys.set_int_max_str_digits() "
               ++ "to increase the limit")
      else Ret n
  end.

(** [s[a:b]] for [0 <= a <= b]. *)
Definition slice (a b : nat) (s : string) : string :=
  substring a (b - a) s.

(** [needle in hay] *)
Fixpoint contains (needle hay : string) : bool :=
  prefix needle hay ||
  match hay with
  | EmptyString => false
  | String _ hay' => contains needle hay'
  end.

(** [s.replace(c, "")] for a one-character [c]. *)
Fixpoint remove (c : ascii) (s : string) : string :=
  match s with
  | EmptyString => EmptyString
  | String a s' =>
      if (a =? c)%char then remove c s' else String a (remove c s')
  end.

Fixpoint zeros (n : nat) : string :=
  match n with
  | O => EmptyString
  | S n' => String "0" (zeros n')
  end.

(** [s.zfill(width)]: zeros go after a leading sign. *)
Definition zfill (width : nat) (s : string) : string :=
  let pad := zeros (width - String.length s) in
  match s with
  | String "+" t => String "+" (pad ++ t)
  | String "-" t => String "-" (pad ++ t)
  | _ => pad ++ s
  end.

(** The longest run of digits at the head of [s], and what follows. *)
Fixpoint span_digits (s : string) : string * string :=
  match s with
  | String c s' =>
      if is_digit c
      then let (d, r) := span_digits s' in (String c d, r)
      else (EmptyString, s)
  | EmptyString => (EmptyString, EmptyString)
  end.

Fixpoint drop_prefix (p s : string) : option string :=
  match p, s with
  | EmptyString, _ => Some s
  | String a p', String b s' =>
      if (a =? b)%char then drop_prefix p' s' else None
  | String _ _, EmptyString => None
  end.

(** One attempt of the pattern [(\d+)時(\d+)分] at the head of [s].  A
    digit run is always followed by a non-digit literal, so the greedy
    run is the only candidate. *)
Definition match_time_here (s : string) : option (string * string) :=
  let (h, r1) := span_digits s in
  if h =? "" then None
  else match drop_prefix "時" r1 with
       | None => None
       | Some r2 =>
           let (m, r3) := span_digits r2 in
           if m =? "" then None
           else if prefix "分" r3 then Some (h, m) else None
       end.

(** [re.search(r"(\d+)時(\d+)分", s)]: the two groups of the leftmost
    match. *)
Fixpoint re_search_time (s : string) : option (string * string) :=
  match match_time_here s with
  | Some g => Some g
  | None =>
      match s with
      | EmptyString => None
      | String _ s' => re_search_time s'
      end
  end.

(** Exactly [n] digits at the head of [s]; returns what follows. *)
Fixpoint match_digits (n : nat) (s : string) : option string :=
  match n with
  | O => Some s
  | S n' =>
      match s with
      | String c s' => if is_digit c then match_digits n' s' else None
      | EmptyString => None
      end
  end.

Definition LF : string := String (ascii_of_nat 10) EmptyString.

(** [re.match(r'^\d{10}$', s)]: [$] matches at the end of the text and
    also just before a line feed that ends the text. *)
Definition re_match_race_id (s : string) : bool :=
  match match_digits 10 s with
  | Some rest => (rest =? "") || (rest =? LF)
  | None => false
  end.

Definition all_digits (s : string) : bool :=
  forallb is_digit (list_ascii_of_string s).

Definition is_ascii (s : string) : bool :=
  forallb (fun c => (nat_of_ascii c <? 128)%nat) (list_ascii_of_string s).

End PyText.

(* ================================================================== *)
(** ** Insertion-ordered dictionaries *)

Module PyDict.

(** The equality test of a key type ([__eq__] on [int] and on pairs of
    [int]). *)
Class Key (K : Type) : Type := key_eqb : K -> K -> bool.

#[global] Instance Key_Z : Key Z := Z.eqb.

#[global] Instance Key_pair : Key (Z * Z) :=
  fun a b => (fst a =? fst b)%Z && (snd a =? snd b)%Z.

(** The equality test decides equality. *)
Class KeyLaws (K : Type) (HK : Key K) : Prop :=
  key_eqb_eq : forall a b : K, key_eqb a b = true <-> a = b.

(** Entries in insertion order. *)
Definition dict (K V : Type) : Type := list (K * V).

Section Ops.
Context {K V : Type} `{Key K}.

(** [d.get(k)] *)
Fixpoint get (d : dict K V) (k : K) : option V :=
  match d with
  | [] => None
  | (k', v) :: d' => if key_eqb k' k then Some v else get d' k
  end.

(** [d[k] = v]: a known key keeps its place, a new one goes last. *)
Fixpoint set (d : dict K V) (k : K) (v : V) : dict K V :=
  match d with
  | [] => [(k, v)]
  | (k', v') :: d' =>
      if key_eqb k' k then (k', v) :: d' else (k', v') :: set d' k v
  end.

(** [d.keys()] *)
Definition keys (d : dict K V) : list K := map fst d.

(** [d.get(k, default)] *)
Definition get_default (d : dict K V) (k : K) (default : V) : V :=
  match get d k with
  | Some v => v
  | None => default
  end.
End Ops.

End PyDict.

(* ================================================================== *)
(** ** State and exceptions

    A coroutine of the scraper is a state transformer that either returns
    or raises; the state survives a raise, as the objects mutated before
    the exception do in Python. *)

Module Eff.

Definition M (S A : Type) : Type := S -> exc A * S.

Definition ret {S A} (a : A) : M S A := fun s => (Ret a, s).

Definition raise {S A} (msg : string) : M S A := fun s => (Raise msg, s).

Definition bind {S A B} (m : M S A) (k : A -> M S B) : M S B :=
  fun s =>
    match m s with
    | (Ret a, s') => k a s'
    | (Raise e, s') => (Raise e, s')
    end.

Definition lift {S A} (r : exc A) : M S A := fun s => (r, s).

(** Reading the current state. *)
Definition state {S} : M S S := fun s => (Ret s, s).

Definition modify {S} (f : S -> S) : M S unit := fun s => (Ret tt, f s).

(** [try: m  except Exception as e: h(str(e))] *)
Definition try_except {S A} (m : M S A) (h : string -> M S A) : M S A :=
  fun s =>
    match m s with
    | (Ret a, s') => (Ret a, s')
    | (Raise e, s') => h e s'
    end.

(** [try: m  finally: f]; an exception of [f] replaces the outcome of
    [m]. *)
Definition try_finally {S A} (m : M S A) (f : M S unit) : M S A :=
  fun s =>
    match m s with
    | (r, s') =>
        match f s' with
        | (Ret _, s'') => (r, s'')
        | (Raise e, s'') => (Raise e, s'')
        end
    end.

(** [for x in xs: body(x)] *)
Fixpoint for_each {S A} (body : A -> M S unit) (xs : list A) : M S unit :=
  match xs with
  | [] => ret tt
  | x :: xs' => bind (body x) (fun _ => for_each body xs')
  end.

(** [I] holds of the state a coroutine leaves, whether it returns or
    raises. *)
Definition stable {S A} (I : S -> Prop) (m : M S A) : Prop :=
  forall s, I s -> I (snd (m s)).

(** A coroutine that returns from every state. *)
Definition returns {S A} (m : M S A) : Prop :=
  forall s, exists a s', m s = (Ret a, s').

Module Notations.
Notation "x <- m ;; k" := (bind m (fun x => k))
  (at level 61, m at next level, right associativity).
Notation "m ;;; k" := (bind m (fun _ => k))
  (at level 61, right associativity).
End Notations.

End Eff.

(* ================================================================== *)
(** ** The loaded page, as Playwright locators see it *)

Module Dom.

(** A locator resolves to the elements it matches; only their text is
    ever read. *)
Definition locator : Type := list string.

(** [await loc.count()] *)
Definition count (loc : locator) : nat := List.length loc.

(** [await loc.text_content()], [await loc.inner_text()]: Playwright
    waits for one element and refuses several (strict mode). *)
Definition text_content (loc : locator) : exc string :=
  match loc with
  | [t] => Ret t
  | [] => Raise "Timeout 30000ms exceeded"
  | _ :: _ :: _ => Raise "strict mode violation"
  end.

(** [td.odds_fuku] with its [span.min] and [span.max]. *)
Record FukuCell : Type := {
  span_min : locator;
  span_max : locator
}.

(** A [tbody tr] of [table.tanpuku]. *)
Record TanpukuRow : Type := {
  td_num : locator;
  td_odds_tan : locator;
  td_odds_fuku : list FukuCell
}.

(** A [tbody tr] of a quinella table. *)
Record UmarenRow : Type := {
  th : locator;
  td : locator
}.

(** An [li] of [ul.umaren_list]: a table with its caption. *)
Record UmarenTable : Type := {
  caption : locator;
  tbody_tr : list UmarenRow
}.

(** The page and its bet-type tabs.  Clicking the link of a tab shows
    another page (or fails); [load_state] is the outcome of
    [wait_for_load_state("domcontentloaded")] on the page shown. *)
Inductive Page : Type := mkPage {
  race_header_title : locator;
  race_header_time : locator;
  nav_pills : list Tab;
  table_tanpuku : list (list TanpukuRow);
  ul_umaren_list : list (list UmarenTable);
  load_state : exc unit
}
with Tab : Type := mkTab {
  tab_a : locator;
  tab_click : exc Page
}.

End Dom.


(* ================================================================== *)
(** ** [class JRAOddsScraper] *)

Module Scraper.

Import PyText Eff Eff.Notations Dom.

(** The sentinel of every field that could not be read. *)
Definition UNKNOWN : string := "不明".

(** [self.place_mapping] *)
Definition place_mapping : PyDict.dict Z string :=
  [ (1, "札幌"); (2, "函館"); (3, "福島"); (4, "新潟"); (5, "東京");
    (6, "中山"); (7, "中京"); (8, "京都"); (9, "阪神"); (10, "小倉") ]%Z.

(** The dictionary every fetch returns. *)
Record RaceOddsRecord : Type := {
  race_id : string;
  race_name : string;
  post_time : string;
  tansho : PyDict.dict Z double;
  fukusho : PyDict.dict Z double;
  umaren : PyDict.dict (Z * Z) double;
  status : string;
  message : string
}.

(** The literal built by each of the three [except] clauses that produce
    a record. *)
Definition error_data (race_id : string) (e : string) : RaceOddsRecord :=
  {| race_id := race_id;
     race_name := UNKNOWN;
     post_time := UNKNOWN;
     tansho := [];
     fukusho := [];
     umaren := [];
     status := "error";
     message := e |}.

(** [min(xs, key=key)]: the running best is replaced by an element whose
    key compares lower ([<] on floats, false whenever one side is NaN);
    [None] stands for the [ValueError] on an empty sequence. *)
Definition min_by {A} (key : A -> double) (xs : list A) : option A :=
  match xs with
  | [] => None
  | x :: xs' =>
      Some (fold_left
              (fun best y =>
                 if PrimFloat.ltb (key y) (key best) then y else best)
              xs' x)
  end.

(** [tansho[x]] for a key [x] of [tansho]. *)
Definition item (tansho : PyDict.dict Z double) (x : Z) : double :=
  PyDict.get_default tansho x 0%float.

(** [min(tansho.keys(), key=lambda x: tansho[x])] *)
Definition favorite (tansho : PyDict.dict Z double) : option Z :=
  min_by (item tansho) (PyDict.keys tansho).

Section Extraction.

(** [float(s)] on the text of an odds cell; [None] stands for
    [ValueError]. *)
Variable py_float : string -> option double.

Definition float (s : string) : exc double :=
  of_option ("could not convert string to float: '" ++ s ++ "'")
            (py_float s).

(** [float(text.replace(",", ""))] *)
Definition odds_of_text (text : string) : exc double :=
  float (remove "," text).

(** The locals of an extraction coroutine sit next to the page it
    drives. *)
Definition click {D} (bet_item : Tab) : M (Page * D) unit :=
  shown <- lift (tab_click bet_item) ;;
  modify (fun st => (shown, snd st)).

Definition wait_for_load_state {D} : M (Page * D) unit :=
  st <- state ;; lift (load_state (fst st)).

(** *** [_extract_tanpuku_odds] *)

Definition set_tansho (umaban : Z) (odds : double)
  : M (Page * (PyDict.dict Z double * PyDict.dict Z double)) unit :=
  modify (fun st =>
            (fst st, (PyDict.set (fst (snd st)) umaban odds, snd (snd st)))).

Definition set_fukusho (umaban : Z) (odds : double)
  : M (Page * (PyDict.dict Z double * PyDict.dict Z double)) unit :=
  modify (fun st =>
            (fst st, (fst (snd st), PyDict.set (snd (snd st)) umaban odds))).

(** The body of [for j in range(await rows.count())]. *)
Definition tanpuku_row (row : TanpukuRow)
  : M (Page * (PyDict.dict Z double * PyDict.dict Z double)) unit :=
  let umaban_elem := td_num row in
  if (0 <? count umaban_elem)%nat then
    umaban_text <- lift (text_content umaban_elem) ;;
    umaban <- lift (int umaban_text) ;;
    (let tan_odds_elem := td_odds_tan row in
     if (0 <? count tan_odds_elem)%nat then
       tan_odds_text <- lift (text_content tan_odds_elem) ;;
       tan_odds <- lift (odds_of_text tan_odds_text) ;;
       set_tansho umaban tan_odds
     else ret tt) ;;;
    (let fuku_odds_elem := td_odds_fuku row in
     if (0 <? List.length fuku_odds_elem)%nat then
       let min_odds_span := flat_map span_min fuku_odds_elem in
       let max_odds_span := flat_map span_max fuku_odds_elem in
       if (0 <? count min_odds_span)%nat && (0 <? count max_odds_span)%nat
       then
         low_text <- lift (text_content min_odds_span) ;;
         fuku_odds_low <- lift (float low_text) ;;
         high_text <- lift (text_content max_odds_span) ;;
         fuku_odds_high <- lift (float high_text) ;;
         set_fukusho umaban ((fuku_odds_low + fuku_odds_high) / 2)%float
       else ret tt
     else ret tt)
  else ret tt.

(** The loop over the bet-type tabs; the first tab whose label contains
    the name is clicked and ends the loop ([break]). *)
Fixpoint tanpuku_tabs (bet_type_items : list Tab)
  : M (Page * (PyDict.dict Z double * PyDict.dict Z double)) unit :=
  match bet_type_items with
  | [] => ret tt
  | bet_item :: rest =>
      bet_type_name <- lift (text_content (tab_a bet_item)) ;;
      if contains "単勝・複勝" bet_type_name then
        click bet_item ;;;
        wait_for_load_state ;;;
        st <- state ;;
        let odds_table := table_tanpuku (fst st) in
        if (0 <? List.length odds_table)%nat
        then for_each tanpuku_row (List.concat odds_table)
        else ret tt
      else tanpuku_tabs rest
  end.

Definition _extract_tanpuku_odds
  : M Page (PyDict.dict Z double * PyDict.dict Z double) :=
  fun page =>
    let body := st <- state ;; tanpuku_tabs (nav_pills (fst st)) in
    match try_except body (fun _ => ret tt) (page, ([], [])) with
    | (_, (page', (tansho, fukusho))) => (Ret (tansho, fukusho), page')
    end.

(** *** [_extract_umaren_odds] *)

(** The body of [for l in range(await rows.count())]. *)
Definition umaren_row (first_horse : Z) (row : UmarenRow)
  : M (Page * PyDict.dict (Z * Z) double) unit :=
  let second_horse_elem := th row in
  let odds_td := td row in
  if (0 <? count second_horse_elem)%nat && (0 <? count odds_td)%nat then
    second_text <- lift (text_content second_horse_elem) ;;
    second_horse <- lift (int second_text) ;;
    odds_text <- lift (text_content odds_td) ;;
    odds <- lift (odds_of_text odds_text) ;;
    modify (fun st =>
              (fst st, PyDict.set (snd st) (first_horse, second_horse) odds))
  else ret tt.

(** The body of [for k in range(await table_elements.count())]. *)
Definition umaren_table (favorite_horse : Z) (table_element : UmarenTable)
  : M (Page * PyDict.dict (Z * Z) double) unit :=
  if (0 <? count (caption table_element))%nat then
    caption_text <- lift (text_content (caption table_element)) ;;
    first_horse <- lift (int caption_text) ;;
    if (first_horse =? favorite_horse)%Z
    then for_each (umaren_row first_horse) (tbody_tr table_element)
    else ret tt
  else ret tt.

Fixpoint umaren_tabs (favorite_horse : Z) (bet_type_items : list Tab)
  : M (Page * PyDict.dict (Z * Z) double) unit :=
  match bet_type_items with
  | [] => ret tt
  | bet_item :: rest =>
      bet_type_name <- lift (text_content (tab_a bet_item)) ;;
      if contains "馬連" bet_type_name then
        click bet_item ;;;
        wait_for_load_state ;;;
        st <- state ;;
        for_each (fun list_block =>
                    for_each (umaren_table favorite_horse) list_block)
                 (ul_umaren_list (fst st))
      else umaren_tabs favorite_horse rest
  end.

Definition _extract_umaren_odds (tansho : PyDict.dict Z double)
  : M Page (PyDict.dict (Z * Z) double) :=
  fun page =>
    let body :=
      match tansho with
      | [] => ret tt
      | _ :: _ =>
          favorite_horse <-
            lift (of_option "min() arg is an empty sequence"
                            (favorite tansho)) ;;
          st <- state ;;
          umaren_tabs favorite_horse (nav_pills (fst st))
      end in
    match try_except body (fun _ => ret tt) (page, []) with
    | (_, (page', umaren)) => (Ret umaren, page')
    end.

(** *** [_extract_odds_from_page] *)

(** The race name: the header text, stripped, when there is one. *)
Definition read_race_name (page : Page) : string :=
  match text_content (race_header_title page) with
  | Ret race_header =>
      if race_header =? "" then UNKNOWN else strip race_header
  | Raise _ => UNKNOWN
  end.

(** The post time: [HH:MM] when the header shows [H時M分]. *)
Definition read_post_time (page : Page) : string :=
  match text_content (race_header_time page) with
  | Ret time_elem =>
      if time_elem =? "" then UNKNOWN
      else match re_search_time time_elem with
           | Some (hour, minute) => zfill 2 hour ++ ":" ++ zfill 2 minute
           | None => UNKNOWN
           end
  | Raise _ => UNKNOWN
  end.

Definition _extract_odds_from_page (race_id : string)
  : M Page RaceOddsRecord :=
  try_except
    (page <- state ;;
     let race_name := read_race_name page in
     let post_time := read_post_time page in
     odds <- _extract_tanpuku_odds ;;
     umaren <- _extract_umaren_odds (fst odds) ;;
     ret {| race_id := race_id;
            race_name := race_name;
            post_time := post_time;
            tansho := fst odds;
            fukusho := snd odds;
            umaren := umaren;
            status := "success";
            message := "オッズ取得成功" |})
    (fun e => ret (error_data race_id e)).

End Extraction.

(** *** The identifier and the link texts derived from it *)

(** The locals bound at the top of [get_race_odds]. *)
Record RaceInfo : Type := {
  year : string;
  month : string;
  day : string;
  place_code : Z;
  race_num : Z;
  place_name : string
}.

Definition race_info (race_id : string) : exc RaceInfo :=
  let year := slice 0 4 race_id in
  let month := slice 4 6 race_id in
  let day := slice 6 8 race_id in
  and_then (int (slice 4 6 race_id)) (fun place_code =>
  and_then (int (slice 8 10 race_id)) (fun race_num =>
  let place_name := PyDict.get_default place_mapping place_code UNKNOWN in
  Ret {| year := year; month := month; day := day;
         place_code := place_code; race_num := race_num;
         place_name := place_name |})).

(** [f"{int(race_id[6:8])}回{place_name}{int(race_id[8:10])}日"] *)
Definition kaisai_name (race_id place_name : string) : exc string :=
  and_then (int (slice 6 8 race_id)) (fun kai =>
  and_then (int (slice 8 10 race_id)) (fun nichi =>
  Ret (str_of_int kai ++ "回" ++ place_name ++ str_of_int nichi ++ "日"))).

(** [f"{race_num}レース"] *)
Definition race_link (race_num : Z) : string :=
  str_of_int race_num ++ "レース".

(** *** The browser *)

(** The awaited Playwright calls of [get_race_odds]. *)
Inductive call : Type :=
| Start                                   (* entering [async_playwright()] *)
| Launch                                  (* [chromium.launch] *)
| NewContext                              (* [browser.new_context] *)
| NewPage                                 (* [context.new_page] *)
| Goto (url : string)                     (* [page.goto] *)
| ClickLink (name : string) (exact : bool)
| CountLink (name : string)
| ClickOddsOfRaceResult                   (* the link inside [#race_result] *)
| WaitForLoadState
| CloseContext
| CloseBrowser
| Stop.                                   (* leaving [async_playwright()] *)

(** The calls made so far with their outcomes (latest first), the
    browsers and contexts currently open, and the largest number of
    browsers that were ever open together. *)
Record World : Type := {
  hist : list (call * exc nat);
  browsers : nat;
  contexts : nat;
  peak : nat
}.

(** The site and the browser are deterministic in what happened so far:
    [respond] is the outcome of the next call (the number of matches for
    [CountLink]), [shown] the page the browser displays. *)
Record Site : Type := {
  respond : list (call * exc nat) -> call -> exc nat;
  shown : list (call * exc nat) -> Page
}.

(** Book-keeping of one call.  A close that raises releases nothing; a
    closed browser takes its contexts with it; stopping the driver ends
    whatever it launched. *)
Definition account (c : call) (r : exc nat) (w : World) : World :=
  let h := (c, r) :: hist w in
  match c, r with
  | Launch, Ret _ =>
      {| hist := h; browsers := S (browsers w); contexts := contexts w;
         peak := Nat.max (peak w) (S (browsers w)) |}
  | NewContext, Ret _ =>
      {| hist := h; browsers := browsers w; contexts := S (contexts w);
         peak := peak w |}
  | CloseContext, Ret _ =>
      {| hist := h; browsers := browsers w; contexts := pred (contexts w);
         peak := peak w |}
  | CloseBrowser, Ret _ =>
      {| hist := h; browsers := pred (browsers w); contexts := 0;
         peak := peak w |}
  | Stop, _ =>
      {| hist := h; browsers := 0; contexts := 0; peak := peak w |}
  | _, _ =>
      {| hist := h; browsers := browsers w; contexts := contexts w;
         peak := peak w |}
  end.

Section Fetch.

Variable py_float : string -> option double.
Variable site : Site.

Definition perform (c : call) : M World nat :=
  fun w => let r := respond site (hist w) c in (r, account c r w).

(** [async with async_playwright() as playwright: body] *)
Definition async_with_playwright {A} (body : M World A) : M World A :=
  perform Start ;;;
  (fun w => match body w with
            | (r, w') => (r, account Stop (Ret 0%nat) w')
            end).

(** The page object handed to the extractor. *)
Definition current_page : M World Page :=
  w <- state ;; ret (shown site (hist w)).

(** *** [get_race_odds] *)

(** The body of the inner [try]: from the home page to the odds of the
    race, then the extraction. *)
Definition navigate (race_id : string) (info : RaceInfo)
  : M World RaceOddsRecord :=
  perform (Goto "https://www.jra.go.jp/keiba/") ;;;
  perform (ClickLink "オッズ" true) ;;;
  perform WaitForLoadState ;;;
  kaisai <- lift (kaisai_name race_id (place_name info)) ;;
  let race_name := race_link (race_num info) in
  n <- perform (CountLink kaisai) ;;
  (if (0 <? n)%nat then
     perform (ClickLink kaisai false) ;;;
     perform (ClickLink race_name true)
   else
     perform (ClickLink "レース結果" false) ;;;
     perform (ClickLink kaisai false) ;;;
     perform (ClickLink race_name true) ;;;
     perform ClickOddsOfRaceResult) ;;;
  perform WaitForLoadState ;;;
  page <- current_page ;;
  lift (fst (_extract_odds_from_page py_float race_id page)).

(** The [finally] clause. *)
Definition release : M World unit :=
  perform CloseContext ;;; perform CloseBrowser ;;; ret tt.

(** The body of the [async with] block. *)
Definition session (race_id : string) (info : RaceInfo)
  : M World RaceOddsRecord :=
  perform Launch ;;;
  perform NewContext ;;;
  perform NewPage ;;;
  try_finally (navigate race_id info) release.

(** The body of the outer [try]. *)
Definition attempt (race_id : string) : M World RaceOddsRecord :=
  info <- lift (race_info race_id) ;;
  async_with_playwright (session race_id info).

Definition get_race_odds (race_id : string) : M World RaceOddsRecord :=
  try_except (attempt race_id) (fun e => ret (error_data race_id e)).

(** *** [main], single-race branch *)

Inductive Exit : Type :=
| SysExit (code : nat)
| Saved (output_file : string) (odds_data : RaceOddsRecord).

Definition main_single (race_id : string) (w : World) : Exit * World :=
  if negb (re_match_race_id race_id) then (SysExit 1, w)
  else
    match get_race_odds race_id w with
    | (Ret odds_data, w') =>
        if status odds_data =? "success"
        then (Saved ("odds_" ++ race_id ++ ".json") odds_data, w')
        else (SysExit 1, w')
    | (Raise _, w') => (SysExit 1, w')
    end.

End Fetch.

(** *** [get_daily_odds] *)

Record DailyOddsReport : Type := {
  date : string;
  races : list RaceOddsRecord;
  total_races : nat;
  successful_races : nat;
  failed_races : nat;
  daily_status : string;
  daily_message : string
}.

(** The three accumulators of the loop. *)
Record Tally : Type := {
  races_data : list RaceOddsRecord;
  successful_count : nat;
  failed_count : nat
}.

Definition count_text (n : nat) : string := str_of_int (Z.of_nat n).

Section Batch.

(** The world the fetches act on, [self.get_race_odds] and
    [self._get_race_ids_for_date] (which reads files kept outside the
    scraper and never raises). *)
Variable W : Type.
Variable fetch : string -> M W RaceOddsRecord.
Variable _get_race_ids_for_date : string -> list string.

(** The body of [for i, race_id in enumerate(race_ids, 1)]. *)
Definition daily_step (acc : Tally * W) (race_id : string) : Tally * W :=
  let (t, w) := acc in
  match fetch race_id w with
  | (Ret odds_data, w') =>
      if status odds_data =? "success" then
        ({| races_data := (races_data t ++ [odds_data])%list;
            successful_count := S (successful_count t);
            failed_count := failed_count t |}, w')
      else
        ({| races_data := (races_data t ++ [odds_data])%list;
            successful_count := successful_count t;
            failed_count := S (failed_count t) |}, w')
  | (Raise e, w') =>
      ({| races_data := (races_data t ++ [error_data race_id e])%list;
          successful_count := successful_count t;
          failed_count := S (failed_count t) |}, w')
  end.

Definition daily_loop (race_ids : list string) (w : W) : Tally * W :=
  fold_left daily_step race_ids
            ({| races_data := []; successful_count := 0; failed_count := 0 |},
             w).

Definition empty_report (date message : string) : DailyOddsReport :=
  {| date := date;
     races := [];
     total_races := 0;
     successful_races := 0;
     failed_races := 0;
     daily_status := "error";
     daily_message := message |}.

(** [YYYY-MM-DD] becomes [YYYYMMDD]. *)
Definition normalize_date (date : string) : string :=
  if contains "-" date then remove "-" date else date.

Definition get_daily_odds_via (date : string) : M W DailyOddsReport :=
  let date := normalize_date date in
  try_except
    (if negb (String.length date =? 8)%nat
     then raise "日付は8桁の数字である必要があります (例: 20250113)"
     else
       let race_ids := _get_race_ids_for_date date in
       match race_ids with
       | [] =>
           ret (empty_report date
                  ("日付 " ++ date ++ " のレースが見つかりません"))
       | _ :: _ =>
           fun w =>
             let (t, w') := daily_loop race_ids w in
             (Ret {| date := date;
                     races := races_data t;
                     total_races := List.length race_ids;
                     successful_races := successful_count t;
                     failed_races := failed_count t;
                     daily_status :=
                       if (0 <? successful_count t)%nat
                       then "success" else "error";
                     daily_message :=
                       "成功: " ++ count_text (successful_count t)
                       ++ "レース, 失敗: "
                       ++ count_text (failed_count t) ++ "レース" |},
              w')
       end)
    (fun e => ret (empty_report date e)).

End Batch.

(** [get_daily_odds] of the class: the fetch is [get_race_odds]. *)
Definition get_daily_odds (py_float : string -> option double) (site : Site)
  (_get_race_ids_for_date : string -> list string)
  : string -> M World DailyOddsReport :=
  get_daily_odds_via (get_race_odds py_float site) _get_race_ids_for_date.

End Scraper.

(* ================================================================== *)
(** ** The presentation layer ([app.py]) *)

Module App.

Import PyText.

(** The copy of the venue table kept by [create_place_summary_table],
    [create_csv_data_for_place] and [main]. *)
Definition place_mapping : PyDict.dict Z string := Scraper.place_mapping.

(** [place_mapping.get(place_code, f"不明({place_code})")] *)
Definition place_name (place_code : Z) : string :=
  PyDict.get_default place_mapping place_code
                     ("不明(" ++ str_of_int place_code ++ ")").

End App.

(* ================================================================== *)
(** ** The identifier format of the specification

    Ten decimal digits: a 4-digit year, a 2-digit venue code, a 2-digit
    day of meeting and a 2-digit race number. *)

Module Format.

Import PyText.

(** [n] written with [width] digits. *)
Definition digits (width n : nat) : string :=
  zfill width (str_of_int (Z.of_nat n)).

Definition race_id_of (y v d r : nat) : string :=
  digits 4 y ++ digits 2 v ++ digits 2 d ++ digits 2 r.

Definition ten_digits (s : string) : bool :=
  (String.length s =? 10)%nat && all_digits s.

(** The ten venues, by code. *)
Definition venue_names : list string :=
  [ "札幌"; "函館"; "福島"; "新潟"; "東京";
    "中山"; "中京"; "京都"; "阪神"; "小倉" ].

Definition venue_name (v : nat) : option string :=
  match v with
  | O => None
  | S i => nth_error venue_names i
  end.

End Format.

(* ================================================================== *)
(** ** Fixtures for the examples *)

Module Fixture.

Import PyText Dom Scraper.

(** A natural number below [2^53] as a float: the conversion is
    exact. *)
Definition of_Z (n : Z) : double := PrimFloat.of_uint63 (Uint63.of_Z n).

(** The number [n / 10^k] rounded to the nearest float, for [n] below
    [2^53] and [k] at most 18: numerator and denominator are then floats,
    so their quotient is rounded once, as the literal is by [float()]. *)
Definition ratio (n : Z) (k : nat) : option double :=
  if (n <? 2 ^ 53)%Z && (k <=? 18)%nat
  then Some (of_Z n / of_Z (10 ^ Z.of_nat k))%float
  else None.

(** [float()] on plain decimal literals: digits, optionally a point and
    more digits, as long as [ratio] applies. *)
Definition decimal (s : string) : option double :=
  let (ip, rest) := span_digits s in
  if ip =? "" then None
  else match rest with
       | EmptyString =>
           match int_digits 0 false ip with
           | Some n => ratio n 0
           | None => None
           end
       | String "." fp =>
           if all_digits fp && negb (fp =? "") then
             match int_digits 0 false (ip ++ fp) with
             | Some n => ratio n (String.length fp)
             | None => None
             end
           else None
       | String _ _ => None
       end.

Definition row (num tan low high : string) : TanpukuRow :=
  {| td_num := [num];
     td_odds_tan := [tan];
     td_odds_fuku := [ {| span_min := [low]; span_max := [high] |} ] |}.

(** A row for a horse without a win cell, and one without place odds. *)
Definition row_no_win (num low high : string) : TanpukuRow :=
  {| td_num := [num];
     td_odds_tan := [];
     td_odds_fuku := [ {| span_min := [low]; span_max := [high] |} ] |}.

Definition row_no_place (num tan : string) : TanpukuRow :=
  {| td_num := [num]; td_odds_tan := [tan]; td_odds_fuku := [] |}.

Definition blank_page : Page :=
  {| race_header_title := [];
     race_header_time := [];
     nav_pills := [];
     table_tanpuku := [];
     ul_umaren_list := [];
     load_state := Ret tt |}.

Definition umaren_of (first : string) (pairs : list (string * string))
  : UmarenTable :=
  {| caption := [first];
     tbody_tr := map (fun p => {| th := [fst p]; td := [snd p] |}) pairs |}.

(** A race of three horses.  The landing page shows the tabs only; the
    win/place tab shows the table and keeps the tabs; the quinella tab
    shows the tables grouped by first horse. *)
Definition quinella_view : Page :=
  {| race_header_title := [" 3歳未勝利 "];
     race_header_time := ["発走時刻：10時5分"];
     nav_pills := [];
     table_tanpuku := [];
     ul_umaren_list :=
       [ [ umaren_of "1" [("2", "12.5"); ("3", "3.1")];
           umaren_of "2" [("3", "8.0")];
           umaren_of "3" [("1", "3.1"); ("2", "8.0")] ] ];
     load_state := Ret tt |}.

Definition win_place_view : Page :=
  {| race_header_title := [" 3歳未勝利 "];
     race_header_time := ["発走時刻：10時5分"];
     nav_pills :=
       [ {| tab_a := ["単勝・複勝"]; tab_click := Raise "detached" |};
         {| tab_a := ["枠連"]; tab_click := Raise "detached" |};
         {| tab_a := ["馬連"]; tab_click := Ret quinella_view |} ];
     table_tanpuku :=
       [ [ row "1" "2.1" "1.1" "1.5";
           row "2" "5.4" "2.0" "3.4";
           row "3" "1.8" "1.0" "1.2" ] ];
     ul_umaren_list := [];
     load_state := Ret tt |}.

Definition race_page : Page :=
  {| race_header_title := [" 3歳未勝利 "];
     race_header_time := ["発走時刻：10時5分"];
     nav_pills :=
       [ {| tab_a := ["単勝・複勝"]; tab_click := Ret win_place_view |};
         {| tab_a := ["枠連"]; tab_click := Raise "detached" |};
         {| tab_a := ["馬連"]; tab_click := Ret quinella_view |} ];
     table_tanpuku := [];
     ul_umaren_list := [];
     load_state := Ret tt |}.

Definition clean : World :=
  {| hist := []; browsers := 0; contexts := 0; peak := 0 |}.

(** A site where every call succeeds and the meeting link exists. *)
Definition good_site (page : Page) : Site :=
  {| respond := fun _ _ => Ret 1%nat; shown := fun _ => page |}.

Definition stops (h : list (call * exc nat)) : nat :=
  List.length
    (filter (fun cr => match fst cr with Stop => true | _ => false end) h).

(** A site whose home page cannot be loaded during the second fetch. *)
Definition flaky_site (page : Page) : Site :=
  {| respond := fun h c =>
       match c with
       | Goto _ =>
           if (stops h =? 1)%nat then Raise "net::ERR_CONNECTION_RESET"
           else Ret 0%nat
       | _ => Ret 1%nat
       end;
     shown := fun _ => page |}.

(** A site whose home page never loads. *)
Definition offline_site : Site :=
  {| respond := fun _ c =>
       match c with
       | Goto _ => Raise "net::ERR_INTERNET_DISCONNECTED"
       | _ => Ret 1%nat
       end;
     shown := fun _ => blank_page |}.

Definition three_races (date : string) : list string :=
  ["2025060101"; "2025060102"; "2025060103"].

End Fixture.

(* ================================================================== *)
(** ** What a table row displays

    The readings the row loops perform, taken one at a time. *)

Module Reads.

Import PyText Dom Scraper.

(** [(low + high) / 2] as Python computes it: one rounded addition, then
    a division by two. *)
Definition midpoint (low high : double) : double :=
  ((low + high) / 2)%float.

(** [low <= v <= high], in the comparisons of the floats. *)
Definition between (low v high : double) : bool :=
  PrimFloat.leb low v && PrimFloat.leb v high.

(** The float of odds displayed with one decimal place, [n] tenths:
    what [float()] gives for "1.5" is [displayed 15]. *)
Definition displayed (n : Z) : double :=
  (PrimFloat.of_uint63 (Uint63.of_Z n) / 10)%float.

(** No odds of the map is NaN. *)
Definition no_nan {K} (d : PyDict.dict K double) : Prop :=
  forall k o, In (k, o) d -> PrimFloat.is_nan o = false.

(** The midpoint lies between [low] and every bound of [highs]. *)
Fixpoint midpoints_from (low : double) (highs : list double) : bool :=
  match highs with
  | [] => true
  | high :: rest =>
      if between low (midpoint low high) high
      then midpoints_from low rest
      else false
  end.

(** The same for every bound of the list and the ones that follow it. *)
Fixpoint midpoints_within (odds : list double) : bool :=
  match odds with
  | [] => true
  | low :: rest =>
      if midpoints_from low odds then midpoints_within rest else false
  end.

(** The odds [displayed n], [displayed (n + 1)], ..., [k] of them. *)
Fixpoint odds_from (k : nat) (n : Z) : list double :=
  match k with
  | O => []
  | S k' => displayed n :: odds_from k' (n + 1)
  end.

Section WithFloat.

Variable py_float : string -> option double.

(** The horse number of a win/place row. *)
Definition umaban_of (row : TanpukuRow) : exc Z :=
  and_then (text_content (td_num row)) int.

Definition has_win (row : TanpukuRow) : bool :=
  (0 <? count (td_odds_tan row))%nat.

Definition win_of (row : TanpukuRow) : exc double :=
  and_then (text_content (td_odds_tan row)) (odds_of_text py_float).

(** Both bounds of the place odds are displayed. *)
Definition has_place (row : TanpukuRow) : bool :=
  (0 <? List.length (td_odds_fuku row))%nat
  && (0 <? count (flat_map span_min (td_odds_fuku row)))%nat
  && (0 <? count (flat_map span_max (td_odds_fuku row)))%nat.

Definition low_of (row : TanpukuRow) : exc double :=
  and_then (text_content (flat_map span_min (td_odds_fuku row)))
           (float py_float).

Definition high_of (row : TanpukuRow) : exc double :=
  and_then (text_content (flat_map span_max (td_odds_fuku row)))
           (float py_float).

(** The win odds a row writes, if it shows any. *)
Definition new_tansho (row : TanpukuRow) (h : Z) (t : PyDict.dict Z double)
  : exc (PyDict.dict Z double) :=
  if has_win row
  then and_then (win_of row) (fun w => Ret (PyDict.set t h w))
  else Ret t.

(** The place odds a row writes, if it shows both bounds. *)
Definition new_fukusho (row : TanpukuRow) (h : Z) (f : PyDict.dict Z double)
  : exc (PyDict.dict Z double) :=
  if has_place row
  then and_then (low_of row) (fun low =>
       and_then (high_of row) (fun high =>
       Ret (PyDict.set f h (midpoint low high))))
  else Ret f.

(** Where an entry of the win map comes from. *)
Definition win_source (rows : list TanpukuRow) (h : Z) (w : double) : Prop :=
  exists row,
    In row rows /\ umaban_of row = Ret h /\ has_win row = true
    /\ win_of row = Ret w.

(** Where an entry of the place map comes from. *)
Definition place_source (rows : list TanpukuRow) (h : Z) (v : double) : Prop :=
  exists row low high,
    In row rows /\ umaban_of row = Ret h /\ has_place row = true
    /\ low_of row = Ret low /\ high_of row = Ret high
    /\ v = midpoint low high.

End WithFloat.

(** The record an iteration of the batch loop appends for an outcome of
    the fetch. *)

Definition record_of (race_id : string) (o : exc RaceOddsRecord)
  : RaceOddsRecord :=
  match o with
  | Ret odds_data => odds_data
  | Raise e => error_data race_id e
  end.

(** The records of a batch, fetch after fetch. *)
Fixpoint batch_records {W} (fetch : string -> Eff.M W RaceOddsRecord)
  (race_ids : list string) (w : W) : list RaceOddsRecord :=
  match race_ids with
  | [] => []
  | race_id :: rest =>
      match fetch race_id w with
      | (o, w') => record_of race_id o :: batch_records fetch rest w'
      end
  end.

(** The processing of a race failed: the fetch raised, or it returned an
    error record. *)
Definition failed (o : exc RaceOddsRecord) : Prop :=
  match o with
  | Ret odds_data => status odds_data = "error"
  | Raise _ => True
  end.

(** The named call returns whatever happened before. *)
Definition never_fails (site : Site) (c : call) : Prop :=
  forall h, exists n, respond site h c = Ret n.

(** Every call returns. *)
Definition all_calls_succeed (site : Site) : Prop :=
  forall h c, exists n, respond site h c = Ret n.

(** Every key written so far starts with [fav]. *)
Definition anchored (fav : Z) (st : Page * PyDict.dict (Z * Z) double) : Prop :=
  forall a b v, In ((a, b), v) (snd st) -> a = fav.

(** The calls that neither open nor close anything. *)
Definition quiet (c : call) : bool :=
  match c with
  | Launch | NewContext | CloseContext | CloseBrowser | Stop => false
  | _ => true
  end.

(** A property of the open browsers, the open contexts and the peak. *)
Definition on_resources (P : nat -> nat -> nat -> Prop) (w : World) : Prop :=
  P (browsers w) (contexts w) (peak w).

(** The peak does not exceed [N]. *)
Definition peak_below (N : nat) : World -> Prop :=
  on_resources (fun _ _ p => (p <= N)%nat).

(** An error never exposes odds or identification data. *)
Definition error_is_bare (r : RaceOddsRecord) : Prop :=
  status r = "error" ->
  tansho r = [] /\ fukusho r = [] /\ umaren r = []
  /\ race_name r = "不明" /\ post_time r = "不明".

End Reads.

(* ================================================================== *)
(** ** The calls of a navigation *)

Module Calls.

Import Scraper.

(** The calls of the navigation, latest first, for the answer [n] to the
    count of meeting links. *)
Definition route (kaisai race : string) (n : nat) : list call :=
  ([WaitForLoadState]
   ++ (if (0 <? n)%nat
       then [ClickLink race true; ClickLink kaisai false]
       else [ClickOddsOfRaceResult; ClickLink race true;
             ClickLink kaisai false; ClickLink "レース結果" false])
   ++ [CountLink kaisai; WaitForLoadState; ClickLink "オッズ" true;
       Goto "https://www.jra.go.jp/keiba/"])%list.

End Calls.


(* ================================================================== *)
(** ** What the tabs and the quinella tables display *)

Module QuinellaReads.

Import PyText Dom Scraper.

Section WithFloat.

Variable py_float : string -> option double.

(** The first horse of a table: its caption. *)
Definition caption_of (table : UmarenTable) : exc Z :=
  and_then (text_content (caption table)) int.

(** The second horse of a row. *)
Definition second_of (row : UmarenRow) : exc Z :=
  and_then (text_content (th row)) int.

(** The odds of a row. *)
Definition pair_odds_of (row : UmarenRow) : exc double :=
  and_then (text_content (td row)) (odds_of_text py_float).

(** Where an entry of the quinella map comes from: a row of a table of
    one of the lists. *)
Definition umaren_source (lists : list (list UmarenTable)) (a b : Z)
  (v : double)
  : Prop :=
  exists block table row,
    In block lists /\ In table block /\ In row (tbody_tr table)
    /\ caption_of table = Ret a
    /\ second_of row = Ret b
    /\ pair_odds_of row = Ret v.

(** The page is [p] and every entry has a source in [lists]. *)
Definition sourced (p : Page) (lists : list (list UmarenTable))
  (st : Page * PyDict.dict (Z * Z) double) : Prop :=
  fst st = p
  /\ forall a b v, In ((a, b), v) (snd st) -> umaren_source lists a b v.

End WithFloat.

(** Tabs whose label is read and does not contain the name sought. *)
Definition passed_over (name : string) (tabs : list Tab) : Prop :=
  forall tab, In tab tabs ->
  exists label, text_content (tab_a tab) = Ret label
                /\ contains name label = false.

End QuinellaReads.

(* ================================================================== *)
(** ** Counting the records of a report *)

Module Tallies.

Import Scraper.

(** [race['status'] == 'success'] *)
Definition is_success (r : RaceOddsRecord) : bool := status r =? "success".

(** The records of a list that are, or are not, marked success. *)
Definition successes (rs : list RaceOddsRecord) : nat :=
  List.length (filter is_success rs).

Definition failures (rs : list RaceOddsRecord) : nat :=
  List.length (filter (fun r => negb (is_success r)) rs).

(** The two counters count the records. *)
Definition tallied (t : Tally) : Prop :=
  successful_count t = successes (races_data t)
  /\ failed_count t = failures (races_data t).

End Tallies.


(* ================================================================== *)
(** ** [_get_race_ids_for_date] *)

Module RaceIds.

Import PyText.

(** A cell of a [race_id] column as [read_csv] types it: an integer, or
    text.  (A column with missing values, which [read_csv] types as
    floating point, is not modelled.) *)
Inductive Cell : Type :=
| IntCell (n : Z)
| StrCell (s : string).

Definition cell_eqb (a b : Cell) : bool :=
  match a, b with
  | IntCell n, IntCell m => (n =? m)%Z
  | StrCell s, StrCell t => (s =? t)%string
  | _, _ => false
  end.

(** [str(race_id)] *)
Definition str (c : Cell) : string :=
  match c with
  | IntCell n => str_of_int n
  | StrCell s => s
  end.

(** The two sources under [common/data/prediction]: [population.csv],
    whose rows pair a date with a race identifier, and the time table of
    a date, of which only the [race_id] column is read.  [None] is a file
    that does not exist; [Raise] is a file that [read_csv] cannot read or
    that lacks the column. *)
Record Files : Type := {
  population : option (exc (list (string * Cell)));
  time_table : string -> option (exc (list Cell))
}.

(** [Series.unique()]: the first occurrence of each value, in order. *)
Fixpoint unique_from (seen : list Cell) (cells : list Cell) : list Cell :=
  match cells with
  | [] => []
  | c :: rest =>
      if existsb (cell_eqb c) seen then unique_from seen rest
      else c :: unique_from (c :: seen) rest
  end.

Definition unique (cells : list Cell) : list Cell := unique_from [] cells.

(** [f"{date[:4]}-{date[4:6]}-{date[6:8]}"] *)
Definition target_date (date : string) : string :=
  slice 0 4 date ++ "-" ++ slice 4 6 date ++ "-" ++ slice 6 8 date.

(** The body of the [try]. *)
Definition read_race_ids (files : Files) (date : string)
  : exc (list string) :=
  match population files with
  | Some read_csv =>
      and_then read_csv (fun df =>
      let race_ids :=
        unique (map snd
                    (filter (fun row => fst row =? target_date date) df)) in
      Ret (map str race_ids))
  | None =>
      match time_table files date with
      | Some read_csv => and_then read_csv (fun df => Ret (map str df))
      | None => Ret []
      end
  end.

Definition _get_race_ids_for_date (files : Files) (date : string)
  : list string :=
  match read_race_ids files date with
  | Ret race_ids => race_ids
  | Raise _ => []
  end.

End RaceIds.

(* ================================================================== *)
(** ** Saving as JSON *)

Module Json.

Import Scraper.

(** The keys and values of the dictionaries handed to [json.dump]. *)
Inductive Key : Type :=
| KStr (s : string)
| KInt (n : Z)
| KTuple (a b : Z).

#[warnings="-register-all"]
Inductive Value : Type :=
| VStr (s : string)
| VInt (n : Z)
| VFloat (x : double)
| VList (items : list Value)
| VDict (items : list (Key * Value)).

(** [json] accepts [str], [int], [float], [bool] and [None] as keys, and
    raises [TypeError] on any other key. *)
Fixpoint dumpable (v : Value) : bool :=
  match v with
  | VList items => forallb dumpable items
  | VDict items =>
      forallb (fun kv => match kv with
                         | (KTuple _ _, _) => false
                         | (_, x) => dumpable x
                         end) items
  | _ => true
  end.

(** [json.dump(v, f, ensure_ascii=False, indent=2)], as far as its
    outcome goes. *)
Definition json_dump (v : Value) : exc unit :=
  if dumpable v then Ret tt
  else Raise "keys must be str, int, float, bool or None, not tuple".

Definition of_odds (d : PyDict.dict Z double) : Value :=
  VDict (map (fun kv => (KInt (fst kv), VFloat (snd kv))) d).

Definition of_pair_odds (d : PyDict.dict (Z * Z) double) : Value :=
  VDict (map (fun kv => (KTuple (fst (fst kv)) (snd (fst kv)),
                         VFloat (snd kv))) d).

(** The dictionary of a race, key by key. *)
Definition of_record (r : RaceOddsRecord) : Value :=
  VDict [ (KStr "race_id", VStr (race_id r));
          (KStr "race_name", VStr (race_name r));
          (KStr "post_time", VStr (post_time r));
          (KStr "tansho", of_odds (tansho r));
          (KStr "fukusho", of_odds (fukusho r));
          (KStr "umaren", of_pair_odds (umaren r));
          (KStr "status", VStr (status r));
          (KStr "message", VStr (message r)) ].

(** The dictionary of a day. *)
Definition of_report (rep : DailyOddsReport) : Value :=
  VDict [ (KStr "date", VStr (date rep));
          (KStr "races", VList (map of_record (races rep)));
          (KStr "total_races", VInt (Z.of_nat (total_races rep)));
          (KStr "successful_races", VInt (Z.of_nat (successful_races rep)));
          (KStr "failed_races", VInt (Z.of_nat (failed_races rep)));
          (KStr "status", VStr (daily_status rep));
          (KStr "message", VStr (daily_message rep)) ].

(** The end of the single-race branch of [main]: the record is written
    to [output_file]. *)
Definition save_record (output_file : string) (odds_data : RaceOddsRecord)
  : exc string :=
  and_then (json_dump (of_record odds_data)) (fun _ => Ret output_file).

(** The end of the [--date] branch of [main], and the download of the
    application. *)
Definition save_report (daily_data : DailyOddsReport) : exc string :=
  and_then (json_dump (of_report daily_data))
           (fun _ => Ret ("daily_odds_" ++ date daily_data ++ ".json")).

End Json.

(* ================================================================== *)
(** ** The tables of the application ([app.py]) *)

Module Tables.

Import PyText Scraper.

(** Venue names as dictionary keys. *)
#[global] Instance Key_string : PyDict.Key string := String.eqb.

(** [list(d.values())] *)
Definition values {K V} (d : PyDict.dict K V) : list V := map snd d.

(** A row of the summary by venue: 競馬場, レース数, 成功レース数 and the
    three 平均オッズ. *)
Record PlaceStats : Type := {
  keibajo : string;
  race_count : nat;
  success_count : nat;
  tansho_mean : double;
  fukusho_mean : double;
  umaren_mean : double
}.

(** The entry of a venue not met before; its three averages start at
    the integer 0, which is the float 0 here. *)
Definition new_stats (place_name : string) : PlaceStats :=
  {| keibajo := place_name;
     race_count := 0;
     success_count := 0;
     tansho_mean := 0%float;
     fukusho_mean := 0%float;
     umaren_mean := 0%float |}.

Section Summary.

(** [sum(odds)] on a list of floats.  What it rounds to depends on the
    interpreter (one addition after the other before Python 3.12, with a
    compensation term since), so it is a parameter, like [float()]. *)
Variable py_sum : list double -> double.

(** [len(odds)] as the float the division converts it to. *)
Definition float_of_len (odds : list double) : double :=
  PrimFloat.of_uint63 (Uint63.of_Z (Z.of_nat (List.length odds))).

(** [sum(odds) / len(odds)] *)
Definition mean (odds : list double) : double :=
  (py_sum odds / float_of_len odds)%float.

(** [if odds: stats[key] = sum(odds) / len(odds)] *)
Definition new_mean (old : double) (odds : list double) : double :=
  match odds with
  | [] => old
  | _ :: _ => mean odds
  end.

(** What the body of the loop does to the entry of the venue. *)
Definition count_race (race : RaceOddsRecord) (st : PlaceStats)
  : PlaceStats :=
  let st :=
    {| keibajo := keibajo st;
       race_count := S (race_count st);
       success_count := success_count st;
       tansho_mean := tansho_mean st;
       fukusho_mean := fukusho_mean st;
       umaren_mean := umaren_mean st |} in
  if status race =? "success" then
    {| keibajo := keibajo st;
       race_count := race_count st;
       success_count := S (success_count st);
       tansho_mean := new_mean (tansho_mean st) (values (tansho race));
       fukusho_mean := new_mean (fukusho_mean st) (values (fukusho race));
       umaren_mean := new_mean (umaren_mean st) (values (umaren race)) |}
  else st.

(** The races both tables look at: marked success, with an identifier of
    at least ten characters. *)
Definition eligible (race : RaceOddsRecord) : bool :=
  (status race =? "success") && (10 <=? String.length (race_id race))%nat.

(** [place_mapping.get(place_code, ...)] for [int(race_id[4:6])]. *)
Definition place_of (race : RaceOddsRecord) : exc string :=
  and_then (int (slice 4 6 (race_id race)))
           (fun place_code => Ret (App.place_name place_code)).

(** The body of the loop of [create_place_summary_table]. *)
Definition place_summary_step (place_stats : PyDict.dict string PlaceStats)
  (race : RaceOddsRecord) : exc (PyDict.dict string PlaceStats) :=
  if negb (status race =? "success") then Ret place_stats
  else if (10 <=? String.length (race_id race))%nat then
    and_then (place_of race) (fun place_name =>
    let place_stats :=
      match PyDict.get place_stats place_name with
      | None => PyDict.set place_stats place_name (new_stats place_name)
      | Some _ => place_stats
      end in
    let entry :=
      PyDict.get_default place_stats place_name (new_stats place_name) in
    Ret (PyDict.set place_stats place_name (count_race race entry)))
  else Ret place_stats.

(** A loop whose body may raise. *)
Fixpoint fold_exc {A B} (step : A -> B -> exc A) (xs : list B) (a : A)
  : exc A :=
  match xs with
  | [] => Ret a
  | x :: xs' => and_then (step a x) (fold_exc step xs')
  end.

Definition create_place_summary_table (races_data : list RaceOddsRecord)
  : exc (list PlaceStats) :=
  and_then (fold_exc place_summary_step races_data [])
           (fun place_stats => Ret (values place_stats)).

End Summary.

(** A row of the CSV of a venue: レースID, レース名, 発走時刻, 競馬場,
    馬券種, 馬番1, 馬番2 (empty for win and place) and オッズ. *)
Record CsvRow : Type := {
  csv_race_id : string;
  csv_race_name : string;
  csv_post_time : string;
  csv_place : string;
  csv_bet_type : string;
  csv_umaban1 : Z;
  csv_umaban2 : option Z;
  csv_odds : double
}.

Definition single_rows (race : RaceOddsRecord) (place bet_type : string)
  (odds : PyDict.dict Z double) : list CsvRow :=
  map (fun kv => {| csv_race_id := race_id race;
                    csv_race_name := race_name race;
                    csv_post_time := post_time race;
                    csv_place := place;
                    csv_bet_type := bet_type;
                    csv_umaban1 := fst kv;
                    csv_umaban2 := None;
                    csv_odds := snd kv |}) odds.

Definition pair_rows (race : RaceOddsRecord) (place : string)
  (odds : PyDict.dict (Z * Z) double) : list CsvRow :=
  map (fun kv => {| csv_race_id := race_id race;
                    csv_race_name := race_name race;
                    csv_post_time := post_time race;
                    csv_place := place;
                    csv_bet_type := "馬連";
                    csv_umaban1 := fst (fst kv);
                    csv_umaban2 := Some (snd (fst kv));
                    csv_odds := snd kv |}) odds.

(** The rows one race adds: win, then place, then quinella. *)
Definition race_rows (race : RaceOddsRecord) (place : string)
  : list CsvRow :=
  (single_rows race place "単勝" (tansho race)
   ++ single_rows race place "複勝" (fukusho race)
   ++ pair_rows race place (umaren race))%list.

(** The body of the loop of [create_csv_data_for_place]. *)
Definition csv_step (place_name : string) (csv_data : list CsvRow)
  (race : RaceOddsRecord) : exc (list CsvRow) :=
  if negb (status race =? "success") then Ret csv_data
  else if (10 <=? String.length (race_id race))%nat then
    and_then (place_of race) (fun current_place_name =>
    if current_place_name =? place_name
    then Ret (csv_data ++ race_rows race current_place_name)%list
    else Ret csv_data)
  else Ret csv_data.

Definition create_csv_data_for_place (races_data : list RaceOddsRecord)
  (place_name : string) : exc (list CsvRow) :=
  fold_exc (csv_step place_name) races_data [].

End Tables.

(* ================================================================== *)
(** ** What the tables are about *)

Module TableReads.

Import PyText Scraper Tables.

(** The races a venue row is about. *)
Definition at_venue (name : string) (race : RaceOddsRecord) : bool :=
  eligible race
  && match place_of race with
     | Ret n => n =? name
     | Raise _ => false
     end.

Definition races_at (name : string) (races_data : list RaceOddsRecord)
  : list RaceOddsRecord :=
  filter (at_venue name) races_data.

(** The three columns of averages. *)
Inductive Column : Type := Tansho | Fukusho | Umaren.

Definition column_odds (c : Column) (race : RaceOddsRecord)
  : list double :=
  match c with
  | Tansho => values (tansho race)
  | Fukusho => values (fukusho race)
  | Umaren => values (umaren race)
  end.

Definition column_mean (c : Column) (st : PlaceStats) : double :=
  match c with
  | Tansho => tansho_mean st
  | Fukusho => fukusho_mean st
  | Umaren => umaren_mean st
  end.

(** The number of odds of a race. *)
Definition odds_count (race : RaceOddsRecord) : nat :=
  (List.length (tansho race) + List.length (fukusho race)
   + List.length (umaren race))%nat.

Section Summary.

Variable py_sum : list double -> double.

(** The value a column holds after the races of a venue, in order. *)
Definition last_mean (c : Column) (races : list RaceOddsRecord) : double :=
  fold_left (fun acc race => new_mean py_sum acc (column_odds c race))
            races 0%float.

(** What the dictionary of [create_place_summary_table] holds after the
    races [rs]. *)
Definition summarises (d : PyDict.dict string PlaceStats)
  (rs : list RaceOddsRecord) : Prop :=
  NoDup (PyDict.keys d)
  /\ (forall name, PyDict.get d name = None -> races_at name rs = [])
  /\ (forall name st, PyDict.get d name = Some st ->
        keibajo st = name
        /\ race_count st = List.length (races_at name rs)
        /\ success_count st = List.length (races_at name rs)
        /\ (0 < List.length (races_at name rs))%nat
        /\ forall c, column_mean c st = last_mean c (races_at name rs)).

End Summary.

(** A record both tables can place: marked success only if the venue
    code of its identifier can be read. *)
Definition placeable (r : RaceOddsRecord) : Prop :=
  status r = "success" -> exists n, place_of r = Ret n.

End TableReads.


(* ================================================================== *)
(** ** More pages, files and records *)

Module Samples.

Import PyText Dom Scraper RaceIds.

(** A page whose only tab is the bracket quinella. *)
Definition other_tab_page : Page :=
  {| race_header_title := [];
     race_header_time := [];
     nav_pills := [ {| tab_a := ["枠連"]; tab_click := Raise "detached" |} ];
     table_tanpuku := [];
     ul_umaren_list := [];
     load_state := Ret tt |}.

(** [float()] on the decimal literals of [Fixture.decimal] and on
    "nan". *)
Definition float_with_nan (s : string) : option double :=
  if s =? "nan" then Some PrimFloat.nan else Fixture.decimal s.

(** A race of two horses where the win cell of horse 1 reads "nan". *)
Definition nan_quinella_view : Page :=
  {| race_header_title := [" 3歳未勝利 "];
     race_header_time := ["発走時刻：10時5分"];
     nav_pills := [];
     table_tanpuku := [];
     ul_umaren_list :=
       [ [ Fixture.umaren_of "1" [("2", "3.1")];
           Fixture.umaren_of "2" [("1", "3.1")] ] ];
     load_state := Ret tt |}.

Definition nan_win_place_view : Page :=
  {| race_header_title := [" 3歳未勝利 "];
     race_header_time := ["発走時刻：10時5分"];
     nav_pills :=
       [ {| tab_a := ["単勝・複勝"]; tab_click := Raise "detached" |};
         {| tab_a := ["馬連"]; tab_click := Ret nan_quinella_view |} ];
     table_tanpuku :=
       [ [ Fixture.row "1" "nan" "1.1" "1.5";
           Fixture.row "2" "1.5" "1.0" "1.2" ] ];
     ul_umaren_list := [];
     load_state := Ret tt |}.

Definition nan_race_page : Page :=
  {| race_header_title := [" 3歳未勝利 "];
     race_header_time := ["発走時刻：10時5分"];
     nav_pills :=
       [ {| tab_a := ["単勝・複勝"]; tab_click := Ret nan_win_place_view |};
         {| tab_a := ["馬連"]; tab_click := Ret nan_quinella_view |} ];
     table_tanpuku := [];
     ul_umaren_list := [];
     load_state := Ret tt |}.

(** A population file with races of two dates, one of them twice. *)
Definition population_rows : list (string * Cell) :=
  [ ("2025-06-01", IntCell 202506010501);
    ("2025-06-01", IntCell 202506010501);
    ("2025-06-08", IntCell 202506020801);
    ("2025-06-01", IntCell 202506010502) ].

(** A population file without the first of June, beside a time table
    that has it. *)
Definition stale_population : list (string * Cell) :=
  [ ("2025-06-08", IntCell 202506020801) ].

Definition time_tables (date : string) : option (exc (list Cell)) :=
  if date =? "20250601" then Some (Ret [IntCell 202506010501]) else None.

(** The records of a day: two races at Tokyo around a failure, a race at
    Kyoto and a success record whose identifier has nine characters. *)
Definition tokyo1 : RaceOddsRecord :=
  {| race_id := "2025050101";
     race_name := "3歳未勝利";
     post_time := "10:05";
     tansho := [(1%Z, 2%float); (2%Z, 4%float)];
     fukusho := [(1%Z, 1.5%float)];
     umaren := [((1, 2)%Z, 6%float)];
     status := "success";
     message := "オッズ取得成功" |}.

Definition tokyo2 : RaceOddsRecord :=
  {| race_id := "2025050103";
     race_name := "3歳1勝クラス";
     post_time := "11:10";
     tansho := [(3%Z, 10%float)];
     fukusho := [];
     umaren := [];
     status := "success";
     message := "オッズ取得成功" |}.

Definition kyoto1 : RaceOddsRecord :=
  {| race_id := "2025080101";
     race_name := "3歳未勝利";
     post_time := "10:00";
     tansho := [(1%Z, 3%float)];
     fukusho := [];
     umaren := [];
     status := "success";
     message := "オッズ取得成功" |}.

Definition short_id : RaceOddsRecord :=
  {| race_id := "202505011";
     race_name := "不明";
     post_time := "不明";
     tansho := [(1%Z, 5%float)];
     fukusho := [];
     umaren := [];
     status := "success";
     message := "オッズ取得成功" |}.

(** [sum] as one addition after the other, from the integer 0. *)
Definition plain_sum (odds : list double) : double :=
  fold_left PrimFloat.add odds 0%float.

Definition day : list RaceOddsRecord :=
  [ tokyo1; error_data "2025050102" "Timeout 30000ms exceeded";
    kyoto1; short_id; tokyo2 ].

End Samples.

(* ================================================================== *)
(** * Properties *)

Unset Implicit Arguments.

(** ** Dictionaries *)

Module PyDictFacts.

Import PyDict.

#[global] Instance KeyLaws_Z : @KeyLaws Z _.
Proof. intros a b; apply Z.eqb_eq. Qed.

#[global] Instance KeyLaws_pair : @KeyLaws (Z * Z) _.
Proof.
  intros [a1 a2] [b1 b2]; unfold key_eqb, Key_pair; simpl.
  rewrite andb_true_iff, !Z.eqb_eq. split.
  - intros [-> ->]; reflexivity.
  - intros E; inversion E; auto.
Qed.

Section Facts.

Context {K V : Type} {HK : Key K} {HL : @KeyLaws K HK}.

Lemma key_eqb_refl (k : K) : key_eqb k k = true.
Proof. apply key_eqb_eq; reflexivity. Qed.

Lemma key_eqb_neq (a b : K) : a <> b -> key_eqb a b = false.
Proof.
  intros N; destruct (key_eqb a b) eqn:E; auto.
  apply key_eqb_eq in E; contradiction.
Qed.

Lemma get_set_same (d : dict K V) k v : get (set d k v) k = Some v.
Proof.
  induction d as [|[k' v'] d IH]; simpl.
  - now rewrite key_eqb_refl.
  - destruct (key_eqb k' k) eqn:E; simpl; rewrite E; auto.
Qed.

Lemma get_set_other (d : dict K V) k v k' :
  k <> k' -> get (set d k v) k' = get d k'.
Proof.
  intros N; induction d as [|[k0 v0] d IH]; simpl.
  - now rewrite key_eqb_neq.
  - destruct (key_eqb k0 k) eqn:E; simpl.
    + apply key_eqb_eq in E; subst k0. now rewrite key_eqb_neq.
    + destruct (key_eqb k0 k'); auto.
Qed.

Lemma get_set (d : dict K V) k v k' u :
  get (set d k v) k' = Some u ->
  (k' = k /\ u = v) \/ get d k' = Some u.
Proof.
  intros G. destruct (key_eqb k k') eqn:E.
  - apply key_eqb_eq in E; subst k'. rewrite get_set_same in G.
    left; split; congruence.
  - right. rewrite get_set_other in G; auto.
    intros ->; rewrite key_eqb_refl in E; discriminate.
Qed.

Lemma get_set_defined (d : dict K V) k v k' :
  get d k' <> None -> get (set d k v) k' <> None.
Proof.
  intros G. destruct (key_eqb k k') eqn:E.
  - apply key_eqb_eq in E; subst k'. rewrite get_set_same; discriminate.
  - rewrite get_set_other; auto.
    intros ->; rewrite key_eqb_refl in E; discriminate.
Qed.

Lemma in_set (d : dict K V) k v k' v' :
  In (k', v') (set d k v) -> In (k', v') d \/ (k' = k /\ v' = v).
Proof.
  induction d as [|[k0 v0] d IH]; simpl.
  - intros [E|[]]; inversion E; auto.
  - destruct (key_eqb k0 k) eqn:Ek; simpl.
    + apply key_eqb_eq in Ek; subst k0.
      intros [E|I]; [inversion E; auto | auto].
    + intros [E|I]; [auto | destruct (IH I); auto].
Qed.

Lemma get_in_keys (d : dict K V) k v : get d k = Some v -> In k (keys d).
Proof.
  induction d as [|[k0 v0] d IH]; simpl; [discriminate|].
  destruct (key_eqb k0 k) eqn:E; auto.
  apply key_eqb_eq in E; auto.
Qed.

End Facts.

End PyDictFacts.

(** ** Comparisons of floats *)

Module FloatOrder.

Import FloatRank.

Lemma SFcompare_rank (x y : spec_float) :
  SFcompare x y =
  match rank x, rank y with
  | Some a, Some b => Some (cmp3 a b)
  | _, _ => None
  end.
Proof.
  destruct x as [[|]|[|]| |[|] m1 e1], y as [[|]|[|]| |[|] m2 e2];
    try reflexivity; cbn [SFcompare rank cmp3].
  rewrite Z.compare_opp, (Z.compare_antisym e1 e2).
  change (Z.neg m1 ?= Z.neg m2)%Z with (CompOpp (Pos.compare m1 m2)).
  change (-1 ?= -1)%Z with Eq.
  destruct (e1 ?= e2)%Z; reflexivity.
Qed.

Lemma cmp3_lt a b : cmp3 a b = Lt <-> lt3 a b.
Proof.
  destruct a as [[a1 a2] a3], b as [[b1 b2] b3]. unfold cmp3, lt3.
  destruct (Z.compare_spec a1 b1), (Z.compare_spec a2 b2),
    (Z.compare_spec a3 b3); split; intros; try discriminate;
    try reflexivity; lia.
Qed.

Lemma cmp3_le a b : cmp3 a b <> Gt <-> le3 a b.
Proof.
  destruct a as [[a1 a2] a3], b as [[b1 b2] b3]. unfold cmp3, le3.
  destruct (Z.compare_spec a1 b1), (Z.compare_spec a2 b2),
    (Z.compare_spec a3 b3); split; intros; try discriminate;
    try congruence; lia.
Qed.

Lemma SFltb_rank (x y : spec_float) :
  SFltb x y = true <->
  exists a b, rank x = Some a /\ rank y = Some b /\ lt3 a b.
Proof.
  unfold SFltb. rewrite SFcompare_rank.
  destruct (rank x) as [a|], (rank y) as [b|];
    try (split; [discriminate|intros (? & ? & A & B & _); discriminate]).
  split.
  - intros E. exists a, b. split; auto. split; auto. apply cmp3_lt.
    destruct (cmp3 a b); auto; discriminate.
  - intros (a' & b' & A & B & L). inversion A; inversion B; subst.
    apply cmp3_lt in L. now rewrite L.
Qed.

Lemma SFleb_rank (x y : spec_float) :
  SFleb x y = true <->
  exists a b, rank x = Some a /\ rank y = Some b /\ le3 a b.
Proof.
  unfold SFleb. rewrite SFcompare_rank.
  destruct (rank x) as [a|], (rank y) as [b|];
    try (split; [discriminate|intros (? & ? & A & B & _); discriminate]).
  split.
  - intros E. exists a, b. split; auto. split; auto. apply cmp3_le.
    destruct (cmp3 a b); discriminate.
  - intros (a' & b' & A & B & L). inversion A; inversion B; subst.
    apply cmp3_le in L. destruct (cmp3 a' b'); auto; congruence.
Qed.

(** A float that is not NaN has a rank. *)
Lemma ranked (x : float) :
  PrimFloat.is_nan x = false <-> exists a, rank (Prim2SF x) = Some a.
Proof.
  unfold PrimFloat.is_nan. rewrite negb_false_iff, FloatAxioms.eqb_spec.
  unfold SFeqb. rewrite SFcompare_rank.
  destruct (rank (Prim2SF x)) as [a|].
  - split; [eauto|]. intros _.
    assert (E : cmp3 a a = Eq).
    { destruct a as [[a1 a2] a3]. unfold cmp3. now rewrite !Z.compare_refl. }
    now rewrite E.
  - split; [discriminate|]. intros (a & A); discriminate.
Qed.

Ltac ranks :=
  repeat match goal with
         | H : PrimFloat.ltb _ _ = true |- _ =>
             rewrite FloatAxioms.ltb_spec in H; apply SFltb_rank in H;
             destruct H as (? & ? & ? & ? & H)
         | H : PrimFloat.leb _ _ = true |- _ =>
             rewrite FloatAxioms.leb_spec in H; apply SFleb_rank in H;
             destruct H as (? & ? & ? & ? & H)
         | H : PrimFloat.is_nan _ = false |- _ =>
             apply ranked in H; destruct H as (? & H)
         end;
  repeat match goal with
         | H : rank ?x = Some ?a, H' : rank ?x = Some ?b |- _ =>
             rewrite H in H'; inversion H'; subst; clear H'
         end.

Ltac order3 :=
  repeat match goal with
         | a : (Z * Z * Z)%type |- _ => destruct a as [[? ?] ?]
         end;
  unfold lt3, le3 in *; lia.

Lemma leb_refl (x : float) : is_nan x = false -> (x <=? x)%float = true.
Proof.
  intros N. ranks. rewrite FloatAxioms.leb_spec. apply SFleb_rank.
  eexists _, _; split; [eassumption|]; split; [eassumption|]. order3.
Qed.

Lemma ltb_leb (x y : float) : (x <? y)%float = true -> (x <=? y)%float = true.
Proof.
  intros L. ranks. rewrite FloatAxioms.leb_spec. apply SFleb_rank.
  eexists _, _; split; [eassumption|]; split; [eassumption|]. order3.
Qed.

Lemma leb_trans (x y z : float) :
  (x <=? y)%float = true -> (y <=? z)%float = true -> (x <=? z)%float = true.
Proof.
  intros A B. ranks. rewrite FloatAxioms.leb_spec. apply SFleb_rank.
  eexists _, _; split; [eassumption|]; split; [eassumption|]. order3.
Qed.

Lemma ltb_leb_trans (x y z : float) :
  (x <? y)%float = true -> (y <=? z)%float = true -> (x <? z)%float = true.
Proof.
  intros A B. ranks. rewrite FloatAxioms.ltb_spec. apply SFltb_rank.
  eexists _, _; split; [eassumption|]; split; [eassumption|]. order3.
Qed.

Lemma leb_ltb_trans (x y z : float) :
  (x <=? y)%float = true -> (y <? z)%float = true -> (x <? z)%float = true.
Proof.
  intros A B. ranks. rewrite FloatAxioms.ltb_spec. apply SFltb_rank.
  eexists _, _; split; [eassumption|]; split; [eassumption|]. order3.
Qed.

(** Among floats that are not NaN, [x < y] fails only when [y <= x]. *)
Lemma not_ltb_leb (x y : float) :
  is_nan x = false -> is_nan y = false ->
  (x <? y)%float = false -> (y <=? x)%float = true.
Proof.
  intros Nx Ny L.
  apply ranked in Nx. destruct Nx as (a & A).
  apply ranked in Ny. destruct Ny as (b & B).
  rewrite FloatAxioms.leb_spec. apply SFleb_rank.
  exists b, a. split; [exact B|]. split; [exact A|].
  assert (Hn : ~ lt3 a b).
  { intros C. rewrite FloatAxioms.ltb_spec in L.
    assert (T : SFltb (Prim2SF x) (Prim2SF y) = true).
    { apply SFltb_rank. exists a, b. auto. }
    congruence. }
  destruct a as [[a1 a2] a3], b as [[b1 b2] b3]. unfold lt3, le3 in *. lia.
Qed.

(** A comparison with NaN is false. *)
Lemma ltb_nan (x y : float) :
  is_nan x = true \/ is_nan y = true -> (x <? y)%float = false.
Proof.
  intros N. destruct (x <? y)%float eqn:L; auto. ranks.
  destruct N as [N|N];
    [assert (F : is_nan x = false) by (apply ranked; eauto)
    |assert (F : is_nan y = false) by (apply ranked; eauto)];
    congruence.
Qed.

End FloatOrder.

(** ** Coroutines *)

Module EffFacts.

Import Eff Eff.Notations.

Section Stable.

Context {S : Type} (I : S -> Prop).

Lemma stable_ret {A} (a : A) : stable I (ret a).
Proof. intros s Hs; exact Hs. Qed.

Lemma stable_lift {A} (r : exc A) : stable I (lift r).
Proof. intros s Hs; exact Hs. Qed.

Lemma stable_state : stable I state.
Proof. intros s Hs; exact Hs. Qed.

Lemma stable_modify (f : S -> S) :
  (forall s, I s -> I (f s)) -> stable I (modify f).
Proof. intros Hf s Hs; apply Hf, Hs. Qed.

Lemma stable_bind {A B} (m : M S A) (k : A -> M S B) :
  stable I m -> (forall a, stable I (k a)) -> stable I (bind m k).
Proof.
  intros Hm Hk s Hs. unfold bind.
  specialize (Hm s Hs). destruct (m s) as [[a|e] s']; simpl in *.
  - apply Hk, Hm.
  - exact Hm.
Qed.

Lemma stable_bind_ret {A B} (a : A) (k : A -> M S B) :
  stable I (k a) -> stable I (bind (lift (Ret a)) k).
Proof. intros Hk s Hs. exact (Hk s Hs). Qed.

Lemma stable_if {A} (b : bool) (m1 m2 : M S A) :
  stable I m1 -> stable I m2 -> stable I (if b then m1 else m2).
Proof. destruct b; auto. Qed.

Lemma stable_for_each {A} (body : A -> M S unit) (xs : list A) :
  (forall x, In x xs -> stable I (body x)) -> stable I (for_each body xs).
Proof.
  induction xs as [|x xs IH]; intros Hb; simpl.
  - apply stable_ret.
  - apply stable_bind.
    + apply Hb; left; reflexivity.
    + intros _. apply IH. intros y Hy; apply Hb; right; exact Hy.
Qed.

Lemma stable_try_except {A} (m : M S A) (h : string -> M S A) :
  stable I m -> (forall e, stable I (h e)) -> stable I (try_except m h).
Proof.
  intros Hm Hh s Hs. unfold try_except.
  specialize (Hm s Hs). destruct (m s) as [[a|e] s']; simpl in *.
  - exact Hm.
  - apply Hh, Hm.
Qed.

End Stable.

Lemma stable_try_finally {S A} (I : S -> Prop) (m : M S A) (f : M S unit) :
  stable I m -> stable I f -> stable I (try_finally m f).
Proof.
  intros Hm Hf s Hs. unfold try_finally.
  specialize (Hm s Hs). destruct (m s) as [r s']; simpl in Hm.
  specialize (Hf s' Hm). destruct (f s') as [[[]|e] s'']; exact Hf.
Qed.

Lemma returns_ret {S A} (a : A) : returns (@ret S A a).
Proof. intros s; exists a, s; reflexivity. Qed.

Lemma returns_lift {S A} (a : A) : returns (@lift S A (Ret a)).
Proof. intros s; exists a, s; reflexivity. Qed.

Lemma returns_state {S} : returns (@state S).
Proof. intros s; exists s, s; reflexivity. Qed.

Lemma returns_bind {S A B} (m : M S A) (k : A -> M S B) :
  returns m -> (forall a, returns (k a)) -> returns (bind m k).
Proof.
  intros Hm Hk s. destruct (Hm s) as (a & s1 & E).
  destruct (Hk a s1) as (b & s2 & E2).
  exists b, s2. unfold bind. now rewrite E.
Qed.

Lemma returns_bind_ret {S A B} (a : A) (k : A -> M S B) :
  returns (k a) -> returns (bind (lift (Ret a)) k).
Proof. intros Hk s. exact (Hk s). Qed.

Lemma returns_if {S A} (b : bool) (m1 m2 : M S A) :
  returns m1 -> returns m2 -> returns (if b then m1 else m2).
Proof. destruct b; auto. Qed.

Lemma returns_try_finally {S A} (m : M S A) (f : M S unit) :
  returns m -> returns f -> returns (try_finally m f).
Proof.
  intros Hm Hf s. destruct (Hm s) as (a & s1 & E).
  destruct (Hf s1) as ([] & s2 & E2).
  exists a, s2. unfold try_finally. now rewrite E, E2.
Qed.

Lemma try_finally_ret_inv {S A} (m : M S A) (f : M S unit) s r s' :
  try_finally m f s = (Ret r, s') -> exists s1, m s = (Ret r, s1).
Proof.
  unfold try_finally. destruct (m s) as [o s1].
  destruct (f s1) as [[[]|e] s2]; intros E; inversion E; subst.
  exists s1; reflexivity.
Qed.

Lemma bind_lift_ret {S A B} (a : A) (k : A -> M S B) s :
  bind (lift (Ret a)) k s = k a s.
Proof. reflexivity. Qed.

Lemma bind_lift_raise {S A B} (e : string) (k : A -> M S B) s :
  bind (lift (Raise e)) k s = (Raise e, s).
Proof. reflexivity. Qed.

Lemma bind_ret_inv {S A B} (m : M S A) (k : A -> M S B) s b s' :
  bind m k s = (Ret b, s') ->
  exists a s1, m s = (Ret a, s1) /\ k a s1 = (Ret b, s').
Proof.
  unfold bind. destruct (m s) as [[a|e] s1]; intros E.
  - exists a, s1; auto.
  - discriminate.
Qed.

Lemma for_each_ret_inv {S A} (body : A -> M S unit) x xs s s' :
  for_each body (x :: xs) s = (Ret tt, s') ->
  exists s1, body x s = (Ret tt, s1) /\ for_each body xs s1 = (Ret tt, s').
Proof.
  simpl. intros E. apply bind_ret_inv in E. destruct E as ([] & s1 & E1 & E2).
  exists s1; auto.
Qed.

End EffFacts.

(** ** The race identifier *)

Module Identifier.

Import PyText Scraper Format.

Lemma below_forallb (P : nat -> bool) (n : nat) :
  forallb P (seq 0 n) = true -> forall k, (k < n)%nat -> P k = true.
Proof.
  intros F k L. rewrite forallb_forall in F. apply F, in_seq. lia.
Qed.

Lemma digits2_length (n : nat) :
  (n < 100)%nat -> String.length (digits 2 n) = 2%nat.
Proof.
  intros L. apply Nat.eqb_eq.
  revert n L.
  apply (below_forallb (fun n => (String.length (digits 2 n) =? 2)%nat)).
  vm_compute; reflexivity.
Qed.

Lemma digits4_length (n : nat) :
  (n < 100 * 100)%nat -> String.length (digits 4 n) = 4%nat.
Proof.
  intros L. apply Nat.eqb_eq.
  revert n L.
  apply (below_forallb (fun n => (String.length (digits 4 n) =? 4)%nat)).
  vm_compute; reflexivity.
Qed.

Lemma digits2_int (n : nat) :
  (n < 100)%nat -> int (digits 2 n) = Ret (Z.of_nat n).
Proof.
  intros L.
  assert (E : match int (digits 2 n) with
              | Ret z => (z =? Z.of_nat n)%Z
              | Raise _ => false
              end = true).
  { revert n L.
    apply (below_forallb
             (fun n => match int (digits 2 n) with
                       | Ret z => (z =? Z.of_nat n)%Z
                       | Raise _ => false
                       end)).
    vm_compute; reflexivity. }
  destruct (int (digits 2 n)) as [z|]; [|discriminate].
  apply Z.eqb_eq in E; subst z; reflexivity.
Qed.

(** The four fields of an identifier are its slices. *)
Lemma slices_of_fields (a b c e : string) :
  String.length a = 4%nat -> String.length b = 2%nat ->
  String.length c = 2%nat -> String.length e = 2%nat ->
  slice 0 4 (a ++ b ++ c ++ e) = a /\ slice 4 6 (a ++ b ++ c ++ e) = b /\
  slice 6 8 (a ++ b ++ c ++ e) = c /\ slice 8 10 (a ++ b ++ c ++ e) = e.
Proof.
  intros La Lb Lc Le.
  destruct a as [|a0 [|a1 [|a2 [|a3 [|? ?]]]]]; try discriminate La.
  destruct b as [|b0 [|b1 [|? ?]]]; try discriminate Lb.
  destruct c as [|c0 [|c1 [|? ?]]]; try discriminate Lc.
  destruct e as [|e0 [|e1 [|? ?]]]; try discriminate Le.
  repeat split; reflexivity.
Qed.

Lemma known_venue (v : nat) (default : string) :
  PyDict.get_default place_mapping (Z.of_nat v) default =
  match venue_name v with
  | Some name => name
  | None => default
  end.
Proof.
  do 11 (destruct v as [|v]; [reflexivity|]).
  replace (venue_name _) with (@None string)
    by (simpl; now destruct v).
  unfold PyDict.get_default, place_mapping, PyDict.get, PyDict.key_eqb,
    PyDict.Key_Z.
  repeat match goal with
         | |- context [(?k =? ?z)%Z] =>
             replace (k =? z)%Z with false by (symmetry; apply Z.eqb_neq; lia)
         end.
  reflexivity.
Qed.

Lemma race_info_of_fields (y v d r : nat) :
  (y < 100 * 100)%nat -> (v < 100)%nat -> (d < 100)%nat -> (r < 100)%nat ->
  race_info (race_id_of y v d r) =
  Ret {| year := digits 4 y;
         month := digits 2 v;
         day := digits 2 d;
         place_code := Z.of_nat v;
         race_num := Z.of_nat r;
         place_name := match venue_name v with
                       | Some name => name
                       | None => UNKNOWN
                       end |}.
Proof.
  intros Ly Lv Ld Lr.
  destruct (slices_of_fields (digits 4 y) (digits 2 v) (digits 2 d)
              (digits 2 r)) as (S1 & S2 & S3 & S4);
    auto using digits2_length, digits4_length.
  unfold race_info, race_id_of.
  rewrite S1, S2, S3, S4, !digits2_int by assumption.
  simpl. now rewrite known_venue.
Qed.

Lemma kaisai_name_of_fields (y v d r : nat) (place : string) :
  (y < 100 * 100)%nat -> (v < 100)%nat -> (d < 100)%nat -> (r < 100)%nat ->
  kaisai_name (race_id_of y v d r) place =
  Ret (str_of_int (Z.of_nat d) ++ "回" ++ place
       ++ str_of_int (Z.of_nat r) ++ "日").
Proof.
  intros Ly Lv Ld Lr.
  destruct (slices_of_fields (digits 4 y) (digits 2 v) (digits 2 d)
              (digits 2 r)) as (S1 & S2 & S3 & S4);
    auto using digits2_length, digits4_length.
  unfold kaisai_name, race_id_of.
  rewrite S3, S4, !digits2_int by assumption.
  reflexivity.
Qed.

Lemma match_digits_inv (n : nat) :
  forall s rest, match_digits n s = Some rest ->
  exists p, s = p ++ rest /\ String.length p = n /\ all_digits p = true.
Proof.
  induction n as [|n IH]; simpl; intros s rest E.
  - inversion E; subst. exists ""; auto.
  - destruct s as [|c s]; [discriminate|].
    destruct (is_digit c) eqn:D; [|discriminate].
    destruct (IH _ _ E) as (p & -> & L & A).
    exists (String c p). unfold all_digits in *; simpl.
    rewrite D, L; auto.
Qed.

(** What the format check of [main] lets through. *)
Lemma re_match_race_id_inv (s : string) :
  re_match_race_id s = true ->
  ten_digits s = true \/ exists t, ten_digits t = true /\ s = t ++ LF.
Proof.
  unfold re_match_race_id. destruct (match_digits 10 s) as [rest|] eqn:E;
    [|discriminate].
  destruct (match_digits_inv 10 s rest E) as (p & -> & L & A).
  rewrite orb_true_iff, !String.eqb_eq. intros [->| ->].
  - left. replace (p ++ "") with p by (clear; induction p; simpl; congruence).
    unfold ten_digits. now rewrite A, L.
  - right. exists p; split; auto. unfold ten_digits. now rewrite A, L.
Qed.

(** C5.  What the code does with an identifier, against the claim.  For
    an identifier of ten digits, the locals of [get_race_odds] hold the
    year, the venue code, the day of meeting and the race number, and the
    name of the venue when the code is one of the ten known ones; for any
    other code they hold the bare sentinel "不明", while the application
    computes the label "不明(code)" of the claim from the same table; and
    in single-race mode an ASCII argument exits with status 1 before any
    browser call unless it is ten digits, or ten digits followed by a
    line feed, which the check lets through. *)
Theorem race_id_fields :
  (forall y v d r : nat,
      (y < 100 * 100)%nat -> (v < 100)%nat -> (d < 100)%nat -> (r < 100)%nat ->
      race_info (race_id_of y v d r) =
      Ret {| year := digits 4 y;
             month := digits 2 v;
             day := digits 2 d;
             place_code := Z.of_nat v;
             race_num := Z.of_nat r;
             place_name := match venue_name v with
                           | Some name => name
                           | None => "不明"
                           end |})
  /\ (forall v : nat,
         App.place_name (Z.of_nat v) =
         match venue_name v with
         | Some name => name
         | None => "不明(" ++ str_of_int (Z.of_nat v) ++ ")"
         end)
  /\ (forall py_float site s w,
         is_ascii s = true ->
         ten_digits s = false ->
         (forall t, ten_digits t = true -> s <> t ++ LF) ->
         main_single py_float site s w = (SysExit 1, w)).
Proof.
  split; [|split].
  - intros; now apply race_info_of_fields.
  - intros v. unfold App.place_name, App.place_mapping. apply known_venue.
  - intros py_float site s w _ N1 N2. unfold main_single.
    destruct (re_match_race_id s) eqn:E; [|reflexivity].
    apply re_match_race_id_inv in E. destruct E as [E|(t & E & ->)].
    + congruence.
    + exfalso; now apply (N2 t).
Qed.

Lemma race_id_fields_witness :
  race_info "2025060105" =
  Ret {| year := "2025"; month := "06"; day := "01";
         place_code := 6; race_num := 5; place_name := "中山" |}
  /\ main_single Fixture.decimal (Fixture.good_site Fixture.race_page)
       "202506010501" Fixture.clean = (SysExit 1, Fixture.clean).
Proof.
  split.
  - apply (proj1 race_id_fields 2025 6 1 5)%nat; lia.
  - apply (proj2 (proj2 race_id_fields)).
    + reflexivity.
    + reflexivity.
    + intros t _ E.
      assert (L : String.length "202506010501" = String.length (t ++ LF))
        by now rewrite E.
      destruct t as [|? [|? [|? [|? [|? [|? [|? [|? [|? [|? [|? [|? t]]]]]]]]]]]];
        simpl in L; try discriminate L.
      * inversion E.
      * destruct t; discriminate L.
Defined.

(** For venue code 11 the fetch names the venue "不明", not "不明(11)";
    and ten digits followed by a line feed pass the format check of
    [main], after which the browser is driven. *)
Lemma unknown_venue_has_bare_label :
  (exists info,
      race_info "2025110105" = Ret info
      /\ place_code info = 11%Z
      /\ place_name info = "不明"
      /\ place_name info <> "不明(11)")
  /\ ten_digits ("2025060105" ++ LF) = false
  /\ fst (main_single Fixture.decimal (Fixture.good_site Fixture.race_page)
            ("2025060105" ++ LF) Fixture.clean) <> SysExit 1.
Proof.
  split; [|split].
  - eexists; split; [reflexivity|]. simpl. repeat split. discriminate.
  - reflexivity.
  - vm_compute. discriminate.
Qed.

(** C6.  In the meeting label the slot before "回" is filled from the
    day-of-meeting field of the identifier and the slot before "日" from
    its race-number field, the same field the race label is built from:
    the day of meeting never reaches the "日" slot. *)
Theorem kaisai_name_slots (y v d r : nat) (place : string) :
  (y < 100 * 100)%nat -> (v < 100)%nat -> (d < 100)%nat -> (r < 100)%nat ->
  kaisai_name (race_id_of y v d r) place =
    Ret (str_of_int (Z.of_nat d) ++ "回" ++ place
         ++ str_of_int (Z.of_nat r) ++ "日")
  /\ (exists info,
         race_info (race_id_of y v d r) = Ret info
         /\ day info = digits 2 d
         /\ race_link (race_num info) = str_of_int (Z.of_nat r) ++ "レース").
Proof.
  intros Ly Lv Ld Lr. split.
  - now apply kaisai_name_of_fields.
  - eexists. split; [now apply race_info_of_fields|]. split; reflexivity.
Qed.

Lemma kaisai_name_slots_witness :
  kaisai_name "2025060105" "中山" = Ret "1回中山5日"
  /\ (exists info,
         race_info "2025060105" = Ret info
         /\ day info = "01"
         /\ race_link (race_num info) = "5レース").
Proof.
  apply (kaisai_name_slots 2025 6 1 5 "中山")%nat; lia.
Defined.

End Identifier.

(** ** Win and place odds *)

Module WinPlace.

Import PyText Eff Eff.Notations Dom Scraper Reads PyDictFacts.

(** Case analysis on the scrutinee of an innermost [match]. *)
Ltac break_match :=
  match goal with
  | |- context [match ?x with _ => _ end] =>
      lazymatch x with
      | context [match _ with _ => _ end] => fail
      | _ => destruct x eqn:?
      end
  end.

Lemma midpoints_from_spec (low : double) (highs : list double) :
  midpoints_from low highs = true ->
  forall high, In high highs -> between low (midpoint low high) high = true.
Proof.
  induction highs as [|h t IH]; simpl; [contradiction|].
  destruct (between low (midpoint low h) h) eqn:E; [|discriminate].
  intros H high [<-|I]; auto.
Qed.

Lemma midpoints_within_spec (odds : list double) :
  midpoints_within odds = true ->
  forall before low rest, odds = (before ++ low :: rest)%list ->
  forall high, In high (low :: rest) ->
  between low (midpoint low high) high = true.
Proof.
  induction odds as [|a t IH]; intros H before low rest D.
  - destruct before; discriminate D.
  - cbn [midpoints_within] in H.
    destruct (midpoints_from a (a :: t)) eqn:E; [|discriminate].
    destruct before as [|b before]; simpl in D; injection D as -> ->.
    + now apply midpoints_from_spec.
    + now apply (IH H before low rest).
Qed.

Lemma odds_from_split (k : nat) :
  forall n a, (n <= a < n + Z.of_nat k)%Z ->
  exists before,
    odds_from k n
    = (before ++ odds_from (Z.to_nat (n + Z.of_nat k - a)) a)%list.
Proof.
  induction k as [|k IH]; intros n a A; [lia|].
  destruct (Z.eq_dec a n) as [->|N].
  - exists []. simpl app. f_equal. lia.
  - destruct (IH (n + 1)%Z a) as (before & E); [lia|].
    exists (displayed n :: before). cbn [odds_from app]. rewrite E.
    do 3 f_equal. lia.
Qed.

Lemma odds_from_in (k : nat) :
  forall n b, (n <= b < n + Z.of_nat k)%Z -> In (displayed b) (odds_from k n).
Proof.
  induction k as [|k IH]; intros n b B; [lia|].
  cbn [odds_from]. destruct (Z.eq_dec b n) as [->|N]; [now left|].
  right. apply IH. lia.
Qed.

(** Between two odds of at most four digits, one of them a decimal, the
    midpoint is rounded to a float between them. *)
Lemma midpoint_between (n m : Z) :
  (0 <= n <= m)%Z -> (m < 10000)%Z ->
  between (displayed n) (midpoint (displayed n) (displayed m)) (displayed m)
  = true.
Proof.
  intros A B.
  assert (C : midpoints_within (odds_from (100 * 100) 0) = true)
    by (vm_compute; reflexivity).
  destruct (odds_from_split (100 * 100) 0 n) as (before & E); [lia|].
  remember (Z.to_nat (0 + Z.of_nat (100 * 100) - n)) as k eqn:K.
  destruct k as [|k]; [lia|].
  cbn [odds_from] in E.
  apply (midpoints_within_spec _ C before _ _ E).
  change (In (displayed m) (odds_from (S k) n)).
  apply odds_from_in. lia.
Qed.

Section WithFloat.

Variable py_float : string -> option double.

(** One iteration of the row loop, reading by reading. *)
Lemma tanpuku_row_run (row : TanpukuRow) p t f :
  tanpuku_row py_float row (p, (t, f)) =
  if (0 <? count (td_num row))%nat then
    match umaban_of row with
    | Raise e => (Raise e, (p, (t, f)))
    | Ret h =>
        match new_tansho py_float row h t with
        | Raise e => (Raise e, (p, (t, f)))
        | Ret t' =>
            match new_fukusho py_float row h f with
            | Raise e => (Raise e, (p, (t', f)))
            | Ret f' => (Ret tt, (p, (t', f')))
            end
        end
    end
  else (Ret tt, (p, (t, f))).
Proof.
  unfold tanpuku_row, new_tansho, new_fukusho, umaban_of, win_of, low_of,
    high_of, has_win, has_place, set_tansho, set_fukusho, and_then,
    bind, lift, ret, modify.
  repeat (break_match; simpl in *; try discriminate; try reflexivity).
Qed.

Lemma new_tansho_inv row h t t' :
  new_tansho py_float row h t = Ret t' ->
  (has_win row = false /\ t' = t)
  \/ (exists w, has_win row = true /\ win_of py_float row = Ret w
                /\ t' = PyDict.set t h w).
Proof.
  unfold new_tansho. destruct (has_win row); [|intros E; inversion E; auto].
  destruct (win_of py_float row) as [w|e]; simpl; intros E; inversion E.
  right; exists w; auto.
Qed.

Lemma new_fukusho_inv row h f f' :
  new_fukusho py_float row h f = Ret f' ->
  (has_place row = false /\ f' = f)
  \/ (exists low high,
         has_place row = true /\ low_of py_float row = Ret low
         /\ high_of py_float row = Ret high
         /\ f' = PyDict.set f h (midpoint low high)).
Proof.
  unfold new_fukusho. destruct (has_place row); [|intros E; inversion E; auto].
  destruct (low_of py_float row) as [low|e]; simpl; [|discriminate].
  destruct (high_of py_float row) as [high|e]; simpl; intros E; inversion E.
  right; exists low, high; auto.
Qed.

Lemma win_source_cons row rows h w :
  win_source py_float rows h w -> win_source py_float (row :: rows) h w.
Proof. intros (r & I & ?); exists r; split; [right|]; auto. Qed.

Lemma place_source_cons row rows h v :
  place_source py_float rows h v -> place_source py_float (row :: rows) h v.
Proof.
  intros (r & lo & hi & I & ?); exists r, lo, hi; split; [right|]; auto.
Qed.

(** The row loop, from any dictionaries [t] and [f]: the page is left
    alone, entries are only added or overwritten, every new entry has a
    source, and a loop that completes has served every row. *)
Lemma rows_loop rows :
  forall p t f r p' t' f',
  for_each (tanpuku_row py_float) rows (p, (t, f)) = (r, (p', (t', f'))) ->
  p' = p
  /\ (forall h w, PyDict.get t' h = Some w ->
                 PyDict.get t h = Some w \/ win_source py_float rows h w)
  /\ (forall h v, PyDict.get f' h = Some v ->
                 PyDict.get f h = Some v \/ place_source py_float rows h v)
  /\ (forall h, PyDict.get t h <> None -> PyDict.get t' h <> None)
  /\ (forall h, PyDict.get f h <> None -> PyDict.get f' h <> None)
  /\ (r = Ret tt ->
      forall row h, In row rows -> umaban_of row = Ret h ->
        (has_win row = true -> PyDict.get t' h <> None)
        /\ (has_place row = true -> PyDict.get f' h <> None)).
Proof.
  induction rows as [|row rows IH]; intros p t f r p' t' f' E.
  - simpl in E. inversion E; subst.
    repeat split; auto; contradiction.
  - simpl in E. unfold bind in E. rewrite tanpuku_row_run in E.
    destruct (0 <? count (td_num row))%nat eqn:C.
    + destruct (umaban_of row) as [h0|e] eqn:U.
      2:{ inversion E; subst. repeat split; auto; discriminate. }
      destruct (new_tansho py_float row h0 t) as [t1|e] eqn:T.
      2:{ inversion E; subst. repeat split; auto; discriminate. }
      assert (T1 : (forall h w, PyDict.get t1 h = Some w ->
                      PyDict.get t h = Some w \/ win_source py_float (row :: rows) h w)
                   /\ (forall h, PyDict.get t h <> None ->
                                 PyDict.get t1 h <> None)
                   /\ (has_win row = true -> PyDict.get t1 h0 <> None)).
      { destruct (new_tansho_inv _ _ _ _ T) as [(N & ->)|(w0 & N & W & ->)].
        - repeat split; auto. congruence.
        - repeat split.
          + intros h w G. destruct (get_set _ _ _ _ _ G) as [(-> & ->)|G'];
              auto. right; exists row; repeat split; auto. now left.
          + intros h; apply get_set_defined.
          + intros _. rewrite get_set_same; discriminate. }
      destruct T1 as (T1a & T1b & T1c).
      destruct (new_fukusho py_float row h0 f) as [f1|e] eqn:F.
      2:{ inversion E; subst. repeat split; auto; discriminate. }
      assert (F1 : (forall h v, PyDict.get f1 h = Some v ->
                      PyDict.get f h = Some v
                      \/ place_source py_float (row :: rows) h v)
                   /\ (forall h, PyDict.get f h <> None ->
                                 PyDict.get f1 h <> None)
                   /\ (has_place row = true -> PyDict.get f1 h0 <> None)).
      { destruct (new_fukusho_inv _ _ _ _ F)
          as [(N & ->)|(lo & hi & N & Lo & Hi & ->)].
        - repeat split; auto. congruence.
        - repeat split.
          + intros h v G. destruct (get_set _ _ _ _ _ G) as [(-> & ->)|G'];
              auto. right; exists row, lo, hi; repeat split; auto. now left.
          + intros h; apply get_set_defined.
          + intros _. rewrite get_set_same; discriminate. }
      destruct F1 as (F1a & F1b & F1c).
      destruct (IH _ _ _ _ _ _ _ E) as (-> & A & B & C1 & C2 & D).
      repeat split; auto.
      * intros h w G. destruct (A _ _ G) as [G'|S]; auto.
        right; now apply win_source_cons.
      * intros h v G. destruct (B _ _ G) as [G'|S]; auto.
        right; now apply place_source_cons.
      * destruct H0 as [<-|I].
        -- rewrite U in H1; inversion H1; subst. auto.
        -- now apply (D H row0 h I H1).
      * destruct H0 as [<-|I].
        -- rewrite U in H1; inversion H1; subst. auto.
        -- now apply (D H row0 h I H1).
    + destruct (IH _ _ _ _ _ _ _ E) as (-> & A & B & C1 & C2 & D).
      assert (NU : forall h, umaban_of row <> Ret h).
      { intros h. unfold umaban_of. destruct (td_num row); simpl in *;
          [discriminate|]. discriminate C. }
      repeat split; auto.
      * intros h w G. destruct (A _ _ G) as [G'|S]; auto.
        right; now apply win_source_cons.
      * intros h v G. destruct (B _ _ G) as [G'|S]; auto.
        right; now apply place_source_cons.
      * destruct H0 as [<-|I]; [now destruct (NU h)|].
        now apply (D H row0 h I H1).
      * destruct H0 as [<-|I]; [now destruct (NU h)|].
        now apply (D H row0 h I H1).
Qed.

(** The tab loop either leaves both dictionaries empty or ends in the
    row loop over the table of the page it has opened. *)
Lemma tanpuku_tabs_run tabs :
  forall p r p' t f,
  tanpuku_tabs py_float tabs (p, ([], [])) = (r, (p', (t, f))) ->
  (t = [] /\ f = [])
  \/ (exists r',
         for_each (tanpuku_row py_float) (List.concat (table_tanpuku p'))
                  (p', ([], [])) = (r', (p', (t, f)))).
Proof.
  induction tabs as [|tab tabs IH]; intros p r p' t f E.
  - inversion E; auto.
  - simpl in E. unfold bind at 1 in E. unfold lift at 1 in E.
    destruct (text_content (tab_a tab)) as [name|e];
      [|inversion E; auto].
    destruct (contains "単勝・複勝" name); [|now apply (IH _ _ _ _ _ E)].
    unfold click, wait_for_load_state, bind, lift, modify, state in E.
    simpl in E.
    destruct (tab_click tab) as [shown|e]; [|inversion E; auto].
    simpl in E.
    destruct (load_state shown) as [[]|e]; [|inversion E; auto].
    destruct (0 <? Datatypes.length (table_tanpuku shown))%nat;
      [|inversion E; auto].
    destruct (rows_loop _ _ _ _ _ _ _ _ E) as (-> & _).
    right; exists r; exact E.
Qed.

Lemma extract_tanpuku_run page :
  exists t f p',
    _extract_tanpuku_odds py_float page = (Ret (t, f), p')
    /\ ((t = [] /\ f = [])
        \/ (exists r',
              for_each (tanpuku_row py_float)
                       (List.concat (table_tanpuku p'))
                       (p', ([], [])) = (r', (p', (t, f))))).
Proof.
  unfold _extract_tanpuku_odds, try_except.
  unfold bind at 1, state at 1. simpl.
  destruct (tanpuku_tabs py_float (nav_pills page) (page, ([], [])))
    as [r [p' [t f]]] eqn:E.
  apply tanpuku_tabs_run in E.
  exists t, f, p'. destruct r; simpl; auto.
Qed.

(** C4 (as amended).  Every place-odds entry is the float
    [(low + high) / 2] of the two bounds displayed in a row of that horse,
    computed as Python does; it lies between the bounds when they are
    odds of at most four digits with one decimal and [low <= high] (the
    code itself compares nothing); every entry of either map comes from a
    row that shows the corresponding cell, so a row that lacks the win
    cell or a place bound adds nothing to that map; and when the row loop
    completes, a row enters each map whose cell it shows, whatever it
    lacks for the other. *)
Theorem place_odds_are_midpoints (page : Page) :
  (exists tansho fukusho page',
      _extract_tanpuku_odds py_float page = (Ret (tansho, fukusho), page')
      /\ (forall h v, PyDict.get fukusho h = Some v ->
            exists row low high,
              In row (List.concat (table_tanpuku page'))
              /\ umaban_of row = Ret h /\ has_place row = true
              /\ low_of py_float row = Ret low
              /\ high_of py_float row = Ret high
              /\ v = midpoint low high
              /\ (forall n m : Z,
                    (0 <= n <= m)%Z -> (m < 10000)%Z ->
                    low = displayed n -> high = displayed m ->
                    between low v high = true))
      /\ (forall h w, PyDict.get tansho h = Some w ->
            win_source py_float (List.concat (table_tanpuku page')) h w))
  /\ (forall rows r page' tansho fukusho,
        for_each (tanpuku_row py_float) rows (page, ([], []))
        = (r, (page', (tansho, fukusho))) ->
        (forall h,
            (forall row, In row rows -> umaban_of row = Ret h ->
                         has_win row = false) ->
            PyDict.get tansho h = None)
        /\ (forall h,
              (forall row, In row rows -> umaban_of row = Ret h ->
                           has_place row = false) ->
              PyDict.get fukusho h = None)
        /\ (r = Ret tt ->
            forall row h, In row rows -> umaban_of row = Ret h ->
              (has_win row = true -> PyDict.get tansho h <> None)
              /\ (has_place row = true -> PyDict.get fukusho h <> None))).
Proof.
  split.
  - destruct (extract_tanpuku_run page) as (t & f & p' & E & R).
    exists t, f, p'. split; [exact E|].
    destruct R as [(-> & ->)|(r' & L)].
    + split; intros h v G; discriminate G.
    + destruct (rows_loop _ _ _ _ _ _ _ _ L) as (_ & A & B & _).
      split.
      * intros h v G. destruct (B h v G) as [G'|S]; [discriminate G'|].
        destruct S as (row & lo & hi & I & U & P & Lo & Hi & ->).
        exists row, lo, hi. repeat split; auto.
        intros n m Hn Hm -> ->. now apply midpoint_between.
      * intros h w G. destruct (A h w G) as [G'|S]; [discriminate G'|auto].
  - intros rows r page' tansho fukusho L.
    destruct (rows_loop _ _ _ _ _ _ _ _ L) as (_ & A & B & _ & _ & D).
    split; [|split].
    + intros h N. destruct (PyDict.get tansho h) as [w|] eqn:G; auto.
      destruct (A h w G) as [G'|(row & I & U & W & _)]; [discriminate G'|].
      rewrite (N row I U) in W; discriminate W.
    + intros h N. destruct (PyDict.get fukusho h) as [v|] eqn:G; auto.
      destruct (B h v G) as [G'|(row & lo & hi & I & U & P & _)];
        [discriminate G'|].
      rewrite (N row I U) in P; discriminate P.
    + exact D.
Qed.

End WithFloat.

(** A table where horse 4 has no win cell and horse 5 no place odds. *)
Lemma place_odds_are_midpoints_witness :
  let rows := [ Fixture.row "3" "1.8" "1.0" "1.2";
                Fixture.row_no_win "4" "2.0" "3.0";
                Fixture.row_no_place "5" "7.5" ] in
  exists tansho fukusho,
    for_each (tanpuku_row Fixture.decimal) rows
             (Fixture.blank_page, ([], []))
    = (Ret tt, (Fixture.blank_page, (tansho, fukusho)))
    /\ PyDict.get tansho 4%Z = None /\ PyDict.get fukusho 4%Z <> None
    /\ PyDict.get tansho 5%Z <> None /\ PyDict.get fukusho 5%Z = None.
Proof.
  intros rows.
  destruct (for_each (tanpuku_row Fixture.decimal) rows
              (Fixture.blank_page, ([], [])))
    as [r [p [t f]]] eqn:E.
  pose proof (proj2 (place_odds_are_midpoints Fixture.decimal
                       Fixture.blank_page) rows r p t f E)
    as (NoWin & NoPlace & Served).
  vm_compute in E. inversion E; subst r p t f; clear E.
  eexists _, _. split; [reflexivity|].
  assert (U4 : In (Fixture.row_no_win "4" "2.0" "3.0") rows)
    by (right; left; reflexivity).
  assert (U5 : In (Fixture.row_no_place "5" "7.5") rows)
    by (right; right; left; reflexivity).
  split; [|split; [|split]].
  - apply NoWin. intros row [<-|[<-|[<-|[]]]] U;
      solve [reflexivity | vm_compute in U; discriminate U].
  - now apply (Served eq_refl _ 4%Z U4).
  - now apply (Served eq_refl _ 5%Z U5).
  - apply NoPlace. intros row [<-|[<-|[<-|[]]]] U;
      solve [reflexivity | vm_compute in U; discriminate U].
Defined.

(** The claim's bound fails: a row that displays 3.0 as the low and 1.0
    as the high bound gives the entry 2.0, below the low bound; and for
    two bounds of [2^1023] (about 9e307) the sum overflows, so that the
    entry is infinite, above the high bound. *)
Lemma place_odds_outside_bounds :
  (exists tansho fukusho,
      for_each (tanpuku_row Fixture.decimal)
               [Fixture.row "7" "4.0" "3.0" "1.0"]
               (Fixture.blank_page, ([], []))
      = (Ret tt, (Fixture.blank_page, (tansho, fukusho)))
      /\ low_of Fixture.decimal (Fixture.row "7" "4.0" "3.0" "1.0")
         = Ret 3%float
      /\ high_of Fixture.decimal (Fixture.row "7" "4.0" "3.0" "1.0")
         = Ret 1%float
      /\ PyDict.get fukusho 7%Z = Some 2%float
      /\ PrimFloat.leb 3 2 = false)
  /\ midpoint 0x1p1023 0x1p1023 = PrimFloat.infinity
  /\ between 0x1p1023 (midpoint 0x1p1023 0x1p1023) 0x1p1023 = false.
Proof.
  split; [|split; reflexivity].
  eexists _, _. split; [vm_compute; reflexivity|].
  repeat split.
Qed.

End WinPlace.

(** ** Quinella odds *)

Module Quinella.

Import PyText Eff Eff.Notations EffFacts Dom Scraper Reads PyDictFacts.

(** The running best of [min] is the start or a later element. *)
Lemma fold_min_in {A} (key : A -> double) (xs : list A) :
  forall x,
  let m := fold_left
             (fun best y =>
                if PrimFloat.ltb (key y) (key best) then y else best)
             xs x in
  m = x \/ In m xs.
Proof.
  induction xs as [|y ys IH]; intros x; simpl; auto.
  destruct (IH (if PrimFloat.ltb (key y) (key x) then y else x)) as [E|I];
    auto.
  rewrite E. destruct (PrimFloat.ltb (key y) (key x)); auto.
Qed.

(** When no key is NaN, no element seen has a smaller key than the
    running best. *)
Lemma fold_min {A} (key : A -> double) (xs : list A) :
  forall x,
  (forall y, In y (x :: xs) -> PrimFloat.is_nan (key y) = false) ->
  let m := fold_left
             (fun best y =>
                if PrimFloat.ltb (key y) (key best) then y else best)
             xs x in
  PrimFloat.leb (key m) (key x) = true
  /\ (forall y, In y xs -> PrimFloat.leb (key m) (key y) = true).
Proof.
  induction xs as [|y ys IH]; intros x N; simpl.
  - split; [|contradiction]. apply FloatOrder.leb_refl, N. now left.
  - assert (Nx : PrimFloat.is_nan (key x) = false) by (apply N; now left).
    assert (Ny : PrimFloat.is_nan (key y) = false)
      by (apply N; right; now left).
    destruct (PrimFloat.ltb (key y) (key x)) eqn:E.
    + destruct (IH y) as (L & All).
      { intros z [<-|Z]; auto. apply N. right; now right. }
      apply FloatOrder.ltb_leb in E. split.
      * now apply FloatOrder.leb_trans with (key y).
      * intros z [<-|Z]; auto.
    + destruct (IH x) as (L & All).
      { intros z [<-|Z]; auto. apply N. right; now right. }
      apply FloatOrder.not_ltb_leb in E; auto. split; [exact L|].
      intros z [<-|Z]; auto. now apply FloatOrder.leb_trans with (key x).
Qed.

Lemma min_by_in {A} (key : A -> double) (xs : list A) (m : A) :
  min_by key xs = Some m -> In m xs.
Proof.
  destruct xs as [|x xs]; simpl; [discriminate|].
  intros E; inversion E; subst m; clear E.
  destruct (fold_min_in key xs x) as [->|I]; auto.
Qed.

Lemma min_by_minimal {A} (key : A -> double) (xs : list A) (m : A) :
  (forall y, In y xs -> PrimFloat.is_nan (key y) = false) ->
  min_by key xs = Some m ->
  forall y, In y xs -> PrimFloat.leb (key m) (key y) = true.
Proof.
  destruct xs as [|x xs]; simpl; [discriminate|].
  intros N E; inversion E; subst m; clear E.
  destruct (fold_min key xs x N) as (L & All).
  intros y [<-|Y]; auto.
Qed.

Lemma in_keys_get (d : PyDict.dict Z double) (k : Z) :
  In k (PyDict.keys d) -> PyDict.get d k <> None.
Proof.
  induction d as [|[k0 v0] d IH]; simpl; [contradiction|].
  intros [->|I].
  - now rewrite key_eqb_refl.
  - destruct (PyDict.key_eqb k0 k); [discriminate|auto].
Qed.

Lemma get_in_dict (d : PyDict.dict Z double) (k : Z) (v : double) :
  PyDict.get d k = Some v -> In (k, v) d.
Proof.
  induction d as [|[k0 v0] d IH]; simpl; [discriminate|].
  destruct (PyDict.key_eqb k0 k) eqn:E; auto.
  apply PyDict.key_eqb_eq in E; subst. intros G; inversion G; auto.
Qed.

(** The favourite is a horse of the win map; when no odds of the map is
    NaN, no horse undercuts its odds. *)
Lemma favorite_minimal (tansho : PyDict.dict Z double) (a : Z) :
  favorite tansho = Some a ->
  exists oa, PyDict.get tansho a = Some oa
             /\ (no_nan tansho ->
                 forall h o, PyDict.get tansho h = Some o ->
                             PrimFloat.leb oa o = true).
Proof.
  intros F. pose proof (min_by_in _ _ _ F) as I.
  destruct (PyDict.get tansho a) as [oa|] eqn:G;
    [|now destruct (in_keys_get _ _ I)].
  exists oa; split; auto. intros N h o Gh.
  assert (Nk : forall y, In y (PyDict.keys tansho) ->
                         PrimFloat.is_nan (item tansho y) = false).
  { intros y Y. destruct (PyDict.get tansho y) as [oy|] eqn:Gy;
      [|now destruct (in_keys_get _ _ Y)].
    unfold item, PyDict.get_default. rewrite Gy.
    apply (N y). now apply get_in_dict. }
  pose proof (min_by_minimal _ _ _ Nk F h (get_in_keys _ _ _ Gh)) as L.
  unfold item, PyDict.get_default in L. now rewrite G, Gh in L.
Qed.

Lemma favorite_defined (e : Z * double) (tansho : PyDict.dict Z double) :
  exists a, favorite (e :: tansho) = Some a.
Proof. unfold favorite; simpl; eauto. Qed.

Section WithFloat.

Variable py_float : string -> option double.

Lemma umaren_row_anchored fav row :
  stable (anchored fav) (umaren_row py_float fav row).
Proof.
  unfold umaren_row.
  apply stable_if; [|apply stable_ret].
  repeat (apply stable_bind; [apply stable_lift|intros ?]).
  apply stable_modify. intros st I x y v In1. simpl in In1.
  destruct (in_set _ _ _ _ _ In1) as [In2|(E & _)].
  - now apply (I x y v).
  - now inversion E.
Qed.

Lemma umaren_table_anchored fav table :
  stable (anchored fav) (umaren_table py_float fav table).
Proof.
  unfold umaren_table.
  apply stable_if; [|apply stable_ret].
  repeat (apply stable_bind; [apply stable_lift|intros ?]).
  destruct (a0 =? fav)%Z eqn:E; [|apply stable_ret].
  apply Z.eqb_eq in E; subst a0.
  apply stable_for_each. intros; apply umaren_row_anchored.
Qed.

Lemma umaren_tabs_anchored fav tabs :
  stable (anchored fav) (umaren_tabs py_float fav tabs).
Proof.
  induction tabs as [|tab tabs IH]; simpl.
  - apply stable_ret.
  - apply stable_bind; [apply stable_lift|intros name].
    apply stable_if; [|exact IH].
    apply stable_bind.
    { unfold click. apply stable_bind; [apply stable_lift|intros shown].
      apply stable_modify. intros st I; exact I. }
    intros _. apply stable_bind.
    { unfold wait_for_load_state.
      apply stable_bind; [apply stable_state|intros; apply stable_lift]. }
    intros _. apply stable_bind; [apply stable_state|intros st].
    apply stable_for_each. intros block _.
    apply stable_for_each. intros; apply umaren_table_anchored.
Qed.

(** [_extract_umaren_odds] always returns; its keys start with the
    favourite, and it returns nothing for an empty win map. *)
Lemma extract_umaren_run (tansho : PyDict.dict Z double) (page : Page) :
  exists u p',
    _extract_umaren_odds py_float tansho page = (Ret u, p')
    /\ (tansho = [] -> u = [])
    /\ (forall a b v, In ((a, b), v) u -> favorite tansho = Some a).
Proof.
  unfold _extract_umaren_odds.
  destruct tansho as [|e tansho].
  - simpl. eexists _, _; split; [reflexivity|].
    split; auto. intros a b v [].
  - destruct (favorite_defined e tansho) as (fav & F). rewrite F.
    set (body := bind (lift (of_option _ (Some fav))) _).
    assert (St : stable (anchored fav) (try_except body (fun _ => ret tt))).
    { apply stable_try_except; [|intros; apply stable_ret].
      unfold body. apply stable_bind_ret.
      apply stable_bind; [apply stable_state|intros st].
      apply umaren_tabs_anchored. }
    specialize (St (page, []) (fun a b v (I : In _ []) => match I with end)).
    destruct (try_except body (fun _ => ret tt) (page, []))
      as [r [p' u]].
    exists u, p'. split; [reflexivity|]. split; [discriminate|].
    intros a b v I. now rewrite (St a b v I).
Qed.

(** [_extract_odds_from_page] always returns a success record built from
    what the two extractors return. *)
Lemma extract_odds_run (race_id : string) (page : Page) :
  exists t f p1 u p2,
    _extract_tanpuku_odds py_float page = (Ret (t, f), p1)
    /\ _extract_umaren_odds py_float t p1 = (Ret u, p2)
    /\ _extract_odds_from_page py_float race_id page =
       (Ret {| race_id := race_id;
               race_name := read_race_name page;
               post_time := read_post_time page;
               tansho := t;
               fukusho := f;
               umaren := u;
               status := "success";
               message := "オッズ取得成功" |}, p2).
Proof.
  destruct (WinPlace.extract_tanpuku_run py_float page)
    as (t & f & p1 & E1 & _).
  destruct (extract_umaren_run t p1) as (u & p2 & E2 & _).
  exists t, f, p1, u, p2. split; [exact E1|]. split; [exact E2|].
  unfold _extract_odds_from_page, try_except, bind, state, ret.
  rewrite E1. simpl. rewrite E2. reflexivity.
Qed.

(** C1 (as amended).  The record extracted from a page has only quinella
    keys [(a, b)] where [a] is the favourite, the horse of the win map
    that [min] selects; when no odds of the win map is NaN, the odds of
    the favourite are minimal in it; the quinella map is empty when the
    win map is; for the win map [{1: 2.1, 2: 5.4, 3: 1.8}] the favourite
    is horse 3 and every key the quinella extractor writes has the form
    [(3, x)]. *)
Theorem quinella_keys_start_with_favorite (race_id : string) (page : Page) :
  (exists r page',
      _extract_odds_from_page py_float race_id page = (Ret r, page')
      /\ (forall a b v, In ((a, b), v) (umaren r) ->
            favorite (tansho r) = Some a
            /\ exists oa,
                 PyDict.get (tansho r) a = Some oa
                 /\ (no_nan (tansho r) ->
                     forall h o, PyDict.get (tansho r) h = Some o ->
                                 PrimFloat.leb oa o = true))
      /\ (tansho r = [] -> umaren r = []))
  /\ favorite [(1%Z, 2.1%float); (2%Z, 5.4%float); (3%Z, 1.8%float)]
     = Some 3%Z
  /\ (exists u page',
        _extract_umaren_odds py_float
          [(1%Z, 2.1%float); (2%Z, 5.4%float); (3%Z, 1.8%float)] page
        = (Ret u, page')
        /\ (forall a b v, In ((a, b), v) u -> a = 3%Z)).
Proof.
  split; [|split].
  - destruct (extract_odds_run race_id page)
      as (t & f & p1 & u & p2 & E1 & E2 & E).
    destruct (extract_umaren_run t p1) as (u' & p2' & E2' & Emp & Fav).
    rewrite E2 in E2'. inversion E2'; subst u' p2'.
    eexists _, _. split; [exact E|]. simpl. split.
    + intros a b v I. split; [now apply (Fav a b v)|].
      apply favorite_minimal. now apply (Fav a b v).
    + exact Emp.
  - reflexivity.
  - destruct (extract_umaren_run
                [(1%Z, 2.1%float); (2%Z, 5.4%float); (3%Z, 1.8%float)] page)
      as (u & p' & E & _ & Fav).
    exists u, p'. split; [exact E|].
    intros a b v I. specialize (Fav a b v I).
    assert (F3 : favorite
                   [(1%Z, 2.1%float); (2%Z, 5.4%float); (3%Z, 1.8%float)]
                 = Some 3%Z)
      by reflexivity.
    congruence.
Qed.

End WithFloat.

(** On the three-horse fixture the quinella map holds the two pairs of
    horse 3, whose odds no horse undercuts. *)
Lemma quinella_keys_start_with_favorite_witness :
  exists r page',
    _extract_odds_from_page Fixture.decimal "2025060105" Fixture.race_page
    = (Ret r, page')
    /\ In ((3, 1)%Z, 3.1%float) (umaren r)
    /\ favorite (tansho r) = Some 3%Z
    /\ exists oa,
         PyDict.get (tansho r) 3%Z = Some oa
         /\ forall h o, PyDict.get (tansho r) h = Some o ->
                        PrimFloat.leb oa o = true.
Proof.
  destruct (proj1 (quinella_keys_start_with_favorite Fixture.decimal
                     "2025060105" Fixture.race_page))
    as (r & page' & E & Keys & _).
  exists r, page'. split; [exact E|].
  assert (I : In ((3, 1)%Z, 3.1%float) (umaren r)).
  { vm_compute in E. inversion E; subst r. left; reflexivity. }
  split; [exact I|].
  destruct (Keys _ _ _ I) as (F & oa & G & Min).
  split; [exact F|]. exists oa. split; [exact G|].
  apply Min. vm_compute in E. inversion E; subst r.
  intros k o [X|[X|[X|[]]]]; inversion X; reflexivity.
Defined.

(** With the win odds [{1: nan, 2: 1.5}] the quinella keys start with
    horse 1, whose odds are not minimal: no comparison with NaN holds, so
    [min] keeps the first horse. *)
Lemma nan_odds_make_a_favorite :
  exists r page',
    _extract_odds_from_page Samples.float_with_nan "2025060105"
                            Samples.nan_race_page = (Ret r, page')
    /\ favorite (tansho r) = Some 1%Z
    /\ PyDict.get (tansho r) 2%Z = Some 1.5%float
    /\ ~ (forall a b v, In ((a, b), v) (umaren r) ->
            exists oa,
              PyDict.get (tansho r) a = Some oa
              /\ forall h o, PyDict.get (tansho r) h = Some o ->
                             PrimFloat.leb oa o = true).
Proof.
  eexists _, _. split; [vm_compute; reflexivity|].
  split; [reflexivity|]. split; [reflexivity|].
  intros H. destruct (H 1%Z 2%Z _ (or_introl eq_refl)) as (oa & G & L).
  specialize (L 2%Z 1.5%float eq_refl).
  vm_compute in G. inversion G; subst oa. vm_compute in L. discriminate L.
Qed.

End Quinella.

(** ** The single-race fetch *)

Module Fetch.

Import PyText Eff Eff.Notations EffFacts Dom Scraper Reads.

Lemma account_quiet (c : call) (r : exc nat) (w : World) :
  quiet c = true ->
  browsers (account c r w) = browsers w
  /\ contexts (account c r w) = contexts w
  /\ peak (account c r w) = peak w.
Proof. destruct c, r; simpl; intros Q; try discriminate Q; auto. Qed.

Section WithSite.

Variable py_float : string -> option double.
Variable site : Site.

Lemma perform_quiet P (c : call) :
  quiet c = true -> stable (on_resources P) (perform site c).
Proof.
  intros Q w Hw. unfold perform, on_resources in *; simpl.
  destruct (account_quiet c (respond site (hist w) c) w Q) as (-> & -> & ->).
  exact Hw.
Qed.

Lemma navigate_quiet P race_id info :
  stable (on_resources P) (navigate py_float site race_id info).
Proof.
  unfold navigate, current_page.
  repeat first
    [ apply perform_quiet; reflexivity
    | apply stable_lift
    | apply stable_state
    | apply stable_ret
    | apply stable_if
    | apply stable_bind; [|intros ?] ].
Qed.

(** A record returned by the navigation is the record extracted from
    a page the site has shown. *)
Lemma navigate_ret race_id info w r w' :
  navigate py_float site race_id info w = (Ret r, w') ->
  exists h page',
    _extract_odds_from_page py_float race_id (shown site h)
    = (Ret r, page').
Proof.
  unfold navigate. intros E.
  repeat (apply bind_ret_inv in E; destruct E as (? & ? & ? & E)).
  match goal with
  | H : current_page _ _ = _ |- _ =>
      unfold current_page, bind, state, ret in H; inversion H; subst
  end.
  unfold lift in E.
  match type of E with
  | (fst (_extract_odds_from_page _ _ (shown site ?h)), _) = _ =>
      exists h;
      destruct (Quinella.extract_odds_run py_float race_id (shown site h))
        as (t & f & p1 & u & p2 & _ & _ & X);
      rewrite X in E; simpl in E; inversion E; subst;
      exists p2; exact X
  end.
Qed.

Lemma with_ret_inv {A} (body : M World A) w r w' :
  async_with_playwright site body w = (Ret r, w') ->
  exists w0 w1, body w0 = (Ret r, w1).
Proof.
  unfold async_with_playwright. intros E.
  apply bind_ret_inv in E. destruct E as (n & w0 & _ & E).
  destruct (body w0) as [o w1] eqn:B. inversion E; subst.
  exists w0, w1; exact B.
Qed.

Lemma attempt_ret race_id w r w' :
  attempt py_float site race_id w = (Ret r, w') ->
  exists h page',
    _extract_odds_from_page py_float race_id (shown site h)
    = (Ret r, page').
Proof.
  unfold attempt. intros E.
  apply bind_ret_inv in E. destruct E as (info & w0 & _ & E).
  apply with_ret_inv in E. destruct E as (w1 & w2 & E).
  unfold session in E.
  repeat (apply bind_ret_inv in E; destruct E as (? & ? & _ & E)).
  apply try_finally_ret_inv in E. destruct E as (w3 & E).
  now apply navigate_ret in E.
Qed.

(** [get_race_odds] always returns a record: the one built by its
    [except] clause, or one extracted from a page. *)
Lemma get_race_odds_result race_id w :
  exists r w',
    get_race_odds py_float site race_id w = (Ret r, w')
    /\ ((exists e, r = error_data race_id e)
        \/ (exists h page',
              _extract_odds_from_page py_float race_id (shown site h)
              = (Ret r, page'))).
Proof.
  unfold get_race_odds, try_except.
  destruct (attempt py_float site race_id w) as [[r|e] w'] eqn:E.
  - exists r, w'. split; [reflexivity|]. right.
    now apply attempt_ret in E.
  - exists (error_data race_id e), w'. split; [reflexivity|].
    left; exists e; reflexivity.
Qed.

(** *** Browsers and contexts *)

Lemma perform_peak N (c : call) :
  c <> Launch -> stable (peak_below N) (perform site c).
Proof.
  intros Hc w Hw. unfold perform, peak_below, on_resources in *; simpl.
  destruct c; try (now destruct Hc);
    destruct (respond site (hist w) _); exact Hw.
Qed.

Lemma release_peak N : stable (peak_below N) (release site).
Proof.
  unfold release.
  repeat (apply stable_bind; [apply perform_peak; discriminate
                             |intros ?]).
  apply stable_ret.
Qed.

Lemma bind_perform {B} (c : call) (k : nat -> M World B) w :
  bind (perform site c) k w =
  match respond site (hist w) c with
  | Ret n => k n (account c (Ret n) w)
  | Raise e => (Raise e, account c (Raise e) w)
  end.
Proof.
  unfold bind, perform. now destruct (respond site (hist w) c).
Qed.

Lemma session_peak race_id info w N :
  (Nat.max (peak w) (S (browsers w)) <= N)%nat ->
  peak_below N (snd (session py_float site race_id info w)).
Proof.
  intros L. unfold session. rewrite bind_perform.
  destruct (respond site (hist w) Launch) as [n|e].
  - set (rest := bind (perform site NewContext) _).
    assert (St : stable (peak_below N) rest).
    { unfold rest.
      repeat (apply stable_bind; [apply perform_peak; discriminate
                                 |intros ?]).
      apply stable_try_finally; [apply navigate_quiet|apply release_peak]. }
    apply St. unfold peak_below, on_resources; simpl. exact L.
  - unfold peak_below, on_resources; simpl. lia.
Qed.

(** When [get_race_odds] returns, no browser and no context is open, and
    at most one browser was open at any time. *)
Lemma get_race_odds_releases race_id w :
  browsers w = 0%nat -> contexts w = 0%nat ->
  let w' := snd (get_race_odds py_float site race_id w) in
  browsers w' = 0%nat /\ contexts w' = 0%nat
  /\ (peak w' <= Nat.max (peak w) 1)%nat.
Proof.
  intros B C. unfold get_race_odds, try_except, attempt.
  destruct (race_info race_id) as [info|e].
  2:{ rewrite bind_lift_raise. simpl.
      repeat split; auto. apply Nat.le_max_l. }
  rewrite bind_lift_ret. unfold async_with_playwright.
  rewrite bind_perform.
  destruct (respond site (hist w) Start) as [n|e].
  2:{ simpl. repeat split; auto. apply Nat.le_max_l. }
  pose proof (session_peak race_id info (account Start (Ret n) w)
                (Nat.max (peak w) 1)) as P.
  destruct (session py_float site race_id info (account Start (Ret n) w))
    as [[r|e] w1]; simpl in *; rewrite B in P;
    (repeat split; auto; apply P; apply Nat.le_refl).
Qed.

(** The [finally] clause closes the context and the browser on every
    path through the navigation, when the session could be opened and
    the two closes go through. *)
Lemma session_closes race_id info w :
  never_fails site Launch -> never_fails site NewContext ->
  never_fails site NewPage ->
  never_fails site CloseContext -> never_fails site CloseBrowser ->
  browsers w = 0%nat -> contexts w = 0%nat ->
  let w1 := snd (session py_float site race_id info w) in
  browsers w1 = 0%nat /\ contexts w1 = 0%nat
  /\ exists n1 n2 rest,
       hist w1 = (CloseBrowser, Ret n1) :: (CloseContext, Ret n2) :: rest.
Proof.
  intros HL HC HP HCC HCB B C.
  unfold session, bind, perform.
  destruct (HL (hist w)) as (n1 & ->); simpl.
  match goal with
  | |- context [respond site ?h NewContext] =>
      destruct (HC h) as (n2 & ->); simpl
  end.
  match goal with
  | |- context [respond site ?h NewPage] =>
      destruct (HP h) as (n3 & ->); simpl
  end.
  unfold try_finally.
  match goal with
  | |- context [navigate py_float site race_id info ?w3] =>
      pose proof (navigate_quiet
                    (fun b c _ => b = 1%nat /\ c = 1%nat)
                    race_id info w3) as Q;
      destruct (navigate py_float site race_id info w3) as [o w4]
  end.
  unfold on_resources in Q; simpl in Q. rewrite B, C in Q.
  destruct (Q (conj eq_refl eq_refl)) as (B4 & C4).
  unfold release, bind, perform.
  destruct (HCC (hist w4)) as (m1 & ->); simpl.
  match goal with
  | |- context [respond site ?h CloseBrowser] =>
      destruct (HCB h) as (m2 & ->); simpl
  end.
  rewrite B4. repeat split; auto. eexists _, _, _; reflexivity.
Qed.

(** *** Reaching the odds page *)

Lemma perform_returns (c : call) :
  all_calls_succeed site -> returns (perform site c).
Proof.
  intros H w. destruct (H (hist w) c) as (n & E).
  exists n, (account c (Ret n) w). unfold perform. now rewrite E.
Qed.

Lemma navigate_returns race_id info k :
  all_calls_succeed site ->
  kaisai_name race_id (place_name info) = Ret k ->
  returns (navigate py_float site race_id info).
Proof.
  intros H K. unfold navigate, current_page. rewrite K.
  repeat first
    [ apply perform_returns; exact H
    | apply returns_state
    | apply returns_ret
    | apply returns_if
    | match goal with
      | |- returns (lift (fst (_extract_odds_from_page _ _ ?p))) =>
          destruct (Quinella.extract_odds_run py_float race_id p)
            as (? & ? & ? & ? & ? & _ & _ & X);
          rewrite X; apply returns_lift
      end
    | apply returns_bind_ret
    | apply returns_bind; [|intros ?] ].
Qed.

Lemma attempt_returns race_id info k :
  all_calls_succeed site ->
  race_info race_id = Ret info ->
  kaisai_name race_id (place_name info) = Ret k ->
  returns (attempt py_float site race_id).
Proof.
  intros H I K. unfold attempt, async_with_playwright. rewrite I.
  apply returns_bind_ret.
  apply returns_bind; [apply perform_returns; exact H|intros _].
  intros w0.
  assert (R : returns (session py_float site race_id info)).
  { unfold session.
    repeat (apply returns_bind; [apply perform_returns; exact H|intros _]).
    apply returns_try_finally.
    - now apply navigate_returns with k.
    - unfold release.
      repeat (apply returns_bind; [apply perform_returns; exact H|intros _]).
      apply returns_ret. }
  destruct (R w0) as (a & w1 & E). rewrite E. eexists _, _; reflexivity.
Qed.

(** When every call goes through and the identifier can be read, the
    fetch returns the record extracted from the page reached. *)
Lemma get_race_odds_reaches race_id info k w :
  all_calls_succeed site ->
  race_info race_id = Ret info ->
  kaisai_name race_id (place_name info) = Ret k ->
  exists r w' h page',
    get_race_odds py_float site race_id w = (Ret r, w')
    /\ _extract_odds_from_page py_float race_id (shown site h)
       = (Ret r, page').
Proof.
  intros H I K.
  destruct (attempt_returns race_id info k H I K w) as (r & w' & E).
  destruct (attempt_ret race_id w r w' E) as (h & page' & X).
  exists r, w', h, page'. split; [|exact X].
  unfold get_race_odds, try_except. now rewrite E.
Qed.

End WithSite.

End Fetch.

(** ** The batch *)

Module Batch.

Import PyText Eff Eff.Notations EffFacts Dom Scraper Reads.

Section Generic.

Variable W : Type.
Variable fetch : string -> M W RaceOddsRecord.
Variable resolver : string -> list string.

(** One iteration appends exactly one record and bumps exactly one
    counter. *)
Lemma daily_step_run (t : Tally) (w : W) (race_id : string) :
  exists t',
    daily_step fetch (t, w) race_id = (t', snd (fetch race_id w))
    /\ races_data t' =
       (races_data t ++ [record_of race_id (fst (fetch race_id w))])%list
    /\ (successful_count t' + failed_count t'
        = S (successful_count t + failed_count t))%nat.
Proof.
  unfold daily_step. destruct (fetch race_id w) as [[d|e] w']; simpl.
  - destruct (status d =? "success"); eexists; split; try reflexivity;
      simpl; split; auto; lia.
  - eexists; split; [reflexivity|]. simpl; split; auto; lia.
Qed.

Lemma daily_fold (race_ids : list string) :
  forall t w,
  exists t' w',
    fold_left (daily_step fetch) race_ids (t, w) = (t', w')
    /\ races_data t' =
       (races_data t ++ batch_records fetch race_ids w)%list
    /\ (successful_count t' + failed_count t'
        = successful_count t + failed_count t + List.length race_ids)%nat.
Proof.
  induction race_ids as [|race_id rest IH]; intros t w;
    cbn [fold_left batch_records Datatypes.length].
  - exists t, w. rewrite app_nil_r. repeat split; lia.
  - destruct (daily_step_run t w race_id) as (t1 & E1 & R1 & C1).
    rewrite E1.
    destruct (IH t1 (snd (fetch race_id w))) as (t' & w' & E & R & C).
    exists t', w'. split; [exact E|]. split.
    + rewrite R, R1. destruct (fetch race_id w) as [o w1]; simpl.
      now rewrite <- app_assoc.
    + lia.
Qed.

Lemma batch_records_length (race_ids : list string) :
  forall w,
  List.length (batch_records fetch race_ids w) = List.length race_ids.
Proof.
  induction race_ids as [|race_id rest IH]; intros w; simpl; auto.
  destruct (fetch race_id w) as [o w']; simpl. now rewrite IH.
Qed.

(** The records of the loop are the outcomes of the fetches, in order. *)
Lemma daily_loop_records (race_ids : list string) (w : W) :
  races_data (fst (daily_loop fetch race_ids w))
  = batch_records fetch race_ids w.
Proof.
  unfold daily_loop.
  match goal with
  | |- context [fold_left _ _ (?t0, w)] =>
      destruct (daily_fold race_ids t0 w) as (t & w' & E & Rec & _)
  end.
  now rewrite E.
Qed.

(** [get_daily_odds] case by case: a date that is not eight characters
    long, a date without races, and the loop. *)
Lemma get_daily_odds_run (date : string) (w : W) :
  let d := normalize_date date in
  get_daily_odds_via fetch resolver date w =
  if negb (String.length d =? 8)%nat then
    (Ret (empty_report
            d "日付は8桁の数字である必要があります (例: 20250113)"), w)
  else
    match resolver d with
    | [] =>
        (Ret (empty_report d ("日付 " ++ d ++ " のレースが見つかりません")),
         w)
    | race_ids =>
        let (t, w') := daily_loop fetch race_ids w in
        (Ret {| date := d;
                races := races_data t;
                total_races := List.length race_ids;
                successful_races := successful_count t;
                failed_races := failed_count t;
                daily_status :=
                  if (0 <? successful_count t)%nat
                  then "success" else "error";
                daily_message :=
                  "成功: " ++ count_text (successful_count t)
                  ++ "レース, 失敗: "
                  ++ count_text (failed_count t) ++ "レース" |}, w')
    end.
Proof.
  unfold get_daily_odds_via, try_except, raise, ret. cbv zeta.
  destruct (negb (String.length (normalize_date date) =? 8)%nat);
    [reflexivity|].
  destruct (resolver (normalize_date date)) as [|race_id rest];
    [reflexivity|].
  destruct (daily_loop fetch (race_id :: rest) w); reflexivity.
Qed.

(** C2.  Every report of the batch satisfies
    [successful_races + failed_races = total_races = len(races)],
    whatever the identifiers are and whatever each fetch does (return a
    success record, return an error record, or raise). *)
Theorem batch_counts_add_up (date : string) (w : W) :
  exists rep w',
    get_daily_odds_via fetch resolver date w = (Ret rep, w')
    /\ (successful_races rep + failed_races rep = total_races rep)%nat
    /\ total_races rep = List.length (races rep).
Proof.
  rewrite get_daily_odds_run. cbv zeta.
  destruct (negb (String.length (normalize_date date) =? 8)%nat).
  { eexists _, _; split; [reflexivity|]; simpl; auto. }
  destruct (resolver (normalize_date date)) as [|race_id rest] eqn:R.
  { eexists _, _; split; [reflexivity|]; simpl; auto. }
  unfold daily_loop.
  match goal with
  | |- context [fold_left _ ?ids (?t0, w)] =>
      destruct (daily_fold ids t0 w) as (t & w' & E & Rec & Cnt);
      rewrite E
  end.
  eexists _, _; split; [reflexivity|].
  cbn [successful_races failed_races total_races races]. simpl in Cnt.
  split; [simpl; lia|].
  rewrite Rec, length_app, batch_records_length. reflexivity.
Qed.

(** C3.  The loop turns the outcome of each fetch into one record, in
    order, a raised exception becoming an error record with the
    identifier and the message; so for three identifiers whose second
    fetch fails, the report has three records, the first and third
    marked success, the second marked error, and [failed_races = 1]. *)
Theorem failure_does_not_stop_the_batch :
  (forall race_ids w,
      races_data (fst (daily_loop fetch race_ids w))
      = batch_records fetch race_ids w)
  /\ (forall id e,
         record_of id (Raise e) = error_data id e
         /\ status (error_data id e) = "error"
         /\ race_id (error_data id e) = id
         /\ message (error_data id e) = e)
  /\ (forall date a b c w ra w1 ob w2 rc w3,
         String.length (normalize_date date) = 8%nat ->
         resolver (normalize_date date) = [a; b; c] ->
         fetch a w = (Ret ra, w1) -> status ra = "success" ->
         fetch b w1 = (ob, w2) -> failed ob ->
         fetch c w2 = (Ret rc, w3) -> status rc = "success" ->
         exists rep,
           get_daily_odds_via fetch resolver date w = (Ret rep, w3)
           /\ races rep = [ra; record_of b ob; rc]
           /\ status (record_of b ob) = "error"
           /\ failed_races rep = 1%nat
           /\ successful_races rep = 2%nat
           /\ total_races rep = 3%nat).
Proof.
  split; [|split].
  - exact daily_loop_records.
  - intros; repeat split.
  - intros date a b c w ra w1 ob w2 rc w3 L R Fa Sa Fb Sb Fc Sc.
    rewrite get_daily_odds_run. cbv zeta. rewrite L, R. simpl negb.
    unfold daily_loop. simpl fold_left. unfold daily_step.
    rewrite Fa, Sa. simpl. rewrite Fb.
    destruct ob as [rb|e]; simpl in Sb.
    + rewrite Sb. simpl. rewrite Fc, Sc. simpl.
      eexists; repeat split; auto.
    + rewrite Fc, Sc. simpl. eexists; repeat split; auto.
Qed.

(** C7.  When the resolver has no race for the date, the batch returns
    at once (no fetch is made) an error report with no record, zero
    counts and a message. *)
Theorem no_race_for_the_date (date : string) (w : W) :
  resolver (normalize_date date) = [] ->
  exists rep,
    get_daily_odds_via fetch resolver date w = (Ret rep, w)
    /\ daily_status rep = "error"
    /\ races rep = []
    /\ total_races rep = 0%nat
    /\ successful_races rep = 0%nat
    /\ failed_races rep = 0%nat
    /\ daily_message rep <> "".
Proof.
  intros R. rewrite get_daily_odds_run. cbv zeta. rewrite R.
  destruct (negb (String.length (normalize_date date) =? 8)%nat);
    eexists; (split; [reflexivity|]); simpl; repeat split; discriminate.
Qed.

(** What every fetch preserves of the world, the loop preserves. *)
Lemma daily_fold_world (I : W -> Prop) :
  (forall race_id w, I w -> I (snd (fetch race_id w))) ->
  forall race_ids t w,
  I w -> I (snd (fold_left (daily_step fetch) race_ids (t, w))).
Proof.
  intros Step race_ids.
  induction race_ids as [|race_id rest IH]; intros t w Hw;
    cbn [fold_left]; [exact Hw|].
  destruct (daily_step_run t w race_id) as (t1 & E1 & _).
  rewrite E1. apply IH, Step, Hw.
Qed.

Lemma batch_records_all (P : RaceOddsRecord -> Prop) :
  (forall race_id w, P (record_of race_id (fst (fetch race_id w)))) ->
  forall race_ids w, Forall P (batch_records fetch race_ids w).
Proof.
  intros H race_ids.
  induction race_ids as [|race_id rest IH]; intros w; simpl; auto.
  specialize (H race_id w).
  destruct (fetch race_id w) as [o w']. constructor; auto.
Qed.

End Generic.

Lemma failure_does_not_stop_the_batch_witness :
  exists rep w',
    get_daily_odds Fixture.decimal (Fixture.flaky_site Fixture.blank_page)
                   Fixture.three_races "2025-06-01" Fixture.clean
    = (Ret rep, w')
    /\ map status (races rep) = ["success"; "error"; "success"]
    /\ failed_races rep = 1%nat.
Proof.
  set (fetch := get_race_odds Fixture.decimal
                              (Fixture.flaky_site Fixture.blank_page)).
  set (o1 := fetch "2025060101" Fixture.clean).
  set (o2 := fetch "2025060102" (snd o1)).
  set (o3 := fetch "2025060103" (snd o2)).
  destruct (proj2 (proj2 (failure_does_not_stop_the_batch
                            World fetch Fixture.three_races))
              "2025-06-01" "2025060101" "2025060102" "2025060103"
              Fixture.clean
              (record_of "" (fst o1)) (snd o1) (fst o2) (snd o2)
              (record_of "" (fst o3)) (snd o3))
    as (rep & E & Rc & S2 & F1 & _);
    try (vm_compute; reflexivity).
  exists rep, (snd o3). split; [exact E|]. rewrite Rc.
  split; [vm_compute; reflexivity|exact F1].
Defined.

Lemma no_race_for_the_date_witness :
  exists rep,
    get_daily_odds Fixture.decimal (Fixture.good_site Fixture.blank_page)
                   (fun _ => []) "2025-01-13" Fixture.clean
    = (Ret rep, Fixture.clean)
    /\ daily_status rep = "error"
    /\ races rep = []
    /\ total_races rep = 0%nat
    /\ successful_races rep = 0%nat
    /\ failed_races rep = 0%nat
    /\ daily_message rep <> "".
Proof.
  apply (no_race_for_the_date World
           (get_race_odds Fixture.decimal
                          (Fixture.good_site Fixture.blank_page))
           (fun _ => []) "2025-01-13" Fixture.clean).
  reflexivity.
Defined.

End Batch.

(** ** The records *)

Module Records.

Import PyText Eff Eff.Notations EffFacts Dom Scraper Reads.

Lemma error_data_bare (id e : string) : error_is_bare (error_data id e).
Proof. intros _. repeat split. Qed.

Lemma extracted_is_success py_float id page r page' :
  _extract_odds_from_page py_float id page = (Ret r, page') ->
  status r = "success".
Proof.
  destruct (Quinella.extract_odds_run py_float id page)
    as (t & f & p1 & u & p2 & _ & _ & X).
  rewrite X. intros E; inversion E; reflexivity.
Qed.

Lemma success_bare (r : RaceOddsRecord) :
  status r = "success" -> error_is_bare r.
Proof. intros S E. rewrite S in E. discriminate E. Qed.

Lemma get_race_odds_bare py_float site id w r w' :
  get_race_odds py_float site id w = (Ret r, w') -> error_is_bare r.
Proof.
  destruct (Fetch.get_race_odds_result py_float site id w)
    as (r0 & w0 & E0 & [(e & ->)|(h & p & X)]);
    rewrite E0; intros E; inversion E; subst.
  - apply error_data_bare.
  - apply success_bare. now apply extracted_is_success in X.
Qed.

Lemma no_tabs_no_odds py_float page :
  nav_pills page = [] ->
  _extract_tanpuku_odds py_float page = (Ret ([], []), page).
Proof.
  intros N. unfold _extract_tanpuku_odds, try_except, bind, state.
  simpl. rewrite N. reflexivity.
Qed.

(** C8.  The record extracted from a page has status "success" whatever
    the page holds: the race name and the post time are the sentinel
    "不明" when their header cell is missing (or shows no time), and the
    three odds maps are empty when no tab can be used; and when every
    browser call of a fetch goes through, the fetch returns such a
    record. *)
Theorem page_reached_means_success (py_float : string -> option double) :
  (forall id page,
      exists r page',
        _extract_odds_from_page py_float id page = (Ret r, page')
        /\ status r = "success"
        /\ (race_header_title page = [] -> race_name r = "不明")
        /\ (race_header_time page = [] -> post_time r = "不明")
        /\ (forall t, race_header_time page = [t] ->
                      re_search_time t = None -> post_time r = "不明")
        /\ (nav_pills page = [] ->
            tansho r = [] /\ fukusho r = [] /\ umaren r = []))
  /\ (forall site id info k w,
        all_calls_succeed site ->
        race_info id = Ret info ->
        kaisai_name id (place_name info) = Ret k ->
        exists r w',
          get_race_odds py_float site id w = (Ret r, w')
          /\ status r = "success").
Proof.
  split.
  - intros id page.
    destruct (Quinella.extract_odds_run py_float id page)
      as (t & f & p1 & u & p2 & E1 & E2 & X).
    eexists _, _. split; [exact X|]. simpl.
    split; [reflexivity|]. split; [|split; [|split]].
    + intros H. unfold read_race_name. now rewrite H.
    + intros H. unfold read_post_time. now rewrite H.
    + intros t0 H N. unfold read_post_time. rewrite H. simpl.
      rewrite N. now destruct (t0 =? "").
    + intros N. rewrite (no_tabs_no_odds py_float page N) in E1.
      inversion E1; subst t f p1.
      destruct (Quinella.extract_umaren_run py_float [] page)
        as (u' & p' & E2' & Emp & _).
      rewrite E2 in E2'. inversion E2'; subst u'.
      repeat split. now apply Emp.
  - intros site id info k w H I K.
    destruct (Fetch.get_race_odds_reaches py_float site id info k w H I K)
      as (r & w' & h & p & E & X).
    exists r, w'. split; [exact E|].
    now apply extracted_is_success in X.
Qed.

(** A page with nothing on it, reached through a site that answers every
    call. *)
Lemma page_reached_means_success_witness :
  exists r w',
    get_race_odds Fixture.decimal (Fixture.good_site Fixture.blank_page)
                  "2025060105" Fixture.clean = (Ret r, w')
    /\ status r = "success"
    /\ tansho r = [] /\ fukusho r = [] /\ umaren r = []
    /\ race_name r = "不明" /\ post_time r = "不明".
Proof.
  destruct (proj2 (page_reached_means_success Fixture.decimal)
              (Fixture.good_site Fixture.blank_page) "2025060105"
              {| year := "2025"; month := "06"; day := "01";
                 place_code := 6; race_num := 5; place_name := "中山" |}
              "1回中山5日" Fixture.clean)
    as (r & w' & E & S).
  - intros h c. exists 1%nat. reflexivity.
  - reflexivity.
  - reflexivity.
  - exists r, w'. split; [exact E|]. split; [exact S|].
    vm_compute in E. inversion E; subst r. repeat split.
Defined.

(** C10.  A record with status "error" has three empty odds maps and the
    sentinel "不明" as race name and post time, be it returned by
    [get_race_odds], by [_extract_odds_from_page], or listed in a report
    of [get_daily_odds] (for any fetch whose own records are so). *)
Theorem error_records_are_bare :
  (forall py_float site id w r w',
      get_race_odds py_float site id w = (Ret r, w') -> error_is_bare r)
  /\ (forall py_float id page r page',
        _extract_odds_from_page py_float id page = (Ret r, page') ->
        error_is_bare r)
  /\ (forall W (fetch : string -> M W RaceOddsRecord) resolver date w
             rep w',
        (forall id w0 r w1, fetch id w0 = (Ret r, w1) -> error_is_bare r) ->
        get_daily_odds_via fetch resolver date w = (Ret rep, w') ->
        Forall error_is_bare (races rep))
  /\ (forall py_float site resolver date w rep w',
        get_daily_odds py_float site resolver date w = (Ret rep, w') ->
        Forall error_is_bare (races rep)).
Proof.
  assert (Via : forall W (fetch : string -> M W RaceOddsRecord) resolver
                       date w rep w',
             (forall id w0 r w1,
                 fetch id w0 = (Ret r, w1) -> error_is_bare r) ->
             get_daily_odds_via fetch resolver date w = (Ret rep, w') ->
             Forall error_is_bare (races rep)).
  { intros W fetch resolver date w rep w' F.
    rewrite Batch.get_daily_odds_run. cbv zeta.
    destruct (negb (String.length (normalize_date date) =? 8)%nat).
    { intros E; inversion E; constructor. }
    destruct (resolver (normalize_date date)) as [|id rest].
    { intros E; inversion E; constructor. }
    pose proof (Batch.daily_loop_records W fetch (id :: rest) w) as Rec.
    destruct (daily_loop fetch (id :: rest) w) as [t w1].
    intros E; inversion E; subst rep w'. cbn [races].
    simpl fst in Rec. rewrite Rec.
    apply Batch.batch_records_all. intros id0 w0.
    destruct (fetch id0 w0) as [[r|e] w2] eqn:Fe; simpl.
    - now apply (F id0 w0 r w2).
    - apply error_data_bare. }
  split; [|split; [|split]].
  - intros; eapply get_race_odds_bare; eassumption.
  - intros py_float id page r page' E.
    apply success_bare. now apply extracted_is_success in E.
  - exact Via.
  - intros py_float site resolver date w rep w' E.
    apply (Via World (get_race_odds py_float site) resolver date w rep w');
      [|exact E].
    intros id w0 r w1 Fe. now apply get_race_odds_bare in Fe.
Qed.

(** A fetch through a site whose home page never loads. *)
Lemma error_records_are_bare_witness :
  exists r w',
    get_race_odds Fixture.decimal Fixture.offline_site "2025060105"
                  Fixture.clean = (Ret r, w')
    /\ status r = "error"
    /\ tansho r = [] /\ fukusho r = [] /\ umaren r = []
    /\ race_name r = "不明" /\ post_time r = "不明".
Proof.
  destruct (get_race_odds Fixture.decimal Fixture.offline_site
              "2025060105" Fixture.clean) as [[r|e] w'] eqn:E;
    [|vm_compute in E; discriminate E].
  exists r, w'. split; [reflexivity|].
  assert (S : status r = "error")
    by (vm_compute in E; inversion E; reflexivity).
  split; [exact S|].
  exact (proj1 error_records_are_bare _ _ _ _ _ _ E S).
Defined.

End Records.

(** ** Browser sessions *)

Module Sessions.

Import PyText Eff Eff.Notations EffFacts Dom Scraper Reads.

(** C9.  A fetch opens its own browser and context and leaves none open:
    from a state without open browser or context, [get_race_odds] ends
    in such a state on every path, with never more than one browser open
    meanwhile; once the session is open, the [finally] clause closes the
    context and then the browser whatever the navigation and the
    extraction do, as the last two calls before the driver stops; and a
    whole batch keeps to one browser at a time and ends with none. *)
Theorem session_is_released (py_float : string -> option double) (site : Site) :
  (forall id w,
      browsers w = 0%nat -> contexts w = 0%nat ->
      let w' := snd (get_race_odds py_float site id w) in
      browsers w' = 0%nat /\ contexts w' = 0%nat
      /\ (peak w' <= Nat.max (peak w) 1)%nat)
  /\ (forall id info w,
        never_fails site Launch -> never_fails site NewContext ->
        never_fails site NewPage ->
        never_fails site CloseContext -> never_fails site CloseBrowser ->
        browsers w = 0%nat -> contexts w = 0%nat ->
        let w1 := snd (session py_float site id info w) in
        browsers w1 = 0%nat /\ contexts w1 = 0%nat
        /\ exists n1 n2 rest,
             hist w1 =
             (CloseBrowser, Ret n1) :: (CloseContext, Ret n2) :: rest)
  /\ (forall resolver date w,
        browsers w = 0%nat -> contexts w = 0%nat ->
        let w' := snd (get_daily_odds py_float site resolver date w) in
        browsers w' = 0%nat /\ contexts w' = 0%nat
        /\ (peak w' <= Nat.max (peak w) 1)%nat).
Proof.
  split; [|split].
  - intros id w. apply Fetch.get_race_odds_releases.
  - intros id info w. apply Fetch.session_closes.
  - intros resolver date w B C. unfold get_daily_odds.
    rewrite Batch.get_daily_odds_run. cbv zeta.
    destruct (negb (String.length (normalize_date date) =? 8)%nat).
    { simpl. repeat split; auto. apply Nat.le_max_l. }
    destruct (resolver (normalize_date date)) as [|id rest].
    { simpl. repeat split; auto. apply Nat.le_max_l. }
    set (I := fun w0 : World =>
                browsers w0 = 0%nat /\ contexts w0 = 0%nat
                /\ (peak w0 <= Nat.max (peak w) 1)%nat).
    assert (Hloop : I (snd (daily_loop (get_race_odds py_float site)
                                       (id :: rest) w))).
    { unfold daily_loop. apply Batch.daily_fold_world.
      - intros id0 w0 (B0 & C0 & P0).
        destruct (Fetch.get_race_odds_releases py_float site id0 w0 B0 C0)
          as (B1 & C1 & P1).
        repeat split; auto. lia.
      - repeat split; auto. apply Nat.le_max_l. }
    destruct (daily_loop (get_race_odds py_float site) (id :: rest) w)
      as [t w']. exact Hloop.
Qed.

(** A fetch whose navigation fails at the first step still closes what
    it opened. *)
Lemma session_is_released_witness :
  let w1 := snd (session Fixture.decimal Fixture.offline_site "2025060105"
                   {| year := "2025"; month := "06"; day := "01";
                      place_code := 6; race_num := 5;
                      place_name := "中山" |}
                   Fixture.clean) in
  browsers w1 = 0%nat /\ contexts w1 = 0%nat
  /\ exists n1 n2 rest,
       hist w1 = (CloseBrowser, Ret n1) :: (CloseContext, Ret n2) :: rest.
Proof.
  apply (proj1 (proj2 (session_is_released Fixture.decimal
                         Fixture.offline_site)));
    try reflexivity; intros h; exists 1%nat; reflexivity.
Defined.

End Sessions.

(** ** More on the single-race fetch *)

Module FetchPaths.

Import PyText Eff Eff.Notations EffFacts Dom Scraper Reads Calls.

Lemma bind_assoc {S A B C} (m : M S A) (f : A -> M S B) (g : B -> M S C) s :
  bind (bind m f) g s = bind m (fun a => bind (f a) g) s.
Proof. unfold bind. now destruct (m s) as [[a|e] s']. Qed.

Lemma substring_short (s : string) :
  forall n m, (String.length s <= n)%nat -> substring n m s = "".
Proof.
  induction s as [|c s IH]; intros n m L.
  - destruct n, m; reflexivity.
  - destruct n as [|n]; simpl in L; [lia|].
    simpl. apply IH. lia.
Qed.

Lemma extracted_race_id py_float id page r page' :
  _extract_odds_from_page py_float id page = (Ret r, page') ->
  race_id r = id /\ status r = "success".
Proof.
  destruct (Quinella.extract_odds_run py_float id page)
    as (t & f & p1 & u & p2 & _ & _ & X).
  rewrite X. intros E; inversion E; split; reflexivity.
Qed.

(** A record of [get_race_odds] is the error record of the identifier, or
    a success record of an identifier whose fields were read. *)
Lemma get_race_odds_record py_float site id w :
  exists r w',
    get_race_odds py_float site id w = (Ret r, w')
    /\ race_id r = id
    /\ ((exists e, r = error_data id e)
        \/ (status r = "success" /\ exists info, race_info id = Ret info)).
Proof.
  unfold get_race_odds, try_except.
  destruct (attempt py_float site id w) as [[r|e] w'] eqn:E.
  - exists r, w'. split; [reflexivity|].
    destruct (Fetch.attempt_ret py_float site id w r w' E) as (h & p & X).
    destruct (extracted_race_id _ _ _ _ _ X) as (Id & St).
    split; [exact Id|]. right. split; [exact St|].
    unfold attempt in E. apply bind_ret_inv in E.
    destruct E as (info & w0 & L & _). exists info.
    unfold lift in L. now inversion L.
  - exists (error_data id e), w'. split; [reflexivity|].
    split; [reflexivity|]. left; exists e; reflexivity.
Qed.

(** X1.  [get_race_odds] never raises, whatever the site answers: it returns a
    record for the identifier it was given, marked success or error. *)
Theorem get_race_odds_never_raises py_float site id w :
  exists r w',
    get_race_odds py_float site id w = (Ret r, w')
    /\ race_id r = id
    /\ (status r = "success" \/ status r = "error").
Proof.
  destruct (get_race_odds_record py_float site id w)
    as (r & w' & E & Id & [(e & ->)|(S & _)]).
  - eexists _, _; split; [exact E|]. split; [reflexivity|now right].
  - exists r, w'. split; [exact E|]. split; [exact Id|now left].
Qed.

(** X2.  An identifier whose fields cannot be read costs no browser: the
    fetch returns the error record at once and makes no call.  Every
    identifier of at most eight characters is one. *)
Theorem unreadable_identifier_starts_no_browser py_float site id w :
  (forall e, race_info id = Raise e ->
             get_race_odds py_float site id w = (Ret (error_data id e), w))
  /\ ((String.length id <= 8)%nat ->
      exists e, race_info id = Raise e).
Proof.
  split.
  - intros e E. unfold get_race_odds, try_except, attempt.
    rewrite E. reflexivity.
  - intros L. unfold race_info, slice.
    rewrite (substring_short id 8 (10 - 8) L).
    destruct (int (substring 4 (6 - 4) id)); simpl; eauto.
Qed.

Lemma unreadable_identifier_starts_no_browser_witness :
  exists e,
    get_race_odds Fixture.decimal (Fixture.good_site Fixture.race_page)
                  "20250601" Fixture.clean
    = (Ret (error_data "20250601" e), Fixture.clean).
Proof.
  destruct (proj2 (unreadable_identifier_starts_no_browser
                     Fixture.decimal (Fixture.good_site Fixture.race_page)
                     "20250601" Fixture.clean)) as (e & E).
  - simpl; lia.
  - exists e.
    apply (proj1 (unreadable_identifier_starts_no_browser
                    Fixture.decimal (Fixture.good_site Fixture.race_page)
                    "20250601" Fixture.clean) e E).
Defined.

Lemma bind_state {S B} (k : S -> M S B) s : bind state k s = k s s.
Proof. reflexivity. Qed.

Lemma bind_ret {S A B} (a : A) (k : A -> M S B) s : bind (ret a) k s = k a s.
Proof. reflexivity. Qed.

Lemma account_hist c r w : hist (account c r w) = (c, r) :: hist w.
Proof. destruct c, r; reflexivity. Qed.

(** One call that goes through. *)
Ltac step H :=
  rewrite Fetch.bind_perform;
  match goal with
  | |- context [respond ?s ?h ?c] =>
      let n := fresh "n" in destruct (H h c) as (n & ->)
  end.

Section WithSite.

Variable py_float : string -> option double.
Variable site : Site.
Hypothesis H : all_calls_succeed site.

Lemma release_run w :
  exists n1 n2,
    release site w
    = (Ret tt, account CloseBrowser (Ret n2) (account CloseContext (Ret n1) w)).
Proof.
  unfold release. step H. step H. unfold ret. eexists _, _; reflexivity.
Qed.

Lemma extraction_run id w :
  exists r,
    (page <- current_page site ;;
     lift (fst (_extract_odds_from_page py_float id page))) w = (Ret r, w)
    /\ status r = "success".
Proof.
  unfold current_page. rewrite bind_assoc, bind_state, bind_ret.
  unfold lift.
  destruct (Quinella.extract_odds_run py_float id (shown site (hist w)))
    as (t & f & p1 & u & p2 & _ & _ & X).
  rewrite X. eexists; split; reflexivity.
Qed.

Lemma navigate_run id info k w :
  kaisai_name id (place_name info) = Ret k ->
  exists r w' n,
    navigate py_float site id info w = (Ret r, w')
    /\ status r = "success"
    /\ In (CountLink k, Ret n) (hist w')
    /\ map fst (hist w')
       = (route k (race_link (race_num info)) n ++ map fst (hist w))%list.
Proof.
  intros K. unfold navigate. step H. step H. step H.
  rewrite K, bind_lift_ret. step H.
  destruct (0 <? n2)%nat eqn:B.
  - rewrite bind_assoc. step H. step H. step H.
    match goal with
    | |- context [bind (current_page site) _ ?w0] =>
        destruct (extraction_run id w0) as (r & E & S)
    end.
    rewrite E. exists r. eexists. exists n2.
    split; [reflexivity|]. split; [exact S|].
    rewrite !account_hist. unfold route. rewrite B.
    split; [simpl; tauto|reflexivity].
  - rewrite !bind_assoc. step H. rewrite !bind_assoc. step H.
    rewrite !bind_assoc. step H. step H. step H.
    match goal with
    | |- context [bind (current_page site) _ ?w0] =>
        destruct (extraction_run id w0) as (r & E & S)
    end.
    rewrite E. exists r. eexists. exists n2.
    split; [reflexivity|]. split; [exact S|].
    rewrite !account_hist. unfold route. rewrite B.
    split; [simpl; tauto|reflexivity].
Qed.

Lemma navigate_stops id info e w :
  kaisai_name id (place_name info) = Raise e ->
  exists w',
    navigate py_float site id info w = (Raise e, w')
    /\ map fst (hist w')
       = ([WaitForLoadState; ClickLink "オッズ" true;
           Goto "https://www.jra.go.jp/keiba/"] ++ map fst (hist w))%list.
Proof.
  intros K. unfold navigate. step H. step H. step H.
  rewrite K, bind_lift_raise.
  eexists; split; [reflexivity|]. now rewrite !account_hist.
Qed.

(** The fetch around a navigation whose outcome and calls are known. *)
Lemma attempt_run id info w (o : exc RaceOddsRecord) (cs : list call) :
  race_info id = Ret info ->
  (forall w0, exists w1,
      navigate py_float site id info w0 = (o, w1)
      /\ map fst (hist w1) = (cs ++ map fst (hist w0))%list) ->
  exists w',
    attempt py_float site id w = (o, w')
    /\ map fst (hist w')
       = ([Stop; CloseBrowser; CloseContext] ++ cs
          ++ [NewPage; NewContext; Launch; Start] ++ map fst (hist w))%list.
Proof.
  intros I N. unfold attempt, async_with_playwright.
  rewrite I, bind_lift_ret. step H.
  unfold session. step H. step H. step H.
  unfold try_finally.
  match goal with
  | |- context [navigate py_float site id info ?w0] =>
      destruct (N w0) as (w1 & -> & Hc)
  end.
  destruct (release_run w1) as (m1 & m2 & ->).
  eexists; split; [reflexivity|].
  rewrite !account_hist. cbn [map fst]. rewrite Hc, !account_hist.
  cbn [map fst app]. reflexivity.
Qed.

(** X3.  The number of the meeting, [race_id[6:8]], is read only once the
    odds page is open: when it is not a number, the fetch has already
    started a browser, loaded the home page and clicked through to the
    odds page; it then closes everything and returns the error record.
    The calls are listed latest first. *)
Theorem late_validation_after_navigation id info e w :
  race_info id = Ret info ->
  kaisai_name id (place_name info) = Raise e ->
  exists w',
    get_race_odds py_float site id w = (Ret (error_data id e), w')
    /\ map fst (hist w')
       = ([Stop; CloseBrowser; CloseContext; WaitForLoadState;
           ClickLink "オッズ" true; Goto "https://www.jra.go.jp/keiba/";
           NewPage; NewContext; Launch; Start] ++ map fst (hist w))%list.
Proof.
  intros I K.
  destruct (attempt_run id info w (Raise e)
              [WaitForLoadState; ClickLink "オッズ" true;
               Goto "https://www.jra.go.jp/keiba/"] I)
    as (w' & E & Hc).
  { intros w0. now apply navigate_stops. }
  exists w'. split; [|exact Hc].
  unfold get_race_odds, try_except. now rewrite E.
Qed.

(** X4.  On a site where every call goes through, a fetch of a readable
    identifier returns a success record, and its calls follow one of two
    routes: by the link of the meeting when the odds page has one, by
    the results page otherwise.  The calls are listed latest first. *)
Theorem navigation_routes id info k w :
  race_info id = Ret info ->
  kaisai_name id (place_name info) = Ret k ->
  exists r w' n,
    get_race_odds py_float site id w = (Ret r, w')
    /\ status r = "success"
    /\ In (CountLink k, Ret n) (hist w')
    /\ map fst (hist w')
       = ([Stop; CloseBrowser; CloseContext]
          ++ route k (race_link (race_num info)) n
          ++ [NewPage; NewContext; Launch; Start] ++ map fst (hist w))%list.
Proof.
  intros I K. unfold get_race_odds, try_except, attempt,
    async_with_playwright.
  rewrite I, bind_lift_ret. step H.
  unfold session. step H. step H. step H.
  unfold try_finally.
  match goal with
  | |- context [navigate py_float site id info ?w0] =>
      destruct (navigate_run id info k w0 K) as (r & w1 & m & -> & S & C & Hc)
  end.
  destruct (release_run w1) as (m1 & m2 & ->).
  exists r. eexists. exists m. split; [reflexivity|]. split; [exact S|].
  rewrite !account_hist. split.
  - now do 3 right.
  - cbn [map fst]. rewrite Hc, !account_hist.
    cbn [map fst app]. reflexivity.
Qed.

End WithSite.

Lemma late_validation_after_navigation_witness :
  exists e w',
    get_race_odds Fixture.decimal (Fixture.good_site Fixture.race_page)
                  "202506xx05" Fixture.clean
    = (Ret (error_data "202506xx05" e), w')
    /\ map fst (hist w')
       = [Stop; CloseBrowser; CloseContext; WaitForLoadState;
          ClickLink "オッズ" true; Goto "https://www.jra.go.jp/keiba/";
          NewPage; NewContext; Launch; Start].
Proof.
  destruct (kaisai_name "202506xx05" "中山") as [k|e] eqn:K;
    [vm_compute in K; discriminate K|].
  exists e.
  apply (late_validation_after_navigation
           Fixture.decimal (Fixture.good_site Fixture.race_page)
           (fun h c => ex_intro _ 1%nat eq_refl)
           "202506xx05"
           {| year := "2025"; month := "06"; day := "xx";
              place_code := 6; race_num := 5; place_name := "中山" |}
           e Fixture.clean).
  - reflexivity.
  - exact K.
Defined.

Lemma navigation_routes_witness :
  exists r w' n,
    get_race_odds Fixture.decimal (Fixture.good_site Fixture.race_page)
                  "2025060105" Fixture.clean = (Ret r, w')
    /\ status r = "success"
    /\ In (CountLink "1回中山5日", Ret n) (hist w')
    /\ map fst (hist w')
       = ([Stop; CloseBrowser; CloseContext]
          ++ route "1回中山5日" "5レース" n
          ++ [NewPage; NewContext; Launch; Start])%list.
Proof.
  apply (navigation_routes
           Fixture.decimal (Fixture.good_site Fixture.race_page)
           (fun h c => ex_intro _ 1%nat eq_refl)
           "2025060105"
           {| year := "2025"; month := "06"; day := "01";
              place_code := 6; race_num := 5; place_name := "中山" |}
           "1回中山5日" Fixture.clean).
  - reflexivity.
  - reflexivity.
Defined.

End FetchPaths.

(** ** More on the extraction *)

Module ExtractionEdges.

Import PyText Eff Eff.Notations EffFacts Dom Scraper Reads QuinellaReads
  PyDictFacts.

(** When no key is NaN, the running best of [min] splits the sequence:
    strictly larger keys before it, keys at least as large after it. *)
Lemma fold_min_first {A} (key : A -> double) (xs : list A) :
  forall x m,
  (forall y, In y (x :: xs) -> PrimFloat.is_nan (key y) = false) ->
  fold_left (fun best y =>
               if PrimFloat.ltb (key y) (key best) then y else best)
            xs x = m ->
  exists l1 l2,
    x :: xs = (l1 ++ m :: l2)%list
    /\ (forall h, In h l1 -> PrimFloat.ltb (key m) (key h) = true)
    /\ (forall h, In h l2 -> PrimFloat.leb (key m) (key h) = true).
Proof.
  induction xs as [|y ys IH]; intros x m N Hm; simpl in Hm.
  - subst m. exists [], []. repeat split; intros h [].
  - assert (Nx : PrimFloat.is_nan (key x) = false) by (apply N; now left).
    assert (Ny : PrimFloat.is_nan (key y) = false)
      by (apply N; right; now left).
    assert (Ns : forall z, In z ys -> PrimFloat.is_nan (key z) = false)
      by (intros z Z; apply N; right; now right).
    destruct (PrimFloat.ltb (key y) (key x)) eqn:E.
    + destruct (IH y m) as (l1 & l2 & D & B & Af); auto.
      { intros z [<-|Z]; auto. }
      clear IH Hm.
      exists (x :: l1), l2. rewrite D. repeat split; auto.
      intros h [<-|I]; auto.
      apply FloatOrder.leb_ltb_trans with (key y); auto.
      destruct l1 as [|z l1]; simpl in D; injection D as Hy Hl; subst.
      * now apply FloatOrder.leb_refl.
      * apply FloatOrder.ltb_leb, B. now left.
    + apply FloatOrder.not_ltb_leb in E; auto.
      destruct (IH x m) as (l1 & l2 & D & B & Af); auto.
      { intros z [<-|Z]; auto. }
      clear IH Hm.
      destruct l1 as [|z l1]; simpl in D; injection D as Hx Hl; subst.
      * exists [], (y :: l2). split; [reflexivity|]. split.
        -- intros h [].
        -- intros h [<-|I]; [exact E|now apply Af].
      * exists (z :: y :: l1), l2. split; [reflexivity|]. split; auto.
        intros h [<-|[<-|I]].
        -- apply B. now left.
        -- apply FloatOrder.ltb_leb_trans with (key z); auto.
           apply B. now left.
        -- apply B. now right.
Qed.

(** X5.  When no odds of the win map is NaN, the favourite is the first
    horse of the map with the lowest odds: the horses before it have
    strictly higher odds, the horses after it odds at least as high, so
    that of two horses at the same lowest odds the one listed first is
    taken. *)
Theorem favorite_is_first_minimum (tansho : PyDict.dict Z double) (a : Z) :
  no_nan tansho ->
  favorite tansho = Some a ->
  exists before after,
    PyDict.keys tansho = (before ++ a :: after)%list
    /\ (forall h, In h before ->
          PrimFloat.ltb (item tansho a) (item tansho h) = true)
    /\ (forall h, In h after ->
          PrimFloat.leb (item tansho a) (item tansho h) = true).
Proof.
  intros N.
  assert (Nk : forall y, In y (PyDict.keys tansho) ->
                         PrimFloat.is_nan (item tansho y) = false).
  { intros y Y. destruct (PyDict.get tansho y) as [oy|] eqn:Gy;
      [|now destruct (Quinella.in_keys_get _ _ Y)].
    unfold item, PyDict.get_default. rewrite Gy.
    apply (N y). now apply Quinella.get_in_dict. }
  unfold favorite, min_by. revert Nk.
  destruct (PyDict.keys tansho) as [|x xs]; [discriminate|].
  intros Nk E; injection E as Ea.
  destruct (fold_min_first (item tansho) xs x a Nk Ea)
    as (l1 & l2 & D & B & Af).
  exists l1, l2. split; [exact D|]. split; assumption.
Qed.

Lemma favorite_is_first_minimum_witness :
  let tansho :=
    [(1%Z, 2.1%float); (2%Z, 1.8%float); (3%Z, 1.8%float); (4%Z, 5%float)]
  in
  exists before after,
    [1; 2; 3; 4]%Z = (before ++ 2%Z :: after)%list
    /\ (forall h, In h before ->
          PrimFloat.ltb (item tansho 2) (item tansho h) = true)
    /\ (forall h, In h after ->
          PrimFloat.leb (item tansho 2) (item tansho h) = true).
Proof.
  intros tansho.
  apply (favorite_is_first_minimum tansho 2%Z).
  - intros k o [X|[X|[X|[X|[]]]]]; inversion X; reflexivity.
  - reflexivity.
Defined.

Lemma stable_run {S A} (I : S -> Prop) (m : M S A) s r s' :
  stable I m -> m s = (r, s') -> I s -> I s'.
Proof. intros St E Hs. specialize (St s Hs). now rewrite E in St. Qed.

Section WithFloat.

Variable py_float : string -> option double.

(** One iteration of the quinella row loop, reading by reading. *)
Lemma umaren_row_run (first_horse : Z) (row : UmarenRow) p u :
  umaren_row py_float first_horse row (p, u) =
  if (0 <? count (th row))%nat && (0 <? count (td row))%nat then
    match second_of row with
    | Raise e => (Raise e, (p, u))
    | Ret b =>
        match pair_odds_of py_float row with
        | Raise e => (Raise e, (p, u))
        | Ret v => (Ret tt, (p, PyDict.set u (first_horse, b) v))
        end
    end
  else (Ret tt, (p, u)).
Proof.
  unfold umaren_row, second_of, pair_odds_of, and_then, bind, lift, ret,
    modify.
  repeat (WinPlace.break_match; simpl in *; try discriminate;
          try reflexivity).
Qed.

Lemma umaren_table_run (fav : Z) (table : UmarenTable) s :
  umaren_table py_float fav table s =
  if (0 <? count (caption table))%nat then
    match caption_of table with
    | Raise e => (Raise e, s)
    | Ret first_horse =>
        if (first_horse =? fav)%Z
        then for_each (umaren_row py_float first_horse) (tbody_tr table) s
        else (Ret tt, s)
    end
  else (Ret tt, s).
Proof.
  unfold umaren_table, caption_of, and_then, bind, lift, ret.
  repeat (WinPlace.break_match; simpl in *; try discriminate;
          try reflexivity).
Qed.

Lemma umaren_row_sourced p lists block table row a :
  In block lists -> In table block -> In row (tbody_tr table) ->
  caption_of table = Ret a ->
  stable (sourced py_float p lists) (umaren_row py_float a row).
Proof.
  intros Ib It Ir Ca [p0 u] (Hp & Hs). rewrite umaren_row_run.
  destruct ((0 <? count (th row))%nat && (0 <? count (td row))%nat);
    [|split; assumption].
  destruct (second_of row) as [b|e] eqn:Sb; [|split; assumption].
  destruct (pair_odds_of py_float row) as [v|e] eqn:Pv; [|split; assumption].
  split; [exact Hp|]. simpl. intros a' b' v' I.
  destruct (in_set _ _ _ _ _ I) as [I'|(E & ->)].
  - now apply Hs.
  - inversion E; subst. exists block, table, row. auto 10.
Qed.

Lemma umaren_table_sourced p lists block table fav :
  In block lists -> In table block ->
  stable (sourced py_float p lists) (umaren_table py_float fav table).
Proof.
  intros Ib It s Hs. rewrite umaren_table_run.
  destruct (0 <? count (caption table))%nat; [|exact Hs].
  destruct (caption_of table) as [a|e] eqn:Ca; [|exact Hs].
  destruct (a =? fav)%Z; [|exact Hs].
  revert s Hs. apply stable_for_each. intros row Ir.
  now apply umaren_row_sourced with block table.
Qed.

Lemma umaren_lists_sourced p lists fav :
  stable (sourced py_float p lists)
         (for_each (fun list_block =>
                      for_each (umaren_table py_float fav) list_block)
                   lists).
Proof.
  apply stable_for_each. intros block Ib.
  apply stable_for_each. intros table It.
  now apply umaren_table_sourced with block.
Qed.

(** The tab loop leaves the map empty or ends in the loops over the
    lists of the page it has opened. *)
Lemma umaren_tabs_run fav tabs :
  forall p r p' u,
  umaren_tabs py_float fav tabs (p, []) = (r, (p', u)) ->
  u = [] \/ sourced py_float p' (ul_umaren_list p') (p', u).
Proof.
  induction tabs as [|tab tabs IH]; intros p r p' u E.
  - inversion E; auto.
  - simpl in E. unfold bind at 1 in E. unfold lift at 1 in E.
    destruct (text_content (tab_a tab)) as [name|e];
      [|inversion E; auto].
    destruct (contains "馬連" name); [|now apply (IH _ _ _ _ E)].
    unfold click, wait_for_load_state, bind, lift, modify, state in E.
    simpl in E.
    destruct (tab_click tab) as [shown|e]; [|inversion E; auto].
    simpl in E.
    destruct (load_state shown) as [[]|e]; [|inversion E; auto].
    right.
    assert (S0 : sourced py_float shown (ul_umaren_list shown) (shown, [])).
    { split; [reflexivity|]. intros a b v []. }
    destruct (stable_run _ _ _ _ _
                (umaren_lists_sourced shown (ul_umaren_list shown) fav)
                E S0) as (Hp & Hs).
    simpl in Hp. subst p'. split; [reflexivity|exact Hs].
Qed.

(** X6.  The quinella extractor always returns, and every entry [(a, b): v]
    of its map is displayed by the page it leaves: some table of some
    list has the caption [a] and a row with the horse [b] and the odds
    [v]. *)
Theorem quinella_entries_come_from_rows tansho page :
  exists u page',
    _extract_umaren_odds py_float tansho page = (Ret u, page')
    /\ forall a b v, In ((a, b), v) u ->
         umaren_source py_float (ul_umaren_list page') a b v.
Proof.
  unfold _extract_umaren_odds.
  destruct tansho as [|e tansho].
  - simpl. eexists _, _; split; [reflexivity|]. intros a b v [].
  - destruct (Quinella.favorite_defined e tansho) as (fav & F). rewrite F.
    unfold try_except, of_option. rewrite bind_lift_ret.
    unfold bind at 1, state at 1. simpl fst.
    destruct (umaren_tabs py_float fav (nav_pills page) (page, []))
      as [r [p' u]] eqn:E.
    apply umaren_tabs_run in E.
    exists u, p'. split; [now destruct r|].
    destruct E as [->|(_ & Hs)]; [intros a b v []|exact Hs].
Qed.

Lemma for_each_app {S A} (body : A -> M S unit) (xs ys : list A) s :
  for_each body (xs ++ ys) s =
  match for_each body xs s with
  | (Ret _, s1) => for_each body ys s1
  | (Raise e, s1) => (Raise e, s1)
  end.
Proof.
  revert s. induction xs as [|x xs IH]; intros s; simpl; [reflexivity|].
  unfold bind. destruct (body x s) as [[[]|e] s1]; [apply IH|reflexivity].
Qed.

(** X7.  A row whose win cell cannot be converted ends the loop over the
    rows: the loop raises there, in the state the rows before it left,
    so neither the place odds of that row nor any later row is
    recorded. *)
Theorem unreadable_win_cell_hides_later_rows rows1 bad rows2 h e p t f :
  umaban_of bad = Ret h ->
  has_win bad = true ->
  win_of py_float bad = Raise e ->
  exists o s1,
    for_each (tanpuku_row py_float) rows1 (p, (t, f)) = (o, s1)
    /\ for_each (tanpuku_row py_float) (rows1 ++ bad :: rows2) (p, (t, f))
       = (match o with
          | Ret _ => Raise e
          | Raise e' => Raise e'
          end, s1).
Proof.
  intros U W Wo. rewrite for_each_app.
  destruct (for_each (tanpuku_row py_float) rows1 (p, (t, f)))
    as [[[]|e'] [p1 [t1 f1]]]; eexists _, _; (split; [reflexivity|]);
    [|reflexivity].
  simpl. unfold bind. rewrite WinPlace.tanpuku_row_run.
  assert (C : (0 <? count (td_num bad))%nat = true).
  { unfold umaban_of in U. destruct (td_num bad) as [|x [|y l]];
      simpl in U; try discriminate U. reflexivity. }
  rewrite C, U. unfold new_tansho. rewrite W, Wo. reflexivity.
Qed.

Lemma tanpuku_tabs_skip tabs rest s :
  passed_over "単勝・複勝" tabs ->
  tanpuku_tabs py_float (tabs ++ rest) s = tanpuku_tabs py_float rest s.
Proof.
  induction tabs as [|tab tabs IH]; intros P; simpl; [reflexivity|].
  destruct (P tab (or_introl eq_refl)) as (label & -> & C).
  rewrite bind_lift_ret, C. apply IH.
  intros t I. apply P. now right.
Qed.

(** X8.  A page without a usable win/place tab gives two empty maps and stays
    as it is: when no label contains "単勝・複勝", and also when the
    label of a tab cannot be read before such a tab is met. *)
Theorem no_usable_tab_no_odds page :
  (passed_over "単勝・複勝" (nav_pills page) ->
   _extract_tanpuku_odds py_float page = (Ret ([], []), page))
  /\ (forall tabs tab rest e,
        nav_pills page = (tabs ++ tab :: rest)%list ->
        passed_over "単勝・複勝" tabs ->
        text_content (tab_a tab) = Raise e ->
        _extract_tanpuku_odds py_float page = (Ret ([], []), page)).
Proof.
  split.
  - intros P. unfold _extract_tanpuku_odds, try_except.
    unfold bind at 1, state at 1. simpl fst.
    rewrite <- (app_nil_r (nav_pills page)), tanpuku_tabs_skip by exact P.
    reflexivity.
  - intros tabs tab rest e N P R.
    unfold _extract_tanpuku_odds, try_except.
    unfold bind at 1, state at 1. simpl fst.
    rewrite N, tanpuku_tabs_skip by exact P.
    simpl. rewrite R, bind_lift_raise. reflexivity.
Qed.

End WithFloat.

Lemma unreadable_win_cell_hides_later_rows_witness :
  exists e o s1,
    for_each (tanpuku_row Fixture.decimal)
             [Fixture.row "1" "2.1" "1.1" "1.5"]
             (Fixture.blank_page, ([], [])) = (o, s1)
    /\ for_each (tanpuku_row Fixture.decimal)
                ([Fixture.row "1" "2.1" "1.1" "1.5"]
                 ++ Fixture.row "2" "取消" "2.0" "3.4"
                 :: [Fixture.row "3" "1.8" "1.0" "1.2"])%list
                (Fixture.blank_page, ([], []))
       = (match o with
          | Ret _ => Raise e
          | Raise e' => Raise e'
          end, s1).
Proof.
  destruct (win_of Fixture.decimal (Fixture.row "2" "取消" "2.0" "3.4"))
    as [q|e] eqn:W; [vm_compute in W; discriminate W|].
  exists e.
  apply (unreadable_win_cell_hides_later_rows Fixture.decimal
           [Fixture.row "1" "2.1" "1.1" "1.5"]
           (Fixture.row "2" "取消" "2.0" "3.4")
           [Fixture.row "3" "1.8" "1.0" "1.2"]
           2%Z e Fixture.blank_page [] []).
  - reflexivity.
  - reflexivity.
  - exact W.
Defined.

Lemma no_usable_tab_no_odds_witness :
  _extract_tanpuku_odds Fixture.decimal Samples.other_tab_page
  = (Ret ([], []), Samples.other_tab_page).
Proof.
  apply (proj1 (no_usable_tab_no_odds Fixture.decimal
                  Samples.other_tab_page)).
  intros tab [<-|[]]. exists "枠連". split; reflexivity.
Defined.

End ExtractionEdges.

(** ** The post time *)

Module PostTime.

Import PyText Dom Scraper.

Lemma span_digits_digits (s : string) :
  forall d r, span_digits s = (d, r) -> all_digits d = true.
Proof.
  induction s as [|c s IH]; simpl; intros d r E.
  - inversion E; reflexivity.
  - destruct (is_digit c) eqn:D.
    + destruct (span_digits s) as [d' r'] eqn:E'. inversion E; subst.
      unfold all_digits in *; simpl. rewrite D. exact (IH _ _ eq_refl).
    + inversion E; reflexivity.
Qed.

Lemma match_time_here_groups (s h m : string) :
  match_time_here s = Some (h, m) ->
  h <> "" /\ all_digits h = true /\ m <> "" /\ all_digits m = true.
Proof.
  unfold match_time_here.
  destruct (span_digits s) as [h0 r1] eqn:E1.
  destruct (h0 =? "") eqn:N1; [discriminate|].
  destruct (drop_prefix "時" r1) as [r2|]; [|discriminate].
  destruct (span_digits r2) as [m0 r3] eqn:E2.
  destruct (m0 =? "") eqn:N2; [discriminate|].
  destruct (prefix "分" r3); [|discriminate].
  intros E; inversion E; subst.
  apply String.eqb_neq in N1, N2.
  repeat split; auto; eapply span_digits_digits; eassumption.
Qed.

Lemma re_search_time_groups (s h m : string) :
  re_search_time s = Some (h, m) ->
  h <> "" /\ all_digits h = true /\ m <> "" /\ all_digits m = true.
Proof.
  induction s as [|c s IH]; simpl.
  - discriminate.
  - destruct (match_time_here (String c s)) as [g|] eqn:E.
    + intros X; inversion X; subst. now apply match_time_here_groups in E.
    + exact IH.
Qed.

Lemma all_digits_app (a b : string) :
  all_digits a = true -> all_digits b = true -> all_digits (a ++ b) = true.
Proof.
  unfold all_digits. induction a as [|c a IH]; simpl; auto.
  rewrite !andb_true_iff. intros (D & A) B. split; auto.
Qed.

Lemma zeros_digits (n : nat) : all_digits (zeros n) = true.
Proof. induction n; simpl; auto. Qed.

Lemma length_append (a b : string) :
  String.length (a ++ b) = (String.length a + String.length b)%nat.
Proof. induction a; simpl; auto. Qed.

Lemma zeros_length (n : nat) : String.length (zeros n) = n.
Proof. induction n; simpl; auto. Qed.

(** [zfill] on a run of digits only pads on the left. *)
Lemma zfill_digits (w : nat) (s : string) :
  s <> "" -> all_digits s = true ->
  zfill w s = zeros (w - String.length s) ++ s.
Proof.
  destruct s as [|c s]; [congruence|]. intros _ A.
  unfold all_digits in A. simpl in A. apply andb_true_iff in A.
  destruct A as (D & _). unfold zfill.
  destruct c as [[] [] [] [] [] [] [] []]; try discriminate D; reflexivity.
Qed.

(** X9.  The post time of a record is the sentinel "不明" or has the form
    [hh:mm] with both parts at least two characters long; it is the
    sentinel whenever the header cannot be read or is empty. *)
Theorem post_time_format (page : Page) :
  (read_post_time page = "不明"
   \/ exists hh mm,
        read_post_time page = hh ++ ":" ++ mm
        /\ (2 <= String.length hh)%nat /\ (2 <= String.length mm)%nat)
  /\ (forall e, text_content (race_header_time page) = Raise e ->
                read_post_time page = "不明")
  /\ (text_content (race_header_time page) = Ret "" ->
      read_post_time page = "不明").
Proof.
  unfold read_post_time. split; [|split].
  - destruct (text_content (race_header_time page)) as [t|e]; [|now left].
    destruct (t =? ""); [now left|].
    destruct (re_search_time t) as [[h m]|] eqn:E; [|now left].
    apply re_search_time_groups in E. destruct E as (Nh & Ah & Nm & Am).
    right. exists (zfill 2 h), (zfill 2 m). split; [reflexivity|].
    rewrite !zfill_digits by assumption.
    split; rewrite length_append, zeros_length; lia.
  - intros e ->. reflexivity.
  - intros ->. reflexivity.
Qed.

Lemma post_time_format_witness :
  read_post_time Fixture.race_page = "10:05"
  /\ read_post_time Fixture.blank_page = "不明".
Proof.
  split; [reflexivity|].
  destruct (text_content (race_header_time Fixture.blank_page))
    as [t|e] eqn:T; [vm_compute in T; discriminate T|].
  exact (proj1 (proj2 (post_time_format Fixture.blank_page)) e T).
Defined.

End PostTime.

(** ** Identifiers that pass the check of [main] *)

Module Accepted.

Import PyText Eff Dom Scraper Format.

Lemma int_two_digits (a b : ascii) :
  is_digit a = true -> is_digit b = true ->
  int (String a (String b "")) = Ret (10 * digit_val a + digit_val b)%Z.
Proof.
  intros A B.
  destruct a as [[] [] [] [] [] [] [] []]; try discriminate A;
    destruct b as [[] [] [] [] [] [] [] []]; try discriminate B;
    reflexivity.
Qed.

Lemma digit_val_range (c : ascii) :
  is_digit c = true -> (0 <= digit_val c <= 9)%Z.
Proof.
  unfold is_digit, digit_val. rewrite andb_true_iff, !Nat.leb_le. lia.
Qed.

(** The ten characters of an identifier of ten digits. *)
Lemma ten_digits_chars (p : string) :
  ten_digits p = true ->
  exists c0 c1 c2 c3 c4 c5 c6 c7 c8 c9,
    p = String c0 (String c1 (String c2 (String c3 (String c4 (String c5
          (String c6 (String c7 (String c8 (String c9 "")))))))))
    /\ is_digit c4 = true /\ is_digit c5 = true
    /\ is_digit c6 = true /\ is_digit c7 = true
    /\ is_digit c8 = true /\ is_digit c9 = true.
Proof.
  unfold ten_digits, all_digits. rewrite andb_true_iff, Nat.eqb_eq.
  intros (L & A).
  destruct p as [|c0 [|c1 [|c2 [|c3 [|c4 [|c5 [|c6 [|c7 [|c8 [|c9 [|? ?]]]]]]]]]]];
    try discriminate L.
  simpl in A. rewrite !andb_true_iff in A.
  exists c0, c1, c2, c3, c4, c5, c6, c7, c8, c9. intuition.
Qed.

(** X10.  An identifier the single-race branch of [main] accepts can always be
    taken apart: its fields and the name of its meeting are read without
    an exception, the year has four characters and both the venue code
    and the race number lie between 0 and 99. *)
Theorem accepted_identifier_parses (s : string) :
  re_match_race_id s = true ->
  exists info k,
    race_info s = Ret info
    /\ kaisai_name s (place_name info) = Ret k
    /\ String.length (year info) = 4%nat
    /\ (0 <= place_code info <= 99)%Z
    /\ (0 <= race_num info <= 99)%Z.
Proof.
  intros M.
  assert (P : exists p rest, s = p ++ rest /\ ten_digits p = true).
  { destruct (Identifier.re_match_race_id_inv s M) as [T|(t & T & ->)].
    - exists s, "". split; auto. clear. induction s; simpl; congruence.
    - exists t, LF. auto. }
  destruct P as (p & rest & -> & T).
  destruct (ten_digits_chars p T)
    as (c0 & c1 & c2 & c3 & c4 & c5 & c6 & c7 & c8 & c9 & ->
        & D4 & D5 & D6 & D7 & D8 & D9).
  unfold race_info, kaisai_name, slice. cbn [append substring Nat.sub].
  replace (substring 0 0 rest) with "" by (destruct rest; reflexivity).
  rewrite (int_two_digits c4 c5 D4 D5), (int_two_digits c8 c9 D8 D9),
    (int_two_digits c6 c7 D6 D7).
  cbn [of_option and_then].
  eexists _, _. split; [reflexivity|]. split; [reflexivity|].
  cbn [year place_code race_num String.length].
  pose proof (digit_val_range c4 D4). pose proof (digit_val_range c5 D5).
  pose proof (digit_val_range c8 D8). pose proof (digit_val_range c9 D9).
  repeat split; lia.
Qed.

Lemma accepted_identifier_parses_witness :
  exists info k,
    race_info "2025060105" = Ret info
    /\ kaisai_name "2025060105" (place_name info) = Ret k
    /\ String.length (year info) = 4%nat
    /\ (0 <= place_code info <= 99)%Z
    /\ (0 <= race_num info <= 99)%Z.
Proof.
  apply (accepted_identifier_parses "2025060105"). reflexivity.
Defined.

End Accepted.

(** ** More on the batch *)

Module BatchReport.

Import PyText Eff Eff.Notations EffFacts Dom Scraper Reads Tallies.

Section Generic.

Variable W : Type.
Variable fetch : string -> M W RaceOddsRecord.
Variable resolver : string -> list string.

Lemma successes_snoc rs r :
  successes (rs ++ [r]) = (successes rs + if is_success r then 1 else 0)%nat.
Proof.
  unfold successes. rewrite filter_app, length_app. simpl.
  now destruct (is_success r).
Qed.

Lemma failures_snoc rs r :
  failures (rs ++ [r]) = (failures rs + if is_success r then 0 else 1)%nat.
Proof.
  unfold failures. rewrite filter_app, length_app. simpl.
  now destruct (is_success r).
Qed.

Lemma daily_step_tallied t w id :
  tallied t -> tallied (fst (daily_step fetch (t, w) id)).
Proof.
  intros (S & F). unfold daily_step.
  destruct (fetch id w) as [[d|e] w']; simpl.
  - destruct (status d =? "success") eqn:E; split; simpl;
      rewrite ?successes_snoc, ?failures_snoc; unfold is_success;
      rewrite E; lia.
  - split; simpl; rewrite ?successes_snoc, ?failures_snoc;
      unfold is_success; simpl; lia.
Qed.

Lemma daily_fold_tallied ids :
  forall t w, tallied t ->
  tallied (fst (fold_left (daily_step fetch) ids (t, w))).
Proof.
  induction ids as [|id ids IH]; intros t w T; cbn [fold_left]; [exact T|].
  pose proof (daily_step_tallied t w id T) as T1.
  destruct (daily_step fetch (t, w) id) as [t1 w1]. now apply IH.
Qed.

(** X11.  In every report, [successful_races] is the number of records marked
    success and [failed_races] the number of the others; the status of
    the report is "success" exactly when some record is, and "error"
    otherwise. *)
Theorem counters_count_the_records (date : string) (w : W) :
  exists rep w',
    get_daily_odds_via fetch resolver date w = (Ret rep, w')
    /\ successful_races rep = successes (races rep)
    /\ failed_races rep = failures (races rep)
    /\ (daily_status rep = "success"
        <-> exists r, In r (races rep) /\ status r = "success")
    /\ (daily_status rep = "success" \/ daily_status rep = "error").
Proof.
  rewrite Batch.get_daily_odds_run. cbv zeta.
  assert (Empty : forall d m,
             successful_races (empty_report d m) = successes []
             /\ failed_races (empty_report d m) = failures []
             /\ (daily_status (empty_report d m) = "success"
                 <-> exists r, In r (races (empty_report d m))
                               /\ status r = "success")
             /\ (daily_status (empty_report d m) = "success"
                 \/ daily_status (empty_report d m) = "error")).
  { intros d m. repeat split; auto.
    - discriminate.
    - intros (r & [] & _). }
  destruct (negb (String.length (normalize_date date) =? 8)%nat).
  { eexists _, _; split; [reflexivity|apply Empty]. }
  destruct (resolver (normalize_date date)) as [|id rest].
  { eexists _, _; split; [reflexivity|apply Empty]. }
  unfold daily_loop.
  match goal with
  | |- context [fold_left _ ?ids (?t0, w)] =>
      assert (T : tallied (fst (fold_left (daily_step fetch) ids (t0, w))))
        by (apply daily_fold_tallied; split; reflexivity);
      destruct (fold_left (daily_step fetch) ids (t0, w)) as [t w']
  end.
  destruct T as (S & F). simpl in S, F.
  eexists _, _; split; [reflexivity|].
  cbn [successful_races failed_races races daily_status].
  split; [exact S|]. split; [exact F|]. split.
  - rewrite S. unfold successes. split.
    + destruct (filter is_success (races_data t)) as [|r l] eqn:E;
        [discriminate|]. intros _.
      assert (I : In r (filter is_success (races_data t)))
        by (rewrite E; now left).
      apply filter_In in I. destruct I as (I & Sr).
      exists r. split; auto. now apply String.eqb_eq.
    + intros (r & I & Sr).
      assert (I' : In r (filter is_success (races_data t))).
      { apply filter_In. split; auto. now apply String.eqb_eq. }
      destruct (filter is_success (races_data t)); [destruct I'|reflexivity].
  - destruct (0 <? successful_count t)%nat; auto.
Qed.

(** X12.  The date is checked by its length only: the normalised date holds no
    hyphen, and a date whose normalised form is not eight characters
    long gives the empty error report without any fetch. *)
Theorem date_is_checked_by_length (date : string) (w : W) :
  contains "-" (normalize_date date) = false
  /\ (String.length (normalize_date date) <> 8%nat ->
      get_daily_odds_via fetch resolver date w =
      (Ret (empty_report
              (normalize_date date)
              "日付は8桁の数字である必要があります (例: 20250113)"), w)).
Proof.
  split.
  - unfold normalize_date. destruct (contains "-" date) eqn:C; [|exact C].
    clear. induction date as [|a s IH]; [reflexivity|].
    simpl remove. destruct (a =? "-")%char eqn:E; [exact IH|].
    cbn [contains]. rewrite IH, orb_false_r.
    cbn [prefix]. destruct (ascii_dec "-" a) as [<-|N]; [|reflexivity].
    discriminate E.
  - intros L. rewrite Batch.get_daily_odds_run. cbv zeta.
    apply Nat.eqb_neq in L. now rewrite L.
Qed.

End Generic.

Lemma date_is_checked_by_length_witness :
  get_daily_odds Fixture.decimal (Fixture.good_site Fixture.race_page)
                 Fixture.three_races "2025/06/01" Fixture.clean =
  (Ret (empty_report "2025/06/01"
          "日付は8桁の数字である必要があります (例: 20250113)"),
   Fixture.clean).
Proof.
  apply (proj2 (date_is_checked_by_length World
                  (get_race_odds Fixture.decimal
                     (Fixture.good_site Fixture.race_page))
                  Fixture.three_races "2025/06/01" Fixture.clean)).
  discriminate.
Defined.

(** X13.  For a date of eight characters, the report has one record per
    identifier of the date, in the order of the identifiers, each
    carrying its identifier, whatever the site does. *)
Theorem report_lists_the_identifiers py_float site resolver date w :
  String.length (normalize_date date) = 8%nat ->
  exists rep w',
    get_daily_odds py_float site resolver date w = (Ret rep, w')
    /\ Scraper.date rep = normalize_date date
    /\ map race_id (races rep) = resolver (normalize_date date).
Proof.
  intros L. unfold get_daily_odds.
  rewrite Batch.get_daily_odds_run. cbv zeta. rewrite L. cbn [Nat.eqb negb].
  destruct (resolver (normalize_date date)) as [|id rest] eqn:R.
  { eexists _, _; split; [reflexivity|]. split; reflexivity. }
  pose proof (Batch.daily_loop_records World (get_race_odds py_float site)
                (id :: rest) w) as Rec.
  destruct (daily_loop (get_race_odds py_float site) (id :: rest) w)
    as [t w'].
  eexists _, _; split; [reflexivity|]. split; [reflexivity|].
  cbn [races]. simpl fst in Rec. rewrite Rec. clear.
  generalize (id :: rest). intros ids. revert w.
  induction ids as [|i ids IH]; intros w; [reflexivity|].
  cbn [batch_records].
  destruct (FetchPaths.get_race_odds_record py_float site i w)
    as (r & w1 & E & Id & _).
  rewrite E. cbn [map record_of]. now rewrite Id, IH.
Qed.

Lemma report_lists_the_identifiers_witness :
  exists rep w',
    get_daily_odds Fixture.decimal (Fixture.flaky_site Fixture.blank_page)
                   Fixture.three_races "2025-06-01" Fixture.clean
    = (Ret rep, w')
    /\ Scraper.date rep = "20250601"
    /\ map race_id (races rep) = ["2025060101"; "2025060102"; "2025060103"].
Proof.
  apply (report_lists_the_identifiers Fixture.decimal
           (Fixture.flaky_site Fixture.blank_page) Fixture.three_races
           "2025-06-01" Fixture.clean).
  reflexivity.
Defined.

End BatchReport.

(** ** The race identifiers of a date *)

Module RaceIdsFacts.

Import PyText Eff Scraper RaceIds.

Lemma cell_eqb_eq (a b : Cell) : cell_eqb a b = true <-> a = b.
Proof.
  destruct a, b; simpl; try (split; discriminate).
  - rewrite Z.eqb_eq. split; congruence.
  - rewrite String.eqb_eq. split; congruence.
Qed.

Lemma seen_spec (c : Cell) (seen : list Cell) :
  existsb (cell_eqb c) seen = true <-> In c seen.
Proof.
  rewrite existsb_exists. split.
  - intros (x & I & E). apply cell_eqb_eq in E. now subst.
  - intros I. exists c. split; auto. now apply cell_eqb_eq.
Qed.

(** [unique] keeps one copy of every cell not seen before. *)
Lemma unique_from_spec (cells : list Cell) :
  forall seen,
  NoDup (unique_from seen cells)
  /\ (forall c, In c (unique_from seen cells)
                <-> In c cells /\ ~ In c seen).
Proof.
  induction cells as [|c cells IH]; intros seen; simpl.
  - split; [constructor|]. intros c; tauto.
  - destruct (existsb (cell_eqb c) seen) eqn:E.
    + apply seen_spec in E. destruct (IH seen) as (N & M).
      split; [exact N|]. intros x. rewrite M. split.
      * tauto.
      * intros ([<-|I] & S); tauto.
    + assert (S : ~ In c seen).
      { intros I. apply seen_spec in I. congruence. }
      destruct (IH (c :: seen)) as (N & M). split.
      * constructor; auto. rewrite M. simpl. tauto.
      * intros x. simpl. rewrite M. simpl. split.
        -- intros [<-|(I & J)]; tauto.
        -- intros ([<-|I] & J); [tauto|].
           destruct (cell_eqb c x) eqn:Ex.
           ++ apply cell_eqb_eq in Ex. tauto.
           ++ right. split; auto. intros [<-|K]; [|tauto].
              assert (cell_eqb c c = true) by now apply cell_eqb_eq.
              congruence.
Qed.

Lemma population_ids files date rows :
  population files = Some (Ret rows) ->
  exists cells,
    _get_race_ids_for_date files date = map str cells
    /\ NoDup cells
    /\ (forall c, In c cells <-> In (target_date date, c) rows).
Proof.
  intros P. unfold _get_race_ids_for_date, read_race_ids. rewrite P. simpl.
  eexists. split; [reflexivity|].
  destruct (unique_from_spec
              (map snd (filter (fun row => fst row =? target_date date) rows))
              []) as (N & M).
  split; [exact N|]. intros c. unfold unique. rewrite M.
  rewrite in_map_iff. split.
  - intros (((d & c') & E & I) & _). simpl in E. subst c'.
    apply filter_In in I. destruct I as (I & D). simpl in D.
    apply String.eqb_eq in D. now subst d.
  - intros I. split; [|tauto]. exists (target_date date, c).
    split; [reflexivity|]. apply filter_In. split; auto.
    simpl. apply String.eqb_refl.
Qed.

(** X14.  With a readable population file, the identifiers of a date are the
    [race_id] cells of the rows of that date ([YYYY-MM-DD]), each once. *)
Theorem population_rows_of_the_date files date rows :
  population files = Some (Ret rows) ->
  exists cells,
    _get_race_ids_for_date files date = map str cells
    /\ NoDup cells
    /\ (forall c, In c cells <-> In (target_date date, c) rows).
Proof. apply population_ids. Qed.

Lemma population_rows_of_the_date_witness :
  exists cells,
    _get_race_ids_for_date
      {| population := Some (Ret Samples.population_rows);
         time_table := fun _ => None |}
      "20250601" = map str cells
    /\ NoDup cells
    /\ (forall c,
          In c cells <->
          In (target_date "20250601", c) Samples.population_rows).
Proof.
  apply (population_rows_of_the_date
           {| population := Some (Ret Samples.population_rows);
              time_table := fun _ => None |}
           "20250601").
  reflexivity.
Defined.

Section Batch.

Variable W : Type.
Variable fetch : string -> M W RaceOddsRecord.

(** X15.  The population file shadows the time tables: when it can be read and
    has no row for the date, the batch reports that the date has no
    race and fetches nothing, whatever the time table of the date
    holds. *)
Theorem population_file_shadows_time_tables rows date w :
  (forall c, ~ In (target_date (normalize_date date), c) rows) ->
  String.length (normalize_date date) = 8%nat ->
  forall tables,
  get_daily_odds_via
    fetch
    (_get_race_ids_for_date
       {| population := Some (Ret rows); time_table := tables |})
    date w =
  (Ret (empty_report
          (normalize_date date)
          ("日付 " ++ normalize_date date ++ " のレースが見つかりません")),
   w).
Proof.
  intros Nrow L tables.
  destruct (population_ids
              {| population := Some (Ret rows); time_table := tables |}
              (normalize_date date) rows eq_refl)
    as (cells & E & _ & M).
  assert (C : cells = []).
  { destruct cells as [|c cells]; auto.
    destruct (Nrow c). apply M. now left. }
  subst cells. simpl map in E.
  rewrite Batch.get_daily_odds_run. cbv zeta. rewrite L, E. reflexivity.
Qed.

End Batch.

Lemma population_file_shadows_time_tables_witness :
  get_daily_odds
    Fixture.decimal (Fixture.good_site Fixture.race_page)
    (_get_race_ids_for_date
       {| population := Some (Ret Samples.stale_population);
          time_table := Samples.time_tables |})
    "2025-06-01" Fixture.clean
  = (Ret (empty_report "20250601"
            "日付 20250601 のレースが見つかりません"),
     Fixture.clean).
Proof.
  apply (population_file_shadows_time_tables World
           (get_race_odds Fixture.decimal
              (Fixture.good_site Fixture.race_page))
           Samples.stale_population "2025-06-01" Fixture.clean).
  - intros c [E|[]]. vm_compute in E. discriminate E.
  - reflexivity.
Defined.

End RaceIdsFacts.

(** ** What can be saved *)

Module JsonFacts.

Import Scraper Json.

Lemma of_odds_dumpable (d : PyDict.dict Z double) : dumpable (of_odds d) = true.
Proof.
  unfold of_odds. simpl. induction d as [|[k v] d IH]; simpl; auto.
Qed.

Lemma of_pair_odds_dumpable (d : PyDict.dict (Z * Z) double) :
  dumpable (of_pair_odds d) = true <-> d = [].
Proof.
  destruct d as [|[[a b] v] d]; simpl.
  - split; reflexivity.
  - split; discriminate.
Qed.

Lemma of_record_dumpable (r : RaceOddsRecord) :
  dumpable (of_record r) = true <-> umaren r = [].
Proof.
  rewrite <- of_pair_odds_dumpable. unfold of_record.
  cbn [dumpable forallb]. rewrite !of_odds_dumpable.
  cbn [andb]. now rewrite andb_true_r.
Qed.

Lemma of_report_dumpable (rep : DailyOddsReport) :
  dumpable (of_report rep) = true
  <-> forall r, In r (races rep) -> umaren r = [].
Proof.
  unfold of_report. cbn [dumpable forallb]. rewrite andb_true_r.
  cbn [andb]. induction (races rep) as [|r rs IH]; cbn [map forallb].
  - split; [intros _ r []|reflexivity].
  - rewrite andb_true_iff, IH, of_record_dumpable. split.
    + intros (U & A) x [<-|I]; auto.
    + intros A. split; [apply A; now left|].
      intros x I. apply A. now right.
Qed.

(** X16.  A record can be written as JSON exactly when its quinella map is
    empty, and a report exactly when every record of it is so: the keys
    of a quinella map are pairs, which [json.dump] refuses.  The record
    the single-race branch of [main] saves is a success record, written
    to [odds_<race_id>.json] under the same condition. *)
Theorem quinella_odds_block_saving :
  (forall f r, save_record f r = Ret f <-> umaren r = [])
  /\ (forall rep,
        (exists f, save_report rep = Ret f)
        <-> forall r, In r (races rep) -> umaren r = [])
  /\ (forall py_float site id w f r w',
        main_single py_float site id w = (Saved f r, w') ->
        f = "odds_" ++ id ++ ".json"
        /\ status r = "success"
        /\ (save_record f r = Ret f <-> umaren r = [])).
Proof.
  assert (R : forall f r, save_record f r = Ret f <-> umaren r = []).
  { intros f r. rewrite <- of_record_dumpable.
    unfold save_record, json_dump.
    destruct (dumpable (of_record r)); simpl; split;
      auto; discriminate. }
  split; [exact R|]. split.
  - intros rep. rewrite <- of_report_dumpable.
    unfold save_report, json_dump.
    destruct (dumpable (of_report rep)); simpl; split; eauto.
    + intros (f & E); discriminate E.
    + discriminate.
  - intros py_float site id w f r w'. unfold main_single.
    destruct (negb (PyText.re_match_race_id id)); [discriminate|].
    destruct (get_race_odds py_float site id w) as [[d|e] w1];
      [|discriminate].
    destruct (status d =? "success") eqn:S; [|discriminate].
    intros E; inversion E; subst. apply String.eqb_eq in S.
    repeat split; auto; apply R.
Qed.

Lemma quinella_odds_block_saving_witness :
  exists f r w',
    main_single Fixture.decimal (Fixture.good_site Fixture.race_page)
                "2025060105" Fixture.clean = (Saved f r, w')
    /\ f = "odds_2025060105.json"
    /\ save_record f r <> Ret f.
Proof.
  destruct (main_single Fixture.decimal (Fixture.good_site Fixture.race_page)
              "2025060105" Fixture.clean) as [[c|f r] w'] eqn:E;
    [vm_compute in E; discriminate E|].
  destruct (proj2 (proj2 quinella_odds_block_saving) _ _ _ _ _ _ _ E)
    as (Ef & _ & Sv).
  exists f, r, w'. split; [reflexivity|]. split; [exact Ef|].
  intros X. apply Sv in X. vm_compute in E. inversion E; subst r.
  discriminate X.
Defined.

End JsonFacts.

Module TableFacts.

Import PyText PyDict PyDictFacts Scraper Tables TableReads.

#[global] Instance KeyLaws_string : @KeyLaws string Key_string.
Proof. intros a b; apply String.eqb_eq. Qed.

Section Keys.

Context {K V : Type} {HK : Key K} {HL : @KeyLaws K HK}.

Lemma get_none_keys (d : dict K V) k : get d k = None -> ~ In k (keys d).
Proof.
  induction d as [|[k0 v0] d IH]; simpl; auto.
  destruct (key_eqb k0 k) eqn:E; [discriminate|].
  intros G [->|I]; [rewrite key_eqb_refl in E; discriminate|].
  now apply IH.
Qed.

Lemma keys_set (d : dict K V) k v :
  keys (set d k v)
  = match get d k with
    | Some _ => keys d
    | None => (keys d ++ [k])%list
    end.
Proof.
  induction d as [|[k0 v0] d IH]; simpl; auto.
  destruct (key_eqb k0 k) eqn:E; simpl; auto.
  rewrite IH. now destruct (get d k).
Qed.

Lemma in_get (d : dict K V) k v :
  NoDup (keys d) -> In (k, v) d -> get d k = Some v.
Proof.
  induction d as [|[k0 v0] d IH]; simpl; [tauto|].
  intros N [E|I].
  - inversion E; subst. now rewrite key_eqb_refl.
  - inversion N as [|? ? Hn N']; subst.
    destruct (key_eqb k0 k) eqn:E; [|auto].
    apply key_eqb_eq in E; subst k0. exfalso; apply Hn.
    unfold keys. change k with (fst (k, v)). now apply in_map.
Qed.

Lemma get_in (d : dict K V) k v : get d k = Some v -> In (k, v) d.
Proof.
  induction d as [|[k0 v0] d IH]; simpl; [discriminate|].
  destruct (key_eqb k0 k) eqn:E; auto.
  apply key_eqb_eq in E; subst. intros G; inversion G; auto.
Qed.

End Keys.

Lemma fold_exc_app {A B} (step : A -> B -> exc A) xs ys a :
  fold_exc step (xs ++ ys)%list a
  = and_then (fold_exc step xs a) (fold_exc step ys).
Proof.
  revert a; induction xs as [|x xs IH]; intros a; simpl; auto.
  destruct (step a x); simpl; auto.
Qed.

Lemma races_at_snoc name rs r :
  races_at name (rs ++ [r])
  = (races_at name rs ++ if at_venue name r then [r] else [])%list.
Proof.
  unfold races_at. rewrite filter_app. simpl.
  now destruct (at_venue name r).
Qed.

Section Summary.

Variable py_sum : list double -> double.

Lemma last_mean_snoc c rs r :
  last_mean py_sum c (rs ++ [r])
  = new_mean py_sum (last_mean py_sum c rs) (column_odds c r).
Proof. unfold last_mean. now rewrite fold_left_app. Qed.

Lemma summarises_nil : summarises py_sum [] [].
Proof.
  split; [constructor|]. split; [reflexivity|]. intros ? ?; discriminate.
Qed.

Lemma skipped_race r :
  (status r =? "success") = false
  \/ (10 <=? String.length (race_id r))%nat = false ->
  forall name, at_venue name r = false.
Proof.
  intros [E|E] name; unfold at_venue, eligible; rewrite E; simpl; auto.
  now rewrite andb_false_r.
Qed.

Lemma summarises_skip d rs r :
  (forall name, at_venue name r = false) ->
  summarises py_sum d rs -> summarises py_sum d (rs ++ [r]).
Proof.
  intros Sk (N & Z & S). split; [exact N|]. split.
  - intros name G. rewrite races_at_snoc, Sk, app_nil_r. auto.
  - intros name st G. rewrite races_at_snoc, Sk, app_nil_r. auto.
Qed.

Lemma place_summary_step_keeps d rs r d' :
  summarises py_sum d rs ->
  place_summary_step py_sum d r = Ret d' ->
  summarises py_sum d' (rs ++ [r]).
Proof.
  intros Inv. unfold place_summary_step.
  destruct (status r =? "success") eqn:Es; cbn [negb].
  2:{ intros E; inversion E; subst.
      apply summarises_skip; auto. apply skipped_race; left; exact Es. }
  destruct (10 <=? String.length (race_id r))%nat eqn:El.
  2:{ intros E; inversion E; subst.
      apply summarises_skip; auto. apply skipped_race; right; exact El. }
  destruct (place_of r) as [n|e] eqn:Ep; cbn [and_then]; [|discriminate].
  intros E; inversion E; subst d'; clear E.
  assert (At : forall name, at_venue name r = (n =? name)).
  { intros name. unfold at_venue, eligible. now rewrite Es, El, Ep. }
  destruct Inv as (N & Z & S).
  set (d1 := match get d n with
             | Some _ => d
             | None => set d n (new_stats n)
             end).
  set (entry := get_default d1 n (new_stats n)).
  assert (G1 : get d1 n = Some entry).
  { unfold entry, get_default, d1. destruct (get d n) eqn:G.
    - now rewrite G.
    - now rewrite get_set_same. }
  assert (K1 : NoDup (keys d1)).
  { unfold d1. destruct (get d n) eqn:G; auto.
    rewrite keys_set, G. apply NoDup_app; auto.
    - repeat constructor; simpl; tauto.
    - intros x I [<-|[]]. revert I. now apply get_none_keys. }
  assert (O1 : forall name, n <> name -> get d1 name = get d name).
  { intros name Hn. unfold d1. destruct (get d n); auto.
    now apply get_set_other. }
  assert (En : keibajo entry = n
               /\ race_count entry = List.length (races_at n rs)
               /\ success_count entry = List.length (races_at n rs)
               /\ forall c, column_mean c entry
                            = last_mean py_sum c (races_at n rs)).
  { unfold entry, get_default, d1. destruct (get d n) as [st|] eqn:G.
    - rewrite G. destruct (S n st G) as (a & b & c & _ & e). auto.
    - rewrite get_set_same. rewrite (Z n G). simpl.
      repeat split; auto. intros []; reflexivity. }
  destruct En as (Ek & Er & Ec & Em).
  split; [|split].
  - rewrite keys_set, G1. exact K1.
  - intros name G. destruct (String.eqb_spec n name) as [->|Hn].
    + rewrite get_set_same in G; discriminate.
    + rewrite get_set_other in G by auto. rewrite O1 in G by auto.
      rewrite races_at_snoc, At.
      apply String.eqb_neq in Hn. rewrite Hn, app_nil_r. auto.
  - intros name st G. rewrite races_at_snoc, At.
    destruct (String.eqb_spec n name) as [<-|Hn].
    + rewrite get_set_same in G. inversion G; subst st; clear G.
      unfold count_race. rewrite Es. cbn [keibajo race_count success_count].
      rewrite length_app. simpl Datatypes.length.
      repeat split; auto; try lia.
      intros c. rewrite last_mean_snoc, <- Em. now destruct c.
    + rewrite get_set_other in G by auto. rewrite O1 in G by auto.
      rewrite app_nil_r. auto.
Qed.

Lemma place_summary_loop rs :
  forall d done d',
  summarises py_sum d done ->
  fold_exc (place_summary_step py_sum) rs d = Ret d' ->
  summarises py_sum d' (done ++ rs).
Proof.
  induction rs as [|r rs IH]; intros d done d' Inv; simpl.
  - intros E; inversion E; subst. now rewrite app_nil_r.
  - destruct (place_summary_step py_sum d r) as [d1|e] eqn:E1; simpl;
      [|discriminate].
    intros E. replace (done ++ r :: rs)%list with ((done ++ [r]) ++ rs)%list
      by now rewrite <- app_assoc.
    eapply IH; [|exact E].
    eapply place_summary_step_keeps; eauto.
Qed.

Lemma summary_rows races rows :
  create_place_summary_table py_sum races = Ret rows ->
  exists d, summarises py_sum d races /\ rows = values d.
Proof.
  unfold create_place_summary_table.
  destruct (fold_exc (place_summary_step py_sum) races []) as [d|e] eqn:E;
    simpl;
    [|discriminate].
  intros R; inversion R; subst. exists d. split; auto.
  apply (place_summary_loop races [] [] d summarises_nil E).
Qed.

Lemma row_entry (d : dict string PlaceStats) rs row :
  summarises py_sum d rs -> In row (values d) ->
  get d (keibajo row) = Some row.
Proof.
  intros (N & _ & S) I. unfold values in I.
  apply in_map_iff in I. destruct I as ([name st] & <- & I). simpl.
  pose proof (in_get d name st N I) as G.
  destruct (S name st G) as (-> & _). exact G.
Qed.

Lemma keys_are_names (d : dict string PlaceStats) rs :
  summarises py_sum d rs -> map keibajo (values d) = keys d.
Proof.
  intros (N & _ & S).
  assert (H : forall name st, In (name, st) d -> keibajo st = name).
  { intros name st I. now destruct (S name st (in_get d name st N I)). }
  clear N S. unfold values, keys. rewrite map_map.
  induction d as [|[k v] d IH]; simpl; auto.
  f_equal; [apply H; simpl; auto|]. apply IH. intros; apply H; simpl; auto.
Qed.

(** X17.  One row per venue: the venues of the rows are distinct, a venue has a
    row exactly when a successful race with an identifier of ten or more
    characters was run there, and both counters of the row are the number
    of those races. *)
Theorem one_row_per_venue races rows :
  create_place_summary_table py_sum races = Ret rows ->
  NoDup (map keibajo rows)
  /\ (forall row, In row rows ->
        race_count row = List.length (races_at (keibajo row) races)
        /\ success_count row = race_count row
        /\ (0 < race_count row)%nat)
  /\ (forall name, races_at name races <> [] ->
        exists row, In row rows /\ keibajo row = name).
Proof.
  intros E. destruct (summary_rows races rows E) as (d & Inv & ->).
  split; [|split].
  - rewrite (keys_are_names d races Inv). now destruct Inv.
  - intros row I. pose proof (row_entry d races row Inv I) as G.
    destruct Inv as (_ & _ & S).
    destruct (S _ _ G) as (_ & a & b & c & _). lia.
  - intros name Hn. destruct Inv as (N & Z & S).
    destruct (get d name) as [st|] eqn:G; [|now apply Z in G].
    exists st. split.
    + unfold values. change st with (snd (name, st)).
      apply in_map. now apply get_in.
    + now destruct (S name st G).
Qed.

Lemma last_mean_last c before r after :
  column_odds c r <> [] ->
  (forall r', In r' after -> column_odds c r' = []) ->
  last_mean py_sum c (before ++ r :: after) = mean py_sum (column_odds c r).
Proof.
  intros Hr Ha. unfold last_mean. rewrite fold_left_app. simpl.
  set (a := fold_left _ before 0%float).
  assert (E : new_mean py_sum a (column_odds c r)
              = mean py_sum (column_odds c r)).
  { destruct (column_odds c r); [contradiction|reflexivity]. }
  rewrite E. clear E.
  generalize (mean py_sum (column_odds c r)) as m.
  induction after as [|x xs IH]; intros m; simpl; auto.
  rewrite (Ha x) by (simpl; auto). simpl. apply IH.
  intros; apply Ha; simpl; auto.
Qed.

Lemma last_mean_none c rs :
  (forall r, In r rs -> column_odds c r = []) ->
  last_mean py_sum c rs = 0%float.
Proof.
  unfold last_mean. generalize 0%float as a.
  induction rs as [|x xs IH]; intros a Ha; simpl; auto.
  rewrite (Ha x) by (simpl; auto). simpl. apply IH.
  intros; apply Ha; simpl; auto.
Qed.

(** X18.  An average of a venue row is the mean of one race only: the last race
    of the venue that has odds of that kind.  It is 0 when no race of the
    venue has any. *)
Theorem venue_average_is_of_the_last_race races rows row c :
  create_place_summary_table py_sum races = Ret rows ->
  In row rows ->
  (forall before r after,
     races = (before ++ r :: after)%list ->
     at_venue (keibajo row) r = true ->
     column_odds c r <> [] ->
     (forall r', In r' after -> at_venue (keibajo row) r' = true ->
                 column_odds c r' = []) ->
     column_mean c row = mean py_sum (column_odds c r))
  /\ ((forall r, In r races -> at_venue (keibajo row) r = true ->
                 column_odds c r = []) ->
      column_mean c row = 0%float).
Proof.
  intros E I. destruct (summary_rows races rows E) as (d & Inv & ->).
  pose proof (row_entry d races row Inv I) as G.
  destruct Inv as (_ & _ & S).
  destruct (S _ _ G) as (_ & _ & _ & _ & M). rewrite M. clear M.
  split.
  - intros before r after -> At Hr Ha.
    unfold races_at. rewrite filter_app. simpl. rewrite At.
    apply last_mean_last; auto.
    intros r' Hr'. apply filter_In in Hr'. destruct Hr'; auto.
  - intros Ha. apply last_mean_none.
    intros r Hr. apply filter_In in Hr. destruct Hr; auto.
Qed.

End Summary.

Lemma csv_step_ret name acc r rows :
  csv_step name acc r = Ret rows ->
  rows = (acc ++ if at_venue name r then race_rows r name else [])%list.
Proof.
  unfold csv_step, at_venue, eligible.
  destruct (status r =? "success"); cbn [negb andb].
  2:{ intros E; inversion E. now rewrite app_nil_r. }
  destruct (10 <=? String.length (race_id r))%nat.
  2:{ intros E; inversion E. now rewrite app_nil_r. }
  destruct (place_of r) as [n|e]; cbn [and_then]; [|discriminate].
  destruct (String.eqb_spec n name) as [->|Hn]; intros E; inversion E; auto.
  now rewrite app_nil_r.
Qed.

Lemma csv_loop name rs :
  forall acc rows,
  fold_exc (csv_step name) rs acc = Ret rows ->
  rows = (acc ++ flat_map (fun r => race_rows r name) (races_at name rs))%list.
Proof.
  unfold races_at.
  induction rs as [|r rs IH]; intros acc rows; cbn [fold_exc filter].
  - intros E; inversion E. now rewrite app_nil_r.
  - destruct (csv_step name acc r) as [acc1|e] eqn:E1; cbn [and_then];
      [|discriminate].
    apply csv_step_ret in E1. intros E. apply IH in E. subst rows acc1.
    rewrite <- app_assoc. f_equal.
    destruct (at_venue name r); reflexivity.
Qed.

Lemma race_rows_place r name :
  Forall (fun row => csv_place row = name /\ csv_race_id row = race_id r)
         (race_rows r name).
Proof.
  unfold race_rows, single_rows, pair_rows.
  repeat (apply Forall_app; split); apply Forall_forall; intros x I;
    apply in_map_iff in I; destruct I as (kv & <- & _); simpl; auto.
Qed.

Lemma race_rows_length r name :
  List.length (race_rows r name) = odds_count r.
Proof.
  unfold race_rows, single_rows, pair_rows, odds_count.
  rewrite !length_app, !length_map. lia.
Qed.

(** X19.  The CSV of a venue holds the odds of the races of that venue, race by
    race in the order of the report and, within a race, win, place and
    quinella: every row carries the venue asked for and the identifier of
    a race of that venue, and there are as many rows as those races have
    odds. *)
Theorem csv_holds_the_venue races name rows :
  create_csv_data_for_place races name = Ret rows ->
  rows = flat_map (fun r => race_rows r name) (races_at name races)
  /\ Forall (fun row =>
       csv_place row = name
       /\ exists r, In r races /\ at_venue name r = true
                    /\ csv_race_id row = race_id r) rows
  /\ List.length rows
     = fold_right (fun r n => (odds_count r + n)%nat) 0%nat
                  (races_at name races).
Proof.
  intros E. apply csv_loop in E. simpl in E. subst rows.
  split; [reflexivity|]. split.
  - apply Forall_forall. intros row I. apply in_flat_map in I.
    destruct I as (r & Hr & I). apply filter_In in Hr.
    pose proof (race_rows_place r name) as F.
    rewrite Forall_forall in F. destruct (F row I) as (a & b).
    split; auto. exists r. tauto.
  - induction (races_at name races) as [|r rs IH]; simpl; auto.
    now rewrite length_app, race_rows_length, IH.
Qed.

Lemma one_row_per_venue_witness :
  exists rows,
    create_place_summary_table Samples.plain_sum Samples.day = Ret rows
    /\ map keibajo rows = ["東京"; "京都"]
    /\ map race_count rows = [2; 1]%nat
    /\ NoDup (map keibajo rows)
    /\ (forall row, In row rows ->
          race_count row
          = List.length (races_at (keibajo row) Samples.day)
          /\ success_count row = race_count row
          /\ (0 < race_count row)%nat).
Proof.
  destruct (create_place_summary_table Samples.plain_sum Samples.day)
    as [rows|e] eqn:E; [|vm_compute in E; discriminate E].
  exists rows. split; [reflexivity|].
  destruct (one_row_per_venue Samples.plain_sum Samples.day rows E)
    as (N & C & _).
  vm_compute in E. inversion E; subst rows.
  split; [reflexivity|]. split; [reflexivity|].
  split; [exact N|exact C].
Defined.

Lemma venue_average_is_of_the_last_race_witness :
  exists rows row,
    create_place_summary_table Samples.plain_sum Samples.day = Ret rows
    /\ In row rows
    /\ keibajo row = "東京"
    /\ column_mean Tansho row = mean Samples.plain_sum [10%float].
Proof.
  destruct (create_place_summary_table Samples.plain_sum Samples.day)
    as [[|row rows]|e] eqn:E;
    [vm_compute in E; discriminate E| |vm_compute in E; discriminate E].
  exists (row :: rows), row. split; [reflexivity|].
  split; [now left|].
  assert (K : keibajo row = "東京")
    by (vm_compute in E; inversion E; reflexivity).
  split; [exact K|].
  apply (proj1 (venue_average_is_of_the_last_race
                  Samples.plain_sum Samples.day (row :: rows) row Tansho E
                  (or_introl eq_refl))
           [Samples.tokyo1;
            error_data "2025050102" "Timeout 30000ms exceeded";
            Samples.kyoto1; Samples.short_id]
           Samples.tokyo2 []).
  - reflexivity.
  - rewrite K. reflexivity.
  - discriminate.
  - intros r' [].
Defined.

Lemma csv_holds_the_venue_witness :
  exists rows,
    create_csv_data_for_place Samples.day "東京" = Ret rows
    /\ List.length rows = 5%nat
    /\ Forall (fun row =>
         csv_place row = "東京"
         /\ exists r, In r Samples.day /\ at_venue "東京" r = true
                      /\ csv_race_id row = race_id r) rows.
Proof.
  destruct (create_csv_data_for_place Samples.day "東京") as [rows|e] eqn:E;
    [|vm_compute in E; discriminate E].
  exists rows. split; [reflexivity|].
  destruct (csv_holds_the_venue Samples.day "東京" rows E) as (_ & F & L).
  split; [rewrite L; reflexivity|exact F].
Defined.

End TableFacts.

Module TablesOfReports.

Import PyText PyDict PyDictFacts Eff Scraper Reads Tables TableReads.

Lemma place_summary_step_returns py_sum d r :
  placeable r -> exists d', place_summary_step py_sum d r = Ret d'.
Proof.
  intros P. unfold place_summary_step.
  destruct (status r =? "success") eqn:Es; cbn [negb]; [|eauto].
  destruct (10 <=? String.length (race_id r))%nat; [|eauto].
  apply String.eqb_eq in Es. destruct (P Es) as (n & ->).
  cbn [and_then]. eauto.
Qed.

Lemma csv_step_returns name acc r :
  placeable r -> exists acc', csv_step name acc r = Ret acc'.
Proof.
  intros P. unfold csv_step.
  destruct (status r =? "success") eqn:Es; cbn [negb]; [|eauto].
  destruct (10 <=? String.length (race_id r))%nat; [|eauto].
  apply String.eqb_eq in Es. destruct (P Es) as (n & ->).
  cbn [and_then]. destruct (n =? name); eauto.
Qed.

Lemma fold_exc_returns {A B} (step : A -> B -> exc A) (P : B -> Prop) :
  (forall a b, P b -> exists a', step a b = Ret a') ->
  forall bs, Forall P bs -> forall a, exists a', fold_exc step bs a = Ret a'.
Proof.
  intros S bs F. induction F as [|b bs Hb _ IH]; intros a; simpl; [eauto|].
  destruct (S a b Hb) as (a1 & ->). simpl. apply IH.
Qed.

Lemma get_race_odds_placeable py_float site id w :
  placeable (record_of id (fst (get_race_odds py_float site id w))).
Proof.
  destruct (FetchPaths.get_race_odds_record py_float site id w)
    as (r & w' & E & Id & [(e & ->)|(S & info & I)]);
    rewrite E; cbn [fst record_of]; intros St.
  - discriminate St.
  - unfold place_of. rewrite Id. unfold race_info in I.
    destruct (int (slice 4 6 id)) as [c|e]; [|discriminate I].
    cbn [and_then]. eauto.
Qed.

(** X20.  Both tables of the application can be built from every report of
    [get_daily_odds]: neither raises, for any site, any list of
    identifiers and any venue asked for. *)
Theorem tables_accept_every_report
  py_float py_sum site resolver date w rep w' :
  get_daily_odds py_float site resolver date w = (Ret rep, w') ->
  (exists rows, create_place_summary_table py_sum (races rep) = Ret rows)
  /\ (forall name,
        exists rows, create_csv_data_for_place (races rep) name = Ret rows).
Proof.
  intros E.
  assert (F : Forall placeable (races rep)).
  { unfold get_daily_odds in E. rewrite Batch.get_daily_odds_run in E.
    cbv zeta in E.
    destruct (negb (String.length (normalize_date date) =? 8)%nat);
      [inversion E; constructor|].
    destruct (resolver (normalize_date date)) as [|id rest];
      [inversion E; constructor|].
    pose proof (Batch.daily_loop_records World (get_race_odds py_float site)
                  (id :: rest) w) as Rec.
    destruct (daily_loop (get_race_odds py_float site) (id :: rest) w)
      as [t w1].
    inversion E; subst. cbn [races]. simpl fst in Rec. rewrite Rec.
    apply Batch.batch_records_all. apply get_race_odds_placeable. }
  split.
  - unfold create_place_summary_table.
    destruct (fold_exc_returns (place_summary_step py_sum) placeable
                (fun a b => place_summary_step_returns py_sum a b) _ F [])
      as (d & ->).
    cbn [and_then]. eauto.
  - intros name. unfold create_csv_data_for_place.
    apply (fold_exc_returns (csv_step name) placeable
             (fun a b => csv_step_returns name a b) _ F).
Qed.

Lemma tables_accept_every_report_witness :
  exists rep w',
    get_daily_odds Fixture.decimal (Fixture.flaky_site Fixture.race_page)
                   Fixture.three_races "2025-06-01" Fixture.clean
    = (Ret rep, w')
    /\ (exists rows,
          create_place_summary_table Samples.plain_sum (races rep)
          = Ret rows)
    /\ (forall name,
          exists rows,
            create_csv_data_for_place (races rep) name = Ret rows).
Proof.
  destruct (get_daily_odds Fixture.decimal
              (Fixture.flaky_site Fixture.race_page)
              Fixture.three_races "2025-06-01" Fixture.clean)
    as [[rep|e] w'] eqn:E; [|vm_compute in E; discriminate E].
  exists rep, w'. split; [reflexivity|].
  exact (tables_accept_every_report _ _ _ _ _ _ _ _ E).
Defined.

Lemma append_cancel_r (c a b : string) : a ++ c = b ++ c -> a = b.
Proof.
  revert b; induction a as [|x a IH]; intros [|y b] E; simpl in E; auto.
  - apply (f_equal String.length) in E. simpl in E.
    rewrite PostTime.length_append in E. lia.
  - apply (f_equal String.length) in E. simpl in E.
    rewrite PostTime.length_append in E. lia.
  - inversion E; subst. f_equal. now apply IH.
Qed.

Lemma to_int_not_nil (n : Z) :
  Z.to_int n <> Decimal.Pos Decimal.Nil
  /\ Z.to_int n <> Decimal.Neg Decimal.Nil.
Proof.
  destruct n as [|p|p]; simpl; split; try discriminate;
    intros E; inversion E as [E'];
    now apply DecimalPos.Unsigned.to_uint_nonnil in E'.
Qed.

Lemma str_of_int_inj (a b : Z) : str_of_int a = str_of_int b -> a = b.
Proof.
  unfold str_of_int. intros E.
  apply DecimalZ.to_int_inj.
  destruct (to_int_not_nil a) as (A1 & A2).
  destruct (to_int_not_nil b) as (B1 & B2).
  pose proof (NilZero.isi (Z.to_int a) A1 A2) as Ia.
  pose proof (NilZero.isi (Z.to_int b) B1 B2) as Ib.
  rewrite E in Ia. rewrite Ia in Ib. now inversion Ib.
Qed.

Lemma place_name_inj (a b : Z) :
  App.place_name a = App.place_name b -> a = b.
Proof.
  unfold App.place_name, App.place_mapping, place_mapping, get_default.
  cbn [get]. unfold key_eqb, Key_Z.
  repeat match goal with
         | |- context [(?k =? a)%Z] => destruct (Z.eqb_spec k a)
         | |- context [(?k =? b)%Z] => destruct (Z.eqb_spec k b)
         end;
    try (intros; subst; lia);
    try (intros E; discriminate E).
  intros E. apply str_of_int_inj. apply (append_cancel_r ")").
  simpl in E. injection E. auto.
Qed.

(** X21.  Two venue codes never share a label of the application, so a row of
    its summary and a CSV are about one code: the ten known codes have
    ten distinct names, and the label of an unknown code spells the
    code. *)
Theorem venue_labels_are_distinct (a b : Z) :
  a <> b -> App.place_name a <> App.place_name b.
Proof. intros N E. apply N. now apply place_name_inj. Qed.

Lemma venue_labels_are_distinct_witness :
  App.place_name 11 <> App.place_name 12
  /\ App.place_name 5 <> App.place_name 11.
Proof.
  split; apply venue_labels_are_distinct; discriminate.
Defined.

End TablesOfReports.
